(* ===== verification/_CoqProject ===== *)
-Q . S2P
Prelude.v
PyStr.v
ReSub.v
UStr.v
Title.v
Console.v
Drives.v
PyEffects.v
Igdb.v
Window.v
Payload.v
Burner.v
Settings.v
App.v
