(* ===== verification/Prelude.v ===== *)
(** * GameDiscBurner: a verification development of src/main.py and src/settings.py

    The program is a PyQt6 desktop tool (src/main.py).  The user picks a
    disc image.  The tool guesses the game title and the target console
    from the file name, looks the title up on the IGDB web API, optionally
    runs an external patcher, and launches ImgBurn to burn the image to an
    optical drive.  src/settings.py is a Python module of configuration
    values.

    ** Files, in dependency order, and the code each one models

    - [Prelude.v] (this file): the [py_scope] notation scope, the tactics
      [case_ifs], [case_matches] and [inv], the hint databases [pyhints]
      and [pyrw], and generic lemmas on strings and lists.
    - [PyStr.v]: the bytes of the window's strings: byte values for
      [repr] and the separators of [ntpath.join].
    - [ReSub.v]: the scanning loops [take_while]/[drop_while] and the loop
      of [re.sub] over any character type, on fuel, with the one-character
      class and [p+] matchers.
    - [UStr.v]: a Python [str] as a list of code points ([ustr]).  It holds
      [Py_UNICODE_ISSPACE], [str.strip()], [str.title()] and [str.lower()]
      (CPython's [do_title] and [do_lower]), [startswith], [endswith] and
      [in].  The Unicode character database that [title] and [lower] read
      is the interface [UnicodeDB] (a Class); [UnicodeAscii] states its
      ASCII entries, and [ascii_db] and [sample_db] are two instances.
      A Stdlib [string] of the window holds the UTF-8 encoding of a
      [str]; [utf8_decode] and [utf8_encode] are proved inverse on scalar
      values.
    - [Title.v], Module [Normalizer]: [GameDiscBurner.smart_game_name]
      (main.py 189-196) on code points.  It is [ntpath.basename] with
      Python 3.12's [splitroot] (drive letters and UNC drives),
      [genericpath._splitext], the three [re.sub] passes, the [\s+]
      collapse, [strip()] and [title()], in a Section over the database.
    - [Console.v], Module [Classifier]: [detect_console] (198-217) on code
      points, in a Section over the database, returning the label strings
      the code returns, and the spec's ordered rule table [spec_rules].
    - [Drives.v], Module [DriveEnum]: [find_dvd_drives] (258-268).  It is a
      Section over the two Win32 queries, with the ctypes [c_int] result
      written out.
    - [PyEffects.v], Module [Py]: the Python runtime and the outside world.
      It holds the exceptions [exc], JSON values, HTTP responses, and an
      environment record [env] that answers the file-system, process, HTTP
      and drive queries.  An [io] record holds the user's pending answers to
      message boxes and the trace of observable events.  Handlers are written
      in the state-and-exception monad [M S A] (notation [let*]).  The file
      also states the effect predicates [spawn_free], [keeps_state],
      [never_raises], [only_exceptions], [preserves], [oblivious] and
      [post], with their closure lemmas in the hint database [effects] and
      the tactic [effects_auto].
    - [Igdb.v], Module [Igdb]: [IGDBClient] (22-65), [fetch_cover_url]
      (244-248) and the body of [ImageDownloadThread.run] (73-82).
    - [Window.v], Module [Win]: the attributes of the [GameDiscBurner]
      window (116-178), its style sheet, and the comparison [console_is]
      of an optional console label with a string.  The state also holds
      the image threads that still run.
    - [Payload.v], Module [Payload]: [apply_payload_if_needed] (284-324).
      It also declares the interface [PayloadStep] (a Class), which states
      what [burn_game] needs of that step: it keeps the window, starts no
      process, and raises nothing.  The instance [apply_payload_step]
      discharges it.
    - [Burner.v], Module [Burner]: [burn_game] (325-379) with
      [find_dvd_drives], [manual_drive_selection] (270-282) and
      [show_console_instruction] (381-427), whose dict [instructions] is an
      association list read by [dict_get].  It is written in a Section
      over any [PayloadStep].
    - [Settings.v], Module [Settings]: the [settings] module namespace as a
      stdpp [gmap string pyval], [get_theme] (settings.py 29-30), and
      [SettingsDialog] (main.py 85-114).
    - [App.v], Module [App]: [GameDiscBurner.__init__] with [apply_theme],
      and [main], as [app_init] and [app_start]; the slots [select_file], [load_game_art],
      [on_art_loaded] and [open_settings]; the image threads; and the Qt
      event loop as a step function [app_step] on a system record
      [sys].  That record holds the settings namespace, the window, the
      queued [image_ready] signals, the io, and the process status.
      [reachable] is the inductive set of systems the program reaches.
      Everything is in a Section over the Unicode database; the witnesses
      at the end of the file run the program with [ascii_db].

    Data flow: a file selection runs the normalizer and the classifier.
    It then runs the IGDB search synchronously and starts a download
    thread.  The thread's [image_ready] signal is queued and later
    delivered to [on_art_loaded].  A click on "Burn Game" runs the drive
    enumerator, the drive confirmation, the payload step and then ImgBurn.

    ** What the theorems show (claims C1-C40)

    - Burn safety ([Burner.v]).  ImgBurn is started only on the happy path
      (C1), with the exact argument vector.  [NameError] is raised exactly
      when the manual drive dialog is reached (C2).
    - The running application ([App.v]).  The invariants are proved by
      induction on [reachable].  An enabled burn button goes with a
      consistent selection (C3).  With the burn handler's spawn lemma, the
      image a click on Burn Game hands to ImgBurn is the one whose console
      and title the window shows (C19).  Selecting a game never stops the
      program, and leaves every running download running (C4).  Every
      running download fetches an IGDB cover URL or the empty URL (C13).
      A superseded download still shows its cover after the next game is
      selected (C14).  The gear button always crashes (C5).  The IGDB
      client, and so the token of every search, is the one built at
      startup (C26).  The style sheet is the dark one [apply_theme] set at
      startup (C29).  A missing config.json (C31) and a rejected token
      request (C36) each end the program at startup with status 1 and a
      message of their own.  The "Loading box art..." text is never left
      visible (C34).  Liveness: a running download, once its thread runs
      and the main loop delivers the queued signals, is shown (C37).
    - Payload ([Payload.v]).  The patcher runs only after a Yes (C6).  The
      exact failure condition (C7).  For an image the classifier does not
      call PS2 the step never fails (C18).
    - Instructions ([Burner.v]).  Composed with the classifier, every label
      but Unknown finds its entry of the instructions dict (C20).
    - Classifier ([Console.v]).  Refinement of the spec's ordered rule
      table (C8).  Dead labels (C21).  The exact preimages of Unknown and
      PC (C22, C23), all for every database.
    - Drives ([Drives.v]).  The shifting loop equals a filter over
      [Z.testbit] (C9).  Only the 26 low bits matter, also for a negative
      [c_int] (C24).  The shape of the result (C25).
    - Normalizer ([Title.v]).  For every database with CPython's ASCII
      entries: the output alphabet (C10), the spacing (C11), idempotence
      (C12), the title-case shape that [str.istitle()] checks (C35), and
      independence from the rest of the database (C38).  The four
      patterns of its [re.sub] calls only match non-empty parts of their
      input, so each loop terminates within the fuel [re_sub] gives it
      (C40).
    - IGDB ([Igdb.v]).  A network error raises out of [search_game] (C15).
      The query has exactly two quotes (C16).  The no-result branch (C27)
      and the found branch (C28).  The download thread never raises (C30).
    - Settings ([Settings.v]).  The dialog raises [AttributeError] for
      [FONT_SIZE] (C17).  [get_theme] (C32).  [save_settings] (C33).  The
      dialog writes back exactly what it read when the values are items
      of its boxes (C39, a round trip).

    Examples on fixed inputs back three findings without being claims: the
    spec's title example and two divergences ([smart_game_name_examples]),
    and the classifier reading folder names ([detect_console_whole_path]).

    ** Modelling choices, bounds and fuel

    A Python [str] is a list of code points ([UStr.v]) in the normalizer
    and the classifier.  The window's [string]s hold UTF-8, and the two
    are applied through [ustr_of_string] and [string_of_ustr].
    [str.title()] and [str.lower()] read the Unicode database through the
    [UnicodeDB] interface.  The theorems assume at most its ASCII entries
    ([UnicodeAscii]), and the normalizer's result depends on nothing else
    (C38).  [re.sub] runs with fuel equal to the length of its input,
    which is enough because every iteration consumes at least one
    character (C40).  [os.path] is [ntpath], since the program imports
    [ctypes.windll] and only runs on Windows.  The [GetLogicalDrives]
    result is an unbounded [Z] passed through ctypes' [c_int]
    wrap-around.

    An exception that escapes a Qt slot stops the system, because PyQt6
    aborts the process there.  Rebinding [self.img_thread] (main.py 238)
    does not destroy the previous [QThread] while its [run] executes,
    since that frame holds the thread: superseded downloads run on beside
    the new one and their [image_ready] signals stay connected.  Handlers
    run atomically between events; a download thread's [run] is one
    [ThreadRun] event, and its signal is queued until a [Deliver] event.
    Modal dialogs answer from the [io_answers] list, where an exhausted
    list answers No.  The file dialog's answer is the path carried by the
    [ClickSelect] event.

    Not modelled:
    - the Qt widget tree, layouts, window title and size, icons and pixmap
      scaling; the window's style sheet is the one field of the widget
      tree that is kept, as the string [apply_theme] sets; a downloaded
      image is a value that is null or not;
    - the JSON decoder and the HTTP client, which the environment answers
      (a request carries the Python values of its parameters and headers);
    - the external executables;
    - the destruction of a finished superseded thread object, which
      PyQt may defer, and the end of the event loop: closing the window
      returns from [app.exec()] into [sys.exit] (main.py 434), after
      which the interpreter's shutdown destroys the window and a download
      thread that may still run in an order the code does not determine.
*)

From Stdlib Require Export String Ascii List Bool ZArith Lia.
Export ListNotations.

Declare Scope py_scope.
Delimit Scope py_scope with py.

Create HintDb pyhints.
Create Rewrite HintDb pyrw.

(** Destruct the boolean tests of the goal, remembering their equations. *)
Ltac case_ifs :=
  repeat match goal with
  | |- context [if ?b then _ else _] =>
      lazymatch b with
      | context [if _ then _ else _] => fail
      | _ => destruct b eqn:?
      end
  end.

(** Destruct every [match] scrutinee of the goal. *)
Ltac case_matches :=
  repeat match goal with
  | |- context [match ?x with _ => _ end] => destruct x
  end.

Ltac inv H := inversion H; subst; clear H.

(** ** Generic lemmas on strings *)

Lemma string_app_assoc (a b c : string) :
  (a ++ b ++ c)%string = ((a ++ b) ++ c)%string.
Proof. induction a; simpl; congruence. Qed.

Lemma string_app_nil_r (a : string) : (a ++ "")%string = a.
Proof. induction a; simpl; congruence. Qed.

Lemma string_length_app (a b : string) :
  String.length (a ++ b) = String.length a + String.length b.
Proof. induction a; simpl; auto. Qed.

Lemma list_ascii_of_string_app (a b : string) :
  list_ascii_of_string (a ++ b) = list_ascii_of_string a ++ list_ascii_of_string b.
Proof. induction a; simpl; f_equal; auto. Qed.

#[export] Hint Rewrite string_app_nil_r string_length_app list_ascii_of_string_app : pyrw.

(** ** Generic lemmas on lists *)

Lemma in_skipn_in {A} (x : A) n l : In x (skipn n l) -> In x l.
Proof. intros H. rewrite <- (firstn_skipn n l). apply in_or_app. now right. Qed.

#[export] Hint Resolve in_skipn_in : pyhints.

Lemma forallb_rev {A} (f : A -> bool) l : forallb f (rev l) = forallb f l.
Proof.
  induction l as [|x l IH]; simpl; [reflexivity|].
  rewrite forallb_app, IH. simpl. now rewrite andb_true_r, andb_comm.
Qed.

Lemma NoDup_map_filter {A B} (f : A -> B) (p : A -> bool) l :
  NoDup (map f l) -> NoDup (map f (filter p l)).
Proof.
  induction l as [|x l IH]; simpl; [auto|]. intros H. inv H.
  destruct (p x); simpl; auto. constructor; auto.
  intros Hin. apply H2. apply in_map_iff in Hin as (y & Hy & Hin).
  apply filter_In in Hin as [Hin _]. rewrite <- Hy. now apply in_map.
Qed.

Lemma filter_all_false {A} (p : A -> bool) l :
  (forall x, In x l -> p x = false) -> filter p l = [].
Proof.
  induction l as [|x l IH]; simpl; intros H; [reflexivity|].
  rewrite H by now left. apply IH. intros y Hy. apply H. now right.
Qed.
