(* ===== verification/PyStr.v ===== *)
(** The characters of the window's [string]s, which hold the UTF-8 bytes
    of a Python [str] ([UStr.v]): the byte value of a character, used by
    [repr] in the exception messages ([PyEffects.v]), and the path
    separators of [ntpath.join] ([Payload.v]).  A separator is ASCII, and
    no byte of the UTF-8 encoding of a non-ASCII character is ASCII, so
    these tests read the same on the bytes as on the code points. *)

From S2P Require Import Prelude.

Abbreviation pystr := (list ascii).

Local Open Scope char_scope.

Definition code (c : ascii) : N := N_of_ascii c.

(** The separators of [ntpath], [/] and [\]. *)
Definition is_sep (c : ascii) : bool := (c =? "/") || (c =? "\").
