(* ===== verification/ReSub.v ===== *)
(** The scanning loops of Python's string methods and the left-to-right
    loop of [re.sub], over strings given as lists of characters of any type
    [A].  A [matcher] gives the length of the match of a pattern at the
    start of its argument.  [re_sub] runs on fuel, and [re_sub_terminates]
    shows that the length of the input is enough fuel, because every
    iteration consumes at least one character.  The patterns of
    src/main.py never match the empty string, and the loop treats a
    [Some 0] as no match. *)

From S2P Require Import Prelude.

Section Scan.
Context {A : Type}.

Fixpoint take_while (p : A -> bool) (s : list A) : list A :=
  match s with
  | [] => []
  | c :: s' => if p c then c :: take_while p s' else []
  end.

Fixpoint drop_while (p : A -> bool) (s : list A) : list A :=
  match s with
  | [] => []
  | c :: s' => if p c then drop_while p s' else s
  end.
End Scan.

Definition matcher (A : Type) : Type := list A -> option nat.

(** [re.sub(pattern, repl, s)]: at each position, a match is replaced by
    [repl] and the scan resumes after it; otherwise the character is kept. *)
Fixpoint re_sub_fuel {A} (fuel : nat) (m : matcher A) (repl s : list A) : list A :=
  match fuel with
  | O => s
  | S fuel' =>
      match s with
      | [] => []
      | c :: s' =>
          match m s with
          | Some (S k) => repl ++ re_sub_fuel fuel' m repl (skipn (S k) s)
          | _ => c :: re_sub_fuel fuel' m repl s'
          end
      end
  end.

Definition re_sub {A} (m : matcher A) (repl s : list A) : list A :=
  re_sub_fuel (length s) m repl s.

(** A one-character class [[...]] given by its membership test. *)
Definition class_matcher {A} (inclass : A -> bool) : matcher A := fun s =>
  match s with
  | c :: _ => if inclass c then Some 1 else None
  | [] => None
  end.

(** [p+] for a one-character class [p]: the longest run of such characters. *)
Definition run_matcher {A} (p : A -> bool) : matcher A := fun s =>
  match length (take_while p s) with
  | O => None
  | n => Some n
  end.

(** A pattern that consumes input: each of its matches is non-empty and
    lies within the string it is matched against. *)
Definition consumes {A} (m : matcher A) : Prop :=
  forall s k, m s = Some k -> 1 <= k <= length s.

(** No two adjacent [true]s: for [map p s], no two adjacent characters of
    [s] in the class [p]. *)
Fixpoint no_two_true (l : list bool) : bool :=
  match l with
  | [] => true
  | a :: t => negb (a && hd false t) && no_two_true t
  end.

(** ** Strong induction on the length of a list *)

Lemma list_len_ind {A} (P : list A -> Prop) :
  (forall s, (forall t, length t < length s -> P t) -> P s) -> forall s, P s.
Proof.
  intros H s. remember (length s) as n eqn:E.
  revert s E. induction n as [n IH] using lt_wf_ind.
  intros s ->. apply H. intros t Ht. exact (IH _ Ht t eq_refl).
Qed.

(** ** [take_while] and [drop_while] *)

Section WhileLemmas.
Context {A : Type}.
Variable p : A -> bool.

Lemma take_drop_while s : take_while p s ++ drop_while p s = s.
Proof. induction s as [|c s IH]; simpl; [|destruct (p c)]; simpl; congruence. Qed.

Lemma skipn_take_while s : skipn (length (take_while p s)) s = drop_while p s.
Proof. induction s as [|c s IH]; simpl; [|destruct (p c)]; auto. Qed.

Lemma length_take_while s : length (take_while p s) <= length s.
Proof. induction s as [|c s IH]; simpl; [|destruct (p c); simpl]; lia. Qed.

Lemma drop_while_head s c s' : drop_while p s = c :: s' -> p c = false.
Proof.
  induction s as [|x s IH]; simpl; [discriminate|].
  destruct (p x) eqn:E; [auto | intros H; inv H; auto].
Qed.

Lemma drop_while_nil s : drop_while p s = [] -> Forall (fun c => p c = true) s.
Proof.
  induction s as [|x s IH]; simpl; [auto|].
  destruct (p x) eqn:E; [auto | discriminate].
Qed.

Lemma take_while_all s : Forall (fun c => p c = true) s -> take_while p s = s.
Proof. induction 1 as [|x s Hx _ IH]; simpl; [|rewrite Hx]; congruence. Qed.

Lemma drop_while_all s : Forall (fun c => p c = true) s -> drop_while p s = [].
Proof. induction 1 as [|x s Hx _ IH]; simpl; [|rewrite Hx]; auto. Qed.

Lemma drop_while_suffix s : exists a, s = a ++ drop_while p s.
Proof. exists (take_while p s). symmetry. apply take_drop_while. Qed.

Lemma length_drop_while s : length (drop_while p s) <= length s.
Proof. induction s as [|c s IH]; simpl; [|destruct (p c); simpl]; lia. Qed.

Lemma drop_while_first s : drop_while p s = s \/ length (drop_while p s) < length s.
Proof.
  destruct s as [|c s]; simpl; [auto|]. destruct (p c); [|auto].
  right. pose proof (length_drop_while s). simpl. lia.
Qed.
End WhileLemmas.

(** ** The substitution engine *)

Section ReSubLemmas.
Context {A : Type}.
Variable m : matcher A.
Variable repl : list A.

Lemma re_sub_fuel_stable f1 f2 s :
    length s <= f1 -> length s <= f2 -> re_sub_fuel f1 m repl s = re_sub_fuel f2 m repl s.
Proof.
  revert f2 s. induction f1 as [|f1 IH]; intros [|f2] [|c s] H1 H2; simpl in *;
    try lia; try reflexivity.
  destruct (m (c :: s)) as [[|k]|].
  - f_equal. apply IH; lia.
  - f_equal. apply IH; rewrite ?length_skipn; simpl; lia.
  - f_equal. apply IH; lia.
Qed.

(** The loop of [re.sub] terminates: every iteration consumes at
    least one character of the input, so the fuel [length s] that [re_sub]
    gives it already runs the scan to the end of the input, and any larger
    fuel computes the same result. *)
Theorem re_sub_terminates f s :
    length s <= f -> re_sub_fuel f m repl s = re_sub m repl s.
Proof. intros H. apply re_sub_fuel_stable; lia. Qed.

Lemma re_sub_nil : re_sub m repl [] = [].
Proof. reflexivity. Qed.

Lemma re_sub_match c s k :
  m (c :: s) = Some (S k) ->
  re_sub m repl (c :: s) = repl ++ re_sub m repl (skipn k s).
Proof.
  intros Hm. unfold re_sub at 1. simpl. rewrite Hm. f_equal.
  apply re_sub_fuel_stable; rewrite ?length_skipn; simpl; lia.
Qed.

Lemma re_sub_nomatch c s :
    (forall k, m (c :: s) <> Some (S k)) ->
    re_sub m repl (c :: s) = c :: re_sub m repl s.
Proof.
  intros Hm. unfold re_sub at 1. simpl.
  destruct (m (c :: s)) as [[|k]|] eqn:E; [| exfalso; eapply Hm; eauto |];
    f_equal; apply re_sub_fuel_stable; simpl; lia.
Qed.

(** Every character of the output comes from the input or from [repl]. *)
Lemma re_sub_incl s x : In x (re_sub m repl s) -> In x s \/ In x repl.
Proof.
  induction s as [[|c s] IH] using list_len_ind; [simpl; tauto|].
  destruct (m (c :: s)) as [[|k]|] eqn:E.
  - rewrite re_sub_nomatch by congruence. intros [<-|Hx]; [left; now left|].
    destruct (IH s) as [H|H]; simpl; auto.
  - rewrite (re_sub_match _ _ _ E). intros [Hx|Hx]%in_app_or; [now right|].
    destruct (IH (skipn k s)) as [H|H]; auto;
      [rewrite length_skipn; simpl; lia | left; right; eapply in_skipn_in; eauto].
  - rewrite re_sub_nomatch by congruence. intros [<-|Hx]; [left; now left|].
    destruct (IH s) as [H|H]; simpl; auto.
Qed.

(** The substitution is the identity when, at every position, the pattern
    does not match or matches one character that [repl] writes back. *)
Lemma re_sub_id s :
  (forall a c t, s = a ++ c :: t -> m (c :: t) = None \/ (m (c :: t) = Some 1 /\ repl = [c])) ->
  re_sub m repl s = s.
Proof.
  induction s as [|c s IH]; intros H; [reflexivity|].
  assert (IH' : re_sub m repl s = s).
  { apply IH. intros a x t ->. apply (H (c :: a)). reflexivity. }
  destruct (H [] c s eq_refl) as [E|[E Hr]].
  - rewrite re_sub_nomatch by congruence. now rewrite IH'.
  - rewrite (re_sub_match _ _ 0 E). simpl. rewrite IH', Hr. reflexivity.
Qed.

Lemma forallb_re_sub (q : A -> bool) s :
  forallb q s = true -> forallb q repl = true -> forallb q (re_sub m repl s) = true.
Proof.
  rewrite !forallb_forall. intros Hs Hr x Hx.
  destruct (re_sub_incl _ _ Hx); auto.
Qed.
End ReSubLemmas.

(** A one-character class replaced by one character is a [map]. *)
Lemma re_sub_class {A} (p : A -> bool) (r : A) s :
  re_sub (class_matcher p) [r] s = map (fun c => if p c then r else c) s.
Proof.
  induction s as [|c s IH]; [reflexivity|].
  destruct (p c) eqn:E.
  - rewrite (re_sub_match _ _ c s 0) by (simpl; now rewrite E). simpl. now rewrite E, IH.
  - rewrite re_sub_nomatch by (simpl; rewrite E; congruence). simpl. now rewrite E, IH.
Qed.

Section Runs.
Context {A : Type}.
Variable p : A -> bool.

Lemma run_matcher_no c s : p c = false -> run_matcher p (c :: s) = None.
Proof. intros H. unfold run_matcher. simpl. now rewrite H. Qed.

Lemma run_matcher_yes c s :
  p c = true -> run_matcher p (c :: s) = Some (S (length (take_while p s))).
Proof. intros H. unfold run_matcher. simpl. now rewrite H. Qed.

Lemma re_sub_run_no repl c s :
  p c = false -> re_sub (run_matcher p) repl (c :: s) = c :: re_sub (run_matcher p) repl s.
Proof. intros H. apply re_sub_nomatch. now rewrite run_matcher_no. Qed.

Lemma re_sub_run_yes repl c s :
  p c = true ->
  re_sub (run_matcher p) repl (c :: s) = repl ++ re_sub (run_matcher p) repl (drop_while p s).
Proof.
  intros H. rewrite (re_sub_match _ _ _ _ _ (run_matcher_yes c s H)).
  now rewrite skipn_take_while.
Qed.
Lemma run_matcher_consumes : consumes (run_matcher p).
Proof.
  intros s k. unfold run_matcher. pose proof (length_take_while p s).
  destruct (length (take_while p s)) eqn:E; [discriminate|]. intros Hk. inv Hk. lia.
Qed.
End Runs.

Lemma class_matcher_consumes {A} (p : A -> bool) : consumes (class_matcher p).
Proof.
  intros [|c s] k; simpl; [discriminate|]. destruct (p c); [|discriminate]. intros H. inv H. lia.
Qed.

(** ** Adjacent characters of a class *)

Lemma last_rev {A} (l : list A) d : last (rev l) d = hd d l.
Proof. destruct l as [|a l]; [reflexivity|]. simpl. apply last_last. Qed.

Lemma list_eq_dec' {A} (l : list A) : {l = []} + {l <> []}.
Proof. destruct l; [left | right]; congruence. Qed.

Lemma hd_app_ne {A} (l m : list A) d : l <> [] -> hd d (l ++ m) = hd d l.
Proof. destruct l; [congruence | reflexivity]. Qed.

Lemma no_two_true_app_r l1 l2 : no_two_true (l1 ++ l2) = true -> no_two_true l2 = true.
Proof. induction l1 as [|a l1 IH]; simpl; [auto|]. rewrite andb_true_iff. intros [_ H]; auto. Qed.

Lemma no_two_true_snoc l x :
  no_two_true (l ++ [x]) = no_two_true l && negb (last l false && x).
Proof.
  induction l as [|a [|b l] IH]; [now destruct x | now destruct a, x |].
  change ((a :: b :: l) ++ [x]) with (a :: ((b :: l) ++ [x])).
  cbn [no_two_true]. rewrite IH. cbn [hd app]. change (last (a :: b :: l) false) with (last (b :: l) false).
  rewrite andb_assoc. reflexivity.
Qed.

Lemma no_two_true_rev l : no_two_true (rev l) = no_two_true l.
Proof.
  induction l as [|a l IH]; [reflexivity|]. simpl. rewrite no_two_true_snoc, IH, last_rev.
  rewrite andb_comm. now rewrite (andb_comm (hd false l) a).
Qed.

Section Adjacent.
Context {A : Type}.
Variable p : A -> bool.

Lemma hd_map_drop_while s : hd false (map p (drop_while p s)) = false.
Proof. induction s as [|c s IH]; simpl; [|destruct (p c) eqn:E]; auto. Qed.

Lemma drop_while_keep s : hd false (map p s) = false -> drop_while p s = s.
Proof. destruct s as [|c s]; simpl; [auto | now intros ->]. Qed.

Lemma no_two_true_suffix s : no_two_true (map p s) = true -> no_two_true (map p (drop_while p s)) = true.
Proof.
  destruct (drop_while_suffix p s) as [a E]. rewrite E at 1. rewrite map_app.
  apply no_two_true_app_r.
Qed.

Lemma no_two_true_mid a c d t :
  no_two_true (map p (a ++ c :: d :: t)) = true -> p c = true -> p d = false.
Proof.
  rewrite map_app. intros H%no_two_true_app_r Hc. simpl in H. rewrite Hc in H.
  destruct (p d); auto.
Qed.

(** [s.strip()] for the class [p]: no character of [p] at either end, and
    no new adjacent pair. *)
Lemma strip_spaced s :
  let t := rev (drop_while p (rev (drop_while p s))) in
  no_two_true (map p s) = true ->
  no_two_true (map p t) = true /\ hd false (map p t) = false /\ hd false (rev (map p t)) = false.
Proof.
  intros t Hs. subst t. set (t1 := drop_while p s). set (t2 := drop_while p (rev t1)).
  destruct (drop_while_suffix p (rev t1)) as [a Ea]. fold t2 in Ea.
  rewrite <- map_rev, rev_involutive. split; [|split].
  - rewrite map_rev, no_two_true_rev. apply no_two_true_suffix.
    rewrite map_rev, no_two_true_rev. now apply no_two_true_suffix.
  - destruct (list_eq_dec' t2) as [->|Hne]; [reflexivity|].
    assert (E1 : t1 = rev t2 ++ rev a) by (rewrite <- rev_app_distr, <- Ea; now rewrite rev_involutive).
    rewrite <- (hd_app_ne (map p (rev t2)) (map p (rev a))), <- map_app, <- E1
      by (intros Hm%map_eq_nil%(f_equal (@rev A)); rewrite rev_involutive in Hm; auto).
    apply hd_map_drop_while.
  - apply hd_map_drop_while.
Qed.

(** [re.sub(p+, r, s)] with [r] in [p] leaves no two adjacent characters of [p]. *)
Lemma re_sub_run_spaced r s :
  p r = true -> no_two_true (map p (re_sub (run_matcher p) [r] s)) = true.
Proof.
  intros Hr. induction s as [[|c s] IH] using list_len_ind; [reflexivity|].
  destruct (p c) eqn:Ec.
  - rewrite re_sub_run_yes by exact Ec.
    destruct (drop_while p s) as [|d t] eqn:Ed; [simpl; now destruct (p r)|].
    pose proof (drop_while_head p s d t Ed) as Hd.
    rewrite re_sub_run_no by exact Hd. pose proof (length_drop_while p s) as L. rewrite Ed in L.
    specialize (IH (d :: t) ltac:(simpl in *; lia)). rewrite re_sub_run_no in IH by exact Hd.
    simpl in *. rewrite Hr, Hd in *. exact IH.
  - rewrite re_sub_run_no by exact Ec. specialize (IH s ltac:(simpl; lia)).
    simpl. rewrite Ec. exact IH.
Qed.
End Adjacent.

Lemma re_sub_terminates_witness :
  (length [0; 1; 0] <= 5)%nat /\
  re_sub_fuel 5 (class_matcher (Nat.eqb 0)) [9] [0; 1; 0] = re_sub (class_matcher (Nat.eqb 0)) [9] [0; 1; 0].
Proof. split; [simpl; lia | apply re_sub_terminates; simpl; lia]. Defined.
