(* ===== verification/UStr.v ===== *)
(** Python [str] values as lists of Unicode code points ([ustr]), with the
    CPython character classes and [str] methods that the title normalizer
    and the console classifier use ([strip], [title], [lower], [startswith],
    [endswith], [in]), and UTF-8, the encoding in which a Stdlib [string]
    of the model holds a Python [str].

    [str.title] and [str.lower] read CPython's Unicode character database.
    The database is an interface, the class [UnicodeDB]: whether a
    character is cased, its title-case mapping, and its lower-case mapping
    in context (the context matters for the final sigma).  The class
    [UnicodeAscii] states what CPython's database gives on ASCII
    characters.  [ascii_db] is a database with those ASCII entries, and
    [sample_db] also has some Latin-1 letters and U+0130; the normalizer's
    results do not depend on the rest of the database ([Title.v]).

    [utf8_decode] replaces a byte that does not start a well-formed
    sequence by U+FFFD.  Such input does not represent any [str]. *)

From S2P Require Import Prelude ReSub.

Abbreviation ustr := (list N).

Local Open Scope N_scope.

(** ** Character classes *)

Definition u_in (lo hi c : N) : bool := (lo <=? c) && (c <=? hi).

Definition u_isupper_ascii (c : N) : bool := u_in 65 90 c.
Definition u_islower_ascii (c : N) : bool := u_in 97 122 c.
Definition u_isdigit_ascii (c : N) : bool := u_in 48 57 c.

Definition u_lower_ascii (c : N) : N := if u_isupper_ascii c then c + 32 else c.
Definition u_upper_ascii (c : N) : N := if u_islower_ascii c then c - 32 else c.

(** [Py_UNICODE_ISSPACE], used by [str.strip()] and by [\s] in a [str]
    pattern: the characters of bidirectional type WS, B or S and those of
    category Zs. *)
Definition u_isspace (c : N) : bool :=
  u_in 9 13 c || u_in 28 32 c || (c =? 133) || (c =? 160) || (c =? 5760) ||
  u_in 8192 8202 c || (c =? 8232) || (c =? 8233) || (c =? 8239) || (c =? 8287) ||
  (c =? 12288).

(** The separators of [ntpath], [/] and [\]. *)
Definition u_is_sep (c : N) : bool := (c =? 47) || (c =? 92).

(** ** The Unicode character database *)

Class UnicodeDB := {
  ucd_is_cased : N -> bool;            (* [_PyUnicode_IsCased] *)
  ucd_to_title : N -> ustr;            (* [_PyUnicode_ToTitleFull] *)
  ucd_to_lower : ustr -> N -> ustr -> ustr
    (* [lower_ucs4]: the characters before (nearest first), the character, the characters after *)
}.

Class UnicodeAscii `{UnicodeDB} := {
  ucd_cased_ascii : forall c, c < 128 -> ucd_is_cased c = u_isupper_ascii c || u_islower_ascii c;
  ucd_title_ascii : forall c, c < 128 -> ucd_to_title c = [u_upper_ascii c];
  ucd_lower_ascii : forall b c a, c < 128 -> ucd_to_lower b c a = [u_lower_ascii c]
}.

(** A database that has CPython's entries for ASCII characters and maps
    every other character to itself. *)
Definition ascii_db : UnicodeDB := {|
  ucd_is_cased := fun c => u_isupper_ascii c || u_islower_ascii c;
  ucd_to_title := fun c => [u_upper_ascii c];
  ucd_to_lower := fun _ c _ => [u_lower_ascii c]
|}.

(** A database that also has the Latin-1 letters [À]-[Þ] (upper case,
    192-222 without 215) and [à]-[þ] (lower case, 224-254 without 247),
    and U+0130, whose lower case is [i] followed by U+0307, with CPython's
    mappings for them. *)
Definition sample_upper (c : N) : bool := u_in 192 222 c && negb (c =? 215).
Definition sample_lower (c : N) : bool := u_in 224 254 c && negb (c =? 247).

Definition sample_db : UnicodeDB := {|
  ucd_is_cased := fun c =>
    u_isupper_ascii c || u_islower_ascii c || sample_upper c || sample_lower c || (c =? 304);
  ucd_to_title := fun c => if sample_lower c then [c - 32] else [u_upper_ascii c];
  ucd_to_lower := fun _ c _ =>
    if sample_upper c then [c + 32] else if c =? 304 then [105; 775] else [u_lower_ascii c]
|}.

(** ** [str] methods *)

(** [str.strip()] with no argument *)
Definition py_strip (s : ustr) : ustr :=
  rev (drop_while u_isspace (rev (drop_while u_isspace s))).

(** [str.title()]: CPython's [do_title].  A character is lower-cased after
    a cased character and title-cased otherwise; the flag is computed on
    the original character. *)
Fixpoint title_go `{UnicodeDB} (previous_is_cased : bool) (before s : ustr) : ustr :=
  match s with
  | [] => []
  | c :: s' =>
      (if previous_is_cased then ucd_to_lower before c s' else ucd_to_title c)
        ++ title_go (ucd_is_cased c) (c :: before) s'
  end.

Definition py_title `{UnicodeDB} (s : ustr) : ustr := title_go false [] s.

(** [str.lower()]: CPython's [do_lower], the full lower-case mapping of
    each character in its context. *)
Fixpoint lower_go `{UnicodeDB} (before s : ustr) : ustr :=
  match s with
  | [] => []
  | c :: s' => ucd_to_lower before c s' ++ lower_go (c :: before) s'
  end.

Definition py_lower `{UnicodeDB} (s : ustr) : ustr := lower_go [] s.

Definition ustr_eqb (a b : ustr) : bool := if list_eq_dec N.eq_dec a b then true else false.

(** [s.startswith(pre)] *)
Fixpoint py_startswith (s pre : ustr) : bool :=
  match pre, s with
  | [], _ => true
  | p :: pre', c :: s' => (p =? c) && py_startswith s' pre'
  | _ :: _, [] => false
  end.

(** [s.endswith(suf)]: the last [len(suf)] characters equal [suf]. *)
Definition py_endswith (s suf : ustr) : bool :=
  Nat.leb (length suf) (length s) && ustr_eqb (skipn (length s - length suf) s) suf.

(** [needle in hay] *)
Fixpoint py_contains (hay needle : ustr) : bool :=
  py_startswith hay needle ||
  match hay with
  | [] => false
  | _ :: hay' => py_contains hay' needle
  end.

(** [str.title()] on ASCII text, without the database. *)
Fixpoint title_ascii (previous_is_cased : bool) (s : ustr) : ustr :=
  match s with
  | [] => []
  | c :: s' =>
      (if previous_is_cased then u_lower_ascii c else u_upper_ascii c)
        :: title_ascii (u_isupper_ascii c || u_islower_ascii c) s'
  end.

(** ** UTF-8 *)

(** A Unicode scalar value: a code point that is not a surrogate. *)
Definition scalar (c : N) : bool := (c <? 1114112) && negb (u_in 55296 57343 c).

Definition utf8_char (c : N) : list N :=
  if c <? 128 then [c]
  else if c <? 2048 then [192 + c / 64; 128 + c mod 64]
  else if c <? 65536 then [224 + c / 4096; 128 + (c / 64) mod 64; 128 + c mod 64]
  else [240 + c / 262144; 128 + (c / 4096) mod 64; 128 + (c / 64) mod 64; 128 + c mod 64].

Definition utf8_encode (u : ustr) : list N := flat_map utf8_char u.

(** The bytes [bs] are the encoding of the scalar value [c]. *)
Definition canonical (c : N) (bs : list N) : bool :=
  scalar c && if list_eq_dec N.eq_dec (utf8_char c) bs then true else false.

Fixpoint utf8_decode (bs : list N) : ustr :=
  match bs with
  | [] => []
  | b0 :: r0 =>
      if b0 <? 128 then b0 :: utf8_decode r0
      else if b0 <? 224 then
        match r0 with
        | b1 :: r1 =>
            let c := (b0 - 192) * 64 + (b1 - 128) in
            if canonical c [b0; b1] then c :: utf8_decode r1 else 65533 :: utf8_decode r0
        | [] => 65533 :: utf8_decode r0
        end
      else if b0 <? 240 then
        match r0 with
        | b1 :: b2 :: r2 =>
            let c := ((b0 - 224) * 64 + (b1 - 128)) * 64 + (b2 - 128) in
            if canonical c [b0; b1; b2] then c :: utf8_decode r2 else 65533 :: utf8_decode r0
        | _ => 65533 :: utf8_decode r0
        end
      else
        match r0 with
        | b1 :: b2 :: b3 :: r3 =>
            let c := (((b0 - 240) * 64 + (b1 - 128)) * 64 + (b2 - 128)) * 64 + (b3 - 128) in
            if canonical c [b0; b1; b2; b3] then c :: utf8_decode r3 else 65533 :: utf8_decode r0
        | _ => 65533 :: utf8_decode r0
        end
  end.

(** A [string] of the model is a list of bytes. *)
Definition bytes_of_string (s : string) : list N := map N_of_ascii (list_ascii_of_string s).
Definition string_of_bytes (bs : list N) : string := string_of_list_ascii (map ascii_of_N bs).

(** The [str] a [string] holds, and the [string] that holds a [str]. *)
Definition ustr_of_string (s : string) : ustr := utf8_decode (bytes_of_string s).

(** The code points of an ASCII literal. *)
Definition lit (s : string) : ustr := bytes_of_string s.
Definition string_of_ustr (u : ustr) : string := string_of_bytes (utf8_encode u).

(** ** UTF-8 round trip *)

Lemma div_mod_64 x : x = 64 * (x / 64) + x mod 64 /\ x mod 64 < 64.
Proof. split; [apply N.div_mod | apply N.mod_lt]; discriminate. Qed.

Lemma canonical_self c : scalar c = true -> canonical c (utf8_char c) = true.
Proof. intros H. unfold canonical. rewrite H. now destruct list_eq_dec. Qed.

Lemma decode_one b r : b < 128 -> utf8_decode (b :: r) = b :: utf8_decode r.
Proof. intros H. simpl. now rewrite (proj2 (N.ltb_lt _ _) H). Qed.

Lemma decode_two b0 b1 r :
  128 <= b0 -> b0 < 224 -> canonical ((b0 - 192) * 64 + (b1 - 128)) [b0; b1] = true ->
  utf8_decode (b0 :: b1 :: r) = (b0 - 192) * 64 + (b1 - 128) :: utf8_decode r.
Proof.
  intros H1 H2 Hc. simpl.
  rewrite (proj2 (N.ltb_ge _ _) H1), (proj2 (N.ltb_lt _ _) H2), Hc. reflexivity.
Qed.

Lemma decode_three b0 b1 b2 r :
  224 <= b0 -> b0 < 240 ->
  canonical (((b0 - 224) * 64 + (b1 - 128)) * 64 + (b2 - 128)) [b0; b1; b2] = true ->
  utf8_decode (b0 :: b1 :: b2 :: r) = ((b0 - 224) * 64 + (b1 - 128)) * 64 + (b2 - 128) :: utf8_decode r.
Proof.
  intros H1 H2 Hc. simpl.
  rewrite (proj2 (N.ltb_ge b0 128)), (proj2 (N.ltb_ge b0 224)), (proj2 (N.ltb_lt _ _) H2), Hc
    by lia. reflexivity.
Qed.

Lemma decode_four b0 b1 b2 b3 r :
  240 <= b0 ->
  canonical ((((b0 - 240) * 64 + (b1 - 128)) * 64 + (b2 - 128)) * 64 + (b3 - 128)) [b0; b1; b2; b3] = true ->
  utf8_decode (b0 :: b1 :: b2 :: b3 :: r) =
  (((b0 - 240) * 64 + (b1 - 128)) * 64 + (b2 - 128)) * 64 + (b3 - 128) :: utf8_decode r.
Proof.
  intros H1 Hc. simpl.
  rewrite (proj2 (N.ltb_ge b0 128)), (proj2 (N.ltb_ge b0 224)), (proj2 (N.ltb_ge b0 240)), Hc
    by lia. reflexivity.
Qed.

(** Decoding the encoding of a scalar value gives it back and resumes
    after its bytes. *)
Lemma utf8_decode_char c rest :
  scalar c = true -> utf8_decode (utf8_char c ++ rest) = c :: utf8_decode rest.
Proof.
  intros Hs. assert (Hs' := Hs). unfold scalar in Hs'. apply andb_prop in Hs' as [Hmax _].
  apply N.ltb_lt in Hmax. pose proof (canonical_self c Hs) as Hc.
  destruct (div_mod_64 c) as [E0 L0]. destruct (div_mod_64 (c / 64)) as [E1 L1].
  destruct (div_mod_64 (c / 4096)) as [E2 L2].
  rewrite N.Div0.div_div in E1. change (64 * 64) with 4096 in E1.
  rewrite N.Div0.div_div in E2. change (4096 * 64) with 262144 in E2.
  unfold utf8_char in *.
  set (q0 := c / 64) in *. set (q1 := c / 4096) in *. set (q2 := c / 262144) in *.
  set (m0 := c mod 64) in *. set (m1 := q0 mod 64) in *. set (m2 := q1 mod 64) in *.
  clearbody q0 q1 q2 m0 m1 m2.
  destruct (c <? 128) eqn:H1; [apply decode_one; now apply N.ltb_lt|]. apply N.ltb_ge in H1.
  destruct (c <? 2048) eqn:H2; [|apply N.ltb_ge in H2; destruct (c <? 65536) eqn:H3;
                                 [|apply N.ltb_ge in H3]]; cbn [app].
  - apply N.ltb_lt in H2.
    assert (E : (192 + q0 - 192) * 64 + (128 + m0 - 128) = c) by lia.
    rewrite decode_two; rewrite ?E; auto; lia.
  - apply N.ltb_lt in H3.
    assert (E : ((224 + q1 - 224) * 64 + (128 + m1 - 128)) * 64 + (128 + m0 - 128) = c) by lia.
    rewrite decode_three; rewrite ?E; auto; lia.
  - assert (E : (((240 + q2 - 240) * 64 + (128 + m2 - 128)) * 64 + (128 + m1 - 128)) * 64
                 + (128 + m0 - 128) = c) by lia.
    rewrite decode_four; rewrite ?E; auto; lia.
Qed.

Lemma utf8_decode_encode u : Forall (fun c => scalar c = true) u -> utf8_decode (utf8_encode u) = u.
Proof.
  induction 1 as [|c u Hc _ IH]; [reflexivity|].
  unfold utf8_encode. simpl. rewrite utf8_decode_char by exact Hc. f_equal. exact IH.
Qed.

Lemma utf8_char_bytes c : scalar c = true -> Forall (fun b => b < 256) (utf8_char c).
Proof.
  intros Hs. unfold scalar in Hs. apply andb_prop in Hs as [Hmax _]. apply N.ltb_lt in Hmax.
  unfold utf8_char.
  pose proof (N.mod_lt c 64 ltac:(discriminate)) as M0.
  pose proof (N.mod_lt (c / 64) 64 ltac:(discriminate)) as M1.
  pose proof (N.mod_lt (c / 4096) 64 ltac:(discriminate)) as M2.
  destruct (c <? 128) eqn:H1; [apply N.ltb_lt in H1; repeat constructor; lia|].
  apply N.ltb_ge in H1.
  destruct (c <? 2048) eqn:H2; [apply N.ltb_lt in H2|apply N.ltb_ge in H2;
    destruct (c <? 65536) eqn:H3; [apply N.ltb_lt in H3|apply N.ltb_ge in H3]];
    repeat constructor; try lia.
  - assert (c / 64 < 32) by (apply N.Div0.div_lt_upper_bound; lia). lia.
  - assert (c / 4096 < 16) by (apply N.Div0.div_lt_upper_bound; lia). lia.
  - assert (c / 262144 < 5) by (apply N.Div0.div_lt_upper_bound; lia). lia.
Qed.

Lemma bytes_of_string_of_bytes bs :
  Forall (fun b => b < 256) bs -> bytes_of_string (string_of_bytes bs) = bs.
Proof.
  unfold bytes_of_string, string_of_bytes. rewrite list_ascii_of_string_of_list_ascii, map_map.
  intros H. rewrite <- (map_id bs) at 2. apply map_ext_in. intros b Hb.
  apply N_ascii_embedding. rewrite Forall_forall in H. auto.
Qed.

Lemma string_of_bytes_app a b : string_of_bytes (a ++ b) = (string_of_bytes a ++ string_of_bytes b)%string.
Proof.
  unfold string_of_bytes. rewrite map_app.
  induction (map ascii_of_N a) as [|x l IH]; simpl; congruence.
Qed.

Lemma string_of_ustr_app u v : string_of_ustr (u ++ v) = (string_of_ustr u ++ string_of_ustr v)%string.
Proof. unfold string_of_ustr, utf8_encode. rewrite flat_map_app. apply string_of_bytes_app. Qed.

(** Every character the decoder produces is a scalar value. *)
Lemma utf8_decode_scalar bs : Forall (fun c => scalar c = true) (utf8_decode bs).
Proof.
  induction bs as [[|b0 r0] IH] using list_len_ind; [constructor|].
  assert (IH0 : Forall (fun c => scalar c = true) (utf8_decode r0)) by (apply IH; simpl; lia).
  assert (Hr : Forall (fun c => scalar c = true) (65533 :: utf8_decode r0)) by (constructor; auto).
  simpl. destruct (b0 <? 128) eqn:H0.
  - constructor; [|exact IH0]. apply N.ltb_lt in H0. unfold scalar.
    rewrite (proj2 (N.ltb_lt _ _)) by lia. unfold u_in. rewrite (proj2 (N.leb_gt 55296 b0)) by lia.
    reflexivity.
  - destruct (b0 <? 224), (b0 <? 240);
      repeat match goal with
             | |- context [match ?l with [] => _ | _ :: _ => _ end] => destruct l
             | |- context [if canonical ?c ?bs then _ else _] =>
                 destruct (canonical c bs) eqn:Hc; [constructor; [unfold canonical in Hc;
                   apply andb_prop in Hc; tauto | apply IH; simpl; lia] | ]
             end; auto.
Qed.

(** The [str] held by a [string] of its encoding is the [str] itself. *)
Lemma ustr_of_string_of_ustr u :
  Forall (fun c => scalar c = true) u -> ustr_of_string (string_of_ustr u) = u.
Proof.
  intros H. unfold ustr_of_string, string_of_ustr. rewrite bytes_of_string_of_bytes.
  - now apply utf8_decode_encode.
  - unfold utf8_encode. apply Forall_forall. intros b (c & Hc & Hb)%in_flat_map.
    rewrite Forall_forall in H. pose proof (utf8_char_bytes c (H c Hc)) as Hf.
    rewrite Forall_forall in Hf. auto.
Qed.

(** A [string] is the encoding of some [str] exactly when re-encoding its
    decoding gives it back. *)
Lemma string_of_ustr_of_string s :
  string_of_ustr (ustr_of_string s) = s <->
  exists u, Forall (fun c => scalar c = true) u /\ s = string_of_ustr u.
Proof.
  split.
  - intros H. exists (ustr_of_string s). split; [apply utf8_decode_scalar | now rewrite H].
  - intros (u & Hu & ->). now rewrite ustr_of_string_of_ustr.
Qed.

(** ** ASCII characters

    A fact about the 128 ASCII characters is checked on each of them. *)

Lemma ascii_below (P : N -> Prop) :
  Forall P (map N.of_nat (seq 0 128)) -> forall c, c < 128 -> P c.
Proof.
  rewrite Forall_forall. intros H c Hc. rewrite <- (Nnat.N2Nat.id c). apply H.
  apply in_map, in_seq. lia.
Qed.

Ltac by_ascii :=
  match goal with |- forall c, c < 128 -> @?P c => apply (ascii_below P) end;
  cbv [seq map]; repeat apply Forall_cons; try apply Forall_nil;
  cbv beta; intros; repeat split; vm_compute in *; first [reflexivity | discriminate].

Lemma ascii_above c : 128 <= c -> u_upper_ascii c = c /\ u_lower_ascii c = c.
Proof.
  intros H. unfold u_upper_ascii, u_lower_ascii, u_isupper_ascii, u_islower_ascii, u_in.
  split; case_ifs; rewrite ?andb_true_iff, ?N.leb_le in *; lia.
Qed.

Definition u_cased_ascii (c : N) : bool := u_isupper_ascii c || u_islower_ascii c.

Lemma ascii_case_facts_lt : forall c, c < 128 ->
  u_isspace (u_upper_ascii c) = u_isspace c /\ u_isspace (u_lower_ascii c) = u_isspace c /\
  u_cased_ascii (u_upper_ascii c) = u_cased_ascii c /\
  u_cased_ascii (u_lower_ascii c) = u_cased_ascii c /\
  u_upper_ascii (u_upper_ascii c) = u_upper_ascii c /\
  u_lower_ascii (u_lower_ascii c) = u_lower_ascii c /\
  u_upper_ascii c < 128 /\ u_lower_ascii c < 128.
Proof. by_ascii. Qed.

Lemma ascii_case_facts c :
  u_isspace (u_upper_ascii c) = u_isspace c /\ u_isspace (u_lower_ascii c) = u_isspace c /\
  u_cased_ascii (u_upper_ascii c) = u_cased_ascii c /\
  u_cased_ascii (u_lower_ascii c) = u_cased_ascii c /\
  u_upper_ascii (u_upper_ascii c) = u_upper_ascii c /\
  u_lower_ascii (u_lower_ascii c) = u_lower_ascii c.
Proof.
  destruct (N.lt_ge_cases c 128) as [H|H].
  - pose proof (ascii_case_facts_lt c H). tauto.
  - destruct (ascii_above c H) as [E1 E2]. rewrite !E1, !E2. repeat constructor.
Qed.

Lemma ascii_upper_facts c :
  u_isupper_ascii (u_upper_ascii c) = u_cased_ascii c /\ u_isupper_ascii (u_lower_ascii c) = false.
Proof.
  destruct (N.lt_ge_cases c 128) as [H|H].
  - revert c H. by_ascii.
  - destruct (ascii_above c H) as [-> ->]. unfold u_cased_ascii, u_isupper_ascii, u_islower_ascii, u_in.
    destruct (65 <=? c) eqn:E1, (c <=? 90) eqn:E2, (97 <=? c) eqn:E3, (c <=? 122) eqn:E4;
      rewrite ?N.leb_le, ?N.leb_gt in *; cbn; split; try reflexivity; lia.
Qed.

(** The shape [str.istitle()] checks, without its demand for a cased
    character: a cased character is upper case exactly when the character
    before it is not cased. *)
Fixpoint titled (previous_is_cased : bool) (s : ustr) : bool :=
  match s with
  | [] => true
  | c :: s' =>
      (negb (u_cased_ascii c) || Bool.eqb (u_isupper_ascii c) (negb previous_is_cased))
        && titled (u_cased_ascii c) s'
  end.

Lemma title_ascii_titled b s : titled b (title_ascii b s) = true.
Proof.
  revert b. induction s as [|c s IH]; intros b; [reflexivity|]. simpl.
  destruct (ascii_case_facts c) as (_ & _ & E3 & E4 & _). destruct (ascii_upper_facts c) as [U L].
  fold (u_cased_ascii c).
  destruct b; [rewrite E4, L | rewrite E3, U]; rewrite IH; destruct (u_cased_ascii c); reflexivity.
Qed.

(** [str.title()] on ASCII text is [title_ascii], whatever the database
    holds beyond ASCII. *)
Lemma title_go_ascii `{UnicodeAscii} b before s :
  Forall (fun c => c < 128) s -> title_go b before s = title_ascii b s.
Proof.
  intros Hs. revert b before. induction Hs as [|c s Hc _ IH]; intros b before; [reflexivity|].
  simpl. rewrite ucd_cased_ascii, IH by exact Hc.
  destruct b; [rewrite ucd_lower_ascii | rewrite ucd_title_ascii]; auto.
Qed.

Lemma title_ascii_isspace b s : map u_isspace (title_ascii b s) = map u_isspace s.
Proof.
  revert b. induction s as [|c s IH]; intros b; [reflexivity|]. simpl.
  destruct (ascii_case_facts c) as (E1 & E2 & _). destruct b; rewrite ?E1, ?E2; f_equal; auto.
Qed.

(** Title-casing twice is title-casing once. *)
Lemma title_ascii_idem b s : title_ascii b (title_ascii b s) = title_ascii b s.
Proof.
  revert b. induction s as [|c s IH]; intros b; [reflexivity|]. simpl.
  destruct (ascii_case_facts c) as (_ & _ & E3 & E4 & E5 & E6).
  fold (u_cased_ascii c). fold (u_cased_ascii (if b then u_lower_ascii c else u_upper_ascii c)).
  destruct b; [rewrite E4, E6 | rewrite E3, E5]; now rewrite IH.
Qed.

Lemma utf8_encode_ascii u : Forall (fun c => c < 128) u -> utf8_encode u = u.
Proof.
  induction 1 as [|c u Hc _ IH]; [reflexivity|]. unfold utf8_encode in *. simpl.
  unfold utf8_char at 1. replace (c <? 128) with true by (symmetry; now apply N.ltb_lt). now rewrite IH.
Qed.

(** The [string] of an ASCII [str] holds its code points as bytes. *)
Lemma string_of_ustr_ascii u :
  Forall (fun c => c < 128) u -> list_ascii_of_string (string_of_ustr u) = map ascii_of_N u.
Proof.
  intros H. unfold string_of_ustr, string_of_bytes.
  now rewrite list_ascii_of_string_of_list_ascii, utf8_encode_ascii.
Qed.

Lemma lower_go_ascii `{UnicodeAscii} before s :
  Forall (fun c => c < 128) s -> lower_go before s = map u_lower_ascii s.
Proof.
  intros Hs. revert before. induction Hs as [|c s Hc _ IH]; intros before; [reflexivity|].
  simpl. rewrite ucd_lower_ascii, IH by exact Hc. reflexivity.
Qed.

(** ** The string predicates *)

Lemma ustr_eqb_spec a b : reflect (a = b) (ustr_eqb a b).
Proof. unfold ustr_eqb. destruct (list_eq_dec N.eq_dec a b); constructor; auto. Qed.

Lemma py_startswith_spec s pre : py_startswith s pre = true <-> exists b, s = pre ++ b.
Proof.
  revert s. induction pre as [|p pre IH]; intros [|c s]; simpl.
  - split; eauto.
  - split; eauto.
  - split; [discriminate | intros [b Hb]; discriminate].
  - rewrite andb_true_iff, IH. destruct (N.eqb_spec p c) as [->|Hne].
    + split; [intros [_ [b ->]]; eauto | intros [b Hb]; inv Hb; eauto].
    + split; [intros [H _]; discriminate | intros [b Hb]; congruence].
Qed.

Lemma py_contains_spec hay needle :
  py_contains hay needle = true <-> exists a b, hay = a ++ needle ++ b.
Proof.
  induction hay as [|c hay IH]; cbn [py_contains]; rewrite orb_true_iff, py_startswith_spec.
  - split; [intros [[b Hb]|H]; [now exists [], b | discriminate]|].
    intros [[|x a] [b Hb]]; [left; eauto | discriminate].
  - rewrite IH. split.
    + intros [[b Hb]|[a [b Hb]]]; [exists [], b; auto | exists (c :: a), b; now rewrite Hb].
    + intros [[|x a] [b Hb]]; [left; eauto | right; inv Hb; eauto].
Qed.

Lemma py_endswith_spec s suf : py_endswith s suf = true <-> exists a, s = a ++ suf.
Proof.
  unfold py_endswith. rewrite andb_true_iff, Nat.leb_le.
  destruct (ustr_eqb_spec (skipn (length s - length suf) s) suf) as [E|E]; split.
  - intros _. exists (firstn (length s - length suf) s).
    rewrite <- (firstn_skipn (length s - length suf) s) at 1. now rewrite E.
  - intros [a ->]. split; [rewrite length_app; lia | reflexivity].
  - intros [_ H]. discriminate.
  - intros [a ->]. exfalso. apply E. rewrite length_app, Nat.add_sub.
    now rewrite skipn_app, skipn_all, Nat.sub_diag.
Qed.

#[export] Instance ascii_db_ascii : @UnicodeAscii ascii_db.
Proof. split; reflexivity. Qed.

Lemma sample_db_ascii : @UnicodeAscii sample_db.
Proof.
  assert (L : forall c, c < 128 -> sample_upper c = false /\ sample_lower c = false /\ (c =? 304) = false).
  { intros c Hc. unfold sample_upper, sample_lower, u_in. split; [|split].
    1, 2: apply andb_false_iff; left; apply andb_false_iff; left; apply N.leb_gt; lia.
    apply N.eqb_neq; lia. }
  split; [intros c Hc | intros c Hc | intros b c a Hc]; cbn [ucd_is_cased ucd_to_title ucd_to_lower sample_db];
    destruct (L c Hc) as (E1 & E2 & E3); now rewrite ?E1, ?E2, ?E3, ?orb_false_r.
Qed.

Lemma forall_lt_128 l : forallb (fun c => c <? 128) l = true -> Forall (fun c => c < 128) l.
Proof. rewrite forallb_forall, Forall_forall. intros H c Hc. apply N.ltb_lt, H, Hc. Qed.
