(* ===== verification/Title.v ===== *)
(** The title normalizer [GameDiscBurner.smart_game_name] (src/main.py
    189-196), on the Python [str] of the path as a list of code points.  It
    is [ntpath.basename] and [ntpath.splitext] (Python 3.12, with
    [splitroot]), the three [re.sub] passes, the [\s+] collapse with
    [strip()], and [str.title()].  The definitions that read the Unicode
    database are in a Section over a [UnicodeDB].  The theorems assume only
    that the database has CPython's ASCII entries ([UnicodeAscii]), and
    [smart_game_name_db_independent] shows that the rest of the database
    does not matter. *)

From S2P Require Import Prelude ReSub UStr.

Module Normalizer.
Local Open Scope N_scope.

(** ** [os.path.basename] *)

(** [\\?\UNC\] *)
Definition unc_prefix : ustr := [92; 92; 63; 92; 85; 78; 67; 92].

Definition not_sep (c : N) : bool := negb (u_is_sep c).

(** [p.replace('/', '\\')] followed by [.upper()] on the prefix that is
    compared with [unc_prefix]: every non-ASCII character differs from the
    prefix characters, and so does its upper case. *)
Definition norm_upper (c : N) : N := if u_is_sep c then 92 else u_upper_ascii c.

(** What [ntpath.splitroot] leaves after the drive and the root.  A path
    with two leading separators is a UNC drive [\\server\share]: the
    drive runs to the second separator after [\\] (after [\\?\UNC\] for
    that prefix), and is the whole path when there is no such separator.
    A first character that is not a separator followed by [:] is a drive
    letter. *)
Definition splitroot_rest (p : ustr) : ustr :=
  match p with
  | c0 :: c1 :: t =>
      if u_is_sep c0 then
        if u_is_sep c1 then
          let start := if list_eq_dec N.eq_dec (map norm_upper (firstn 8 p)) unc_prefix
                       then 8%nat else 2%nat in
          match drop_while not_sep (skipn start p) with
          | [] => []
          | _ :: r1 =>
              match drop_while not_sep r1 with
              | [] => []
              | _ :: r2 => r2
              end
          end
        else c1 :: t
      else if c1 =? 58 then t
      else p
  | [c0] => if u_is_sep c0 then [] else p
  | [] => []
  end.

(** [split(p)[1]]: what follows the last separator of the rest. *)
Definition basename (p : ustr) : ustr :=
  rev (take_while not_sep (rev (splitroot_rest p))).

(** ** [os.path.splitext] *)

(** [genericpath._splitext(p, '\\', '/', '.')]: the root is [p[:dotIndex]]
    when the last dot follows the last separator and some character other
    than a dot precedes it in the file name; otherwise the root is [p]. *)
Definition not_dot (c : N) : bool := negb (c =? 46).

Definition splitext_root (p : ustr) : ustr :=
  let r := rev p in
  match drop_while not_dot r with
  | [] => p
  | _ :: before_r =>
      if existsb u_is_sep (take_while not_dot r) then p
      else if existsb not_dot (take_while not_sep before_r)
      then rev before_r
      else p
  end.

(** ** The patterns *)

(** [\(([^)]+)\)] and [\[[^\]]+\]]: the opening character, a non-empty run
    of characters other than the closing one, the closing character.  The
    run is greedy, and backtracking to a shorter run cannot help since the
    character after a shorter run is not the closing one. *)
Definition group_matcher (op cl : N) : matcher N := fun s =>
  match s with
  | c :: rest =>
      if c =? op then
        let run := take_while (fun x => negb (x =? cl)) rest in
        match run, skipn (length run) rest with
        | [], _ => None
        | _, [] => None
        | _, _ :: _ => Some (S (S (length run)))
        end
      else None
  | [] => None
  end.

Definition paren_re : matcher N := group_matcher 40 41.
Definition bracket_re : matcher N := group_matcher 91 93.

(** [[a-zA-Z0-9 ]] *)
Definition is_title_char (c : N) : bool :=
  u_isupper_ascii c || u_islower_ascii c || u_isdigit_ascii c || (c =? 32).

Definition nonword_re : matcher N := class_matcher (fun c => negb (is_title_char c)).

(** [\s+] *)
Definition ws_re : matcher N := run_matcher u_isspace.

Section WithDB.
Context {U : UnicodeDB}.

Definition smart_game_name (file_path : ustr) : ustr :=
  let base := basename file_path in
  let name := splitext_root base in
  let name := re_sub paren_re [] name in
  let name := re_sub bracket_re [] name in
  let name := re_sub nonword_re [32] name in
  let name := py_strip (re_sub ws_re [32] name) in
  py_title name.
End WithDB.

(** The normalizer on the [string]s of the window, which hold the UTF-8
    encoding of a [str]. *)
Definition smart_game_name_str {U : UnicodeDB} (file_path : string) : string :=
  string_of_ustr (smart_game_name (ustr_of_string file_path)).

(** The output format: no whitespace at either end and no two adjacent
    whitespace characters. *)
Definition well_spaced (s : ustr) : bool :=
  let w := map u_isspace s in
  no_two_true w && negb (hd false w) && negb (hd false (rev w)).

(** Lines 190-195: the name before [str.title()]. *)
Definition cleaned (file_path : ustr) : ustr :=
  py_strip (re_sub ws_re [32] (re_sub nonword_re [32] (re_sub bracket_re []
    (re_sub paren_re [] (splitext_root (basename file_path)))))).

(** ** Characters of the output alphabet *)

Lemma title_char_lt c : is_title_char c = true -> c < 128.
Proof.
  unfold is_title_char, u_isupper_ascii, u_islower_ascii, u_isdigit_ascii, u_in.
  rewrite !orb_true_iff, !andb_true_iff, !N.leb_le, N.eqb_eq. lia.
Qed.

Lemma title_char_facts_lt : forall c, c < 128 -> is_title_char c = true ->
  u_isspace c = (c =? 32) /\ u_is_sep c = false /\ not_dot c = true /\
  (c =? 58) = false /\ (c =? 40) = false /\ (c =? 91) = false /\
  is_title_char (u_upper_ascii c) = true /\ is_title_char (u_lower_ascii c) = true.
Proof. by_ascii. Qed.

Lemma title_char_facts c : is_title_char c = true ->
  u_isspace c = (c =? 32) /\ u_is_sep c = false /\ not_dot c = true /\
  (c =? 58) = false /\ (c =? 40) = false /\ (c =? 91) = false /\
  is_title_char (u_upper_ascii c) = true /\ is_title_char (u_lower_ascii c) = true.
Proof. intros H. exact (title_char_facts_lt c (title_char_lt c H) H). Qed.

Lemma forallb_title_lt s : forallb is_title_char s = true -> Forall (fun c => c < 128) s.
Proof. rewrite forallb_forall, Forall_forall. auto using title_char_lt. Qed.

Lemma forallb_drop_while (q p : N -> bool) s :
  forallb q s = true -> forallb q (drop_while p s) = true.
Proof.
  destruct (drop_while_suffix p s) as [a E]. rewrite E at 1.
  rewrite forallb_app, andb_true_iff. tauto.
Qed.

Lemma forallb_strip q s : forallb q s = true -> forallb q (py_strip s) = true.
Proof. intros H. unfold py_strip. rewrite forallb_rev. apply forallb_drop_while. rewrite forallb_rev. now apply forallb_drop_while. Qed.

Lemma title_ascii_alphabet b s :
  forallb is_title_char s = true -> forallb is_title_char (title_ascii b s) = true.
Proof.
  revert b. induction s as [|c s IH]; intros b; [reflexivity|].
  simpl. rewrite !andb_true_iff. intros [Hc Hs].
  destruct (title_char_facts c Hc) as (_ & _ & _ & _ & _ & _ & U & L).
  split; [destruct b; assumption | auto].
Qed.

(** ** The stages of the normalizer *)

Lemma nonword_alphabet s : forallb is_title_char (re_sub nonword_re [32] s) = true.
Proof.
  unfold nonword_re. rewrite re_sub_class, forallb_forall.
  intros x (c & <- & _)%in_map_iff. destruct (is_title_char c) eqn:E; [exact E | reflexivity].
Qed.

Lemma cleaned_alphabet p : forallb is_title_char (cleaned p) = true.
Proof. apply forallb_strip, forallb_re_sub; [apply nonword_alphabet | reflexivity]. Qed.

Lemma cleaned_spaced p : well_spaced (cleaned p) = true.
Proof.
  unfold well_spaced, cleaned, py_strip, ws_re.
  set (s := re_sub nonword_re _ _).
  destruct (strip_spaced u_isspace _ (re_sub_run_spaced u_isspace 32 s eq_refl)) as (A & B & C).
  now rewrite A, B, C.
Qed.

(** ** A normalized name is left unchanged by each stage *)

Section OnNormalForm.
Variable s : ustr.
Hypothesis Ha : forallb is_title_char s = true.
Hypothesis Hw : well_spaced s = true.

Let facts c (Hc : In c s) := title_char_facts c (proj1 (forallb_forall _ _) Ha c Hc).

Lemma forall_facts (q : N -> bool) :
  (forall c, is_title_char c = true -> q c = true) -> Forall (fun c => q c = true) s.
Proof. intros Hq. apply Forall_forall. intros c Hc. apply Hq. exact (proj1 (forallb_forall _ _) Ha c Hc). Qed.

Lemma basename_fix : basename s = s.
Proof.
  assert (E : splitroot_rest s = s).
  { destruct s as [|c0 [|c1 t]] eqn:Es; [reflexivity| |]; simpl;
      destruct (facts c0) as (_ & S0 & _); rewrite ?Es; simpl; auto; rewrite S0; [reflexivity|].
    now destruct (facts c1) as (_ & _ & _ & -> & _); rewrite ?Es; simpl; auto. }
  unfold basename. rewrite E, take_while_all, rev_involutive; [reflexivity|].
  apply Forall_rev, forall_facts. intros c Hc. unfold not_sep.
  now destruct (title_char_facts c Hc) as (_ & -> & _).
Qed.

Lemma splitext_fix : splitext_root s = s.
Proof.
  unfold splitext_root. rewrite drop_while_all; [reflexivity|].
  apply Forall_rev, forall_facts. intros c Hc. now destruct (title_char_facts c Hc) as (_ & _ & -> & _).
Qed.

Lemma group_fix op cl :
  (forall c, is_title_char c = true -> (c =? op) = false) -> re_sub (group_matcher op cl) [] s = s.
Proof.
  intros Hop. apply re_sub_id. intros a c t Es. left. simpl.
  rewrite Hop; [reflexivity|]. apply (proj1 (forallb_forall _ _) Ha). rewrite Es. apply in_elt.
Qed.

Lemma nonword_fix : re_sub nonword_re [32] s = s.
Proof.
  unfold nonword_re. rewrite re_sub_class. rewrite <- map_id. apply map_ext_in.
  intros c Hc. now rewrite (proj1 (forallb_forall _ _) Ha c Hc).
Qed.

Lemma ws_fix : re_sub ws_re [32] s = s.
Proof.
  apply re_sub_id. intros a c t Es.
  assert (Hc : In c s) by (rewrite Es; apply in_elt).
  destruct (facts c Hc) as (Sp & _). unfold ws_re.
  destruct (u_isspace c) eqn:Ec.
  - right. symmetry in Sp. apply N.eqb_eq in Sp as ->. split; [|reflexivity].
    rewrite run_matcher_yes by exact Ec. destruct t as [|d t]; [reflexivity|].
    unfold well_spaced in Hw. apply andb_true_iff in Hw as [[Hn _]%andb_true_iff _].
    rewrite Es in Hn. simpl. now rewrite (no_two_true_mid u_isspace a 32 d t Hn Ec).
  - left. now apply run_matcher_no.
Qed.

Lemma strip_fix : py_strip s = s.
Proof.
  unfold well_spaced in Hw. apply andb_true_iff in Hw as [[_ H1]%andb_true_iff H2].
  apply negb_true_iff in H1, H2.
  unfold py_strip. rewrite (drop_while_keep _ s H1), (drop_while_keep _ (rev s)).
  - apply rev_involutive.
  - now rewrite map_rev.
Qed.

Lemma cleaned_fix : cleaned s = s.
Proof.
  unfold cleaned. rewrite basename_fix, splitext_fix.
  unfold paren_re, bracket_re. rewrite !group_fix, nonword_fix, ws_fix, strip_fix; [reflexivity|..];
    intros c Hc; now destruct (title_char_facts c Hc) as (_ & _ & _ & _ & ? & ? & _).
Qed.
End OnNormalForm.

Section Lawful.
Context {U : UnicodeDB} {UA : @UnicodeAscii U}.

Lemma smart_game_name_ascii p : smart_game_name p = title_ascii false (cleaned p).
Proof. apply title_go_ascii, forallb_title_lt, cleaned_alphabet. Qed.

Lemma normal_alphabet p : forallb is_title_char (title_ascii false (cleaned p)) = true.
Proof. apply title_ascii_alphabet, cleaned_alphabet. Qed.

Lemma normal_spaced p : well_spaced (title_ascii false (cleaned p)) = true.
Proof. unfold well_spaced. rewrite title_ascii_isspace. apply cleaned_spaced. Qed.

(** C10: every character of the normalized title is an ASCII letter, an
    ASCII digit or a space, whatever the path. *)
Theorem smart_game_name_alphabet p : forallb is_title_char (smart_game_name p) = true.
Proof. rewrite smart_game_name_ascii. apply normal_alphabet. Qed.

(** C11: the normalized title has no whitespace at either end and no two
    adjacent whitespace characters. *)
Theorem smart_game_name_well_spaced p : well_spaced (smart_game_name p) = true.
Proof. rewrite smart_game_name_ascii. apply normal_spaced. Qed.

(** C12: normalizing a normalized title returns it unchanged. *)
Theorem smart_game_name_idempotent p : smart_game_name (smart_game_name p) = smart_game_name p.
Proof.
  rewrite !smart_game_name_ascii. rewrite cleaned_fix by (apply normal_alphabet || apply normal_spaced).
  apply title_ascii_idem.
Qed.

(** Examples.  The example of the specification, [Super Game (USA)
    [v1.1].iso], gives [Super Game].  [str.title()] capitalizes a letter
    that follows a digit: [C:\roms\Mario 64ds (USA).iso] gives [Mario 64Ds],
    not [Mario 64ds].  A name without extension loses what follows its last
    dot, here inside the bracketed tag, which then is not removed:
    [Super Game (USA) [v1.1]] gives [Super Game V1]. *)
Example smart_game_name_examples :
  smart_game_name (lit "Super Game (USA) [v1.1].iso") = lit "Super Game" /\
  smart_game_name (lit "C:\roms\Mario 64ds (USA).iso") = lit "Mario 64Ds" /\
  smart_game_name (lit "Super Game (USA) [v1.1]") = lit "Super Game V1".
Proof. rewrite !smart_game_name_ascii. vm_compute. repeat split. Qed.

(** The UTF-8 [string] of the normalized title is its ASCII text. *)
Lemma smart_game_name_str_ascii p :
  list_ascii_of_string (smart_game_name_str p) = map ascii_of_N (smart_game_name (ustr_of_string p)).
Proof.
  unfold smart_game_name_str. rewrite string_of_ustr_ascii; [reflexivity|].
  rewrite smart_game_name_ascii. apply forallb_title_lt, normal_alphabet.
Qed.

Lemma smart_game_name_str_alphabet p :
  forallb is_title_char (smart_game_name (ustr_of_string p)) = true.
Proof. rewrite smart_game_name_ascii. apply normal_alphabet. Qed.

(** C35: the normalized title is title-cased as [str.istitle()] checks
    it: a letter is upper case exactly when the character before it is
    not a letter.  Every word starts with a capital and goes on in lower
    case, and a letter after a digit is a capital too ("64ds" becomes
    "64Ds"), for every path. *)
Theorem smart_game_name_titled p : titled false (smart_game_name p) = true.
Proof. rewrite smart_game_name_ascii. apply title_ascii_titled. Qed.
End Lawful.



(** C38: the normalized title does not depend on the Unicode database
    beyond its ASCII entries: any two databases with the ASCII entries of
    CPython give the same title for every path. *)
Theorem smart_game_name_db_independent (U1 U2 : UnicodeDB)
    (H1 : @UnicodeAscii U1) (H2 : @UnicodeAscii U2) p :
  @smart_game_name U1 p = @smart_game_name U2 p.
Proof. now rewrite !smart_game_name_ascii. Qed.

Lemma smart_game_name_alphabet_witness :
  forallb is_title_char (smart_game_name (U := ascii_db) (lit "D:\Wii Sports [RSPE01].iso")) = true.
Proof. apply (smart_game_name_alphabet (UA := ascii_db_ascii)). Defined.

Lemma smart_game_name_titled_witness :
  titled false (smart_game_name (U := ascii_db) (lit "C:\roms\mario 64ds (USA).iso")) = true.
Proof. apply (smart_game_name_titled (UA := ascii_db_ascii)). Defined.

Lemma smart_game_name_well_spaced_witness :
  well_spaced (smart_game_name (U := ascii_db) (lit "  Final -- Fantasy .iso")) = true.
Proof. apply (smart_game_name_well_spaced (UA := ascii_db_ascii)). Defined.

Lemma smart_game_name_idempotent_witness :
  smart_game_name (U := ascii_db) (smart_game_name (U := ascii_db) (lit "Halo_2 (v1).iso")) =
  smart_game_name (U := ascii_db) (lit "Halo_2 (v1).iso").
Proof. apply (smart_game_name_idempotent (UA := ascii_db_ascii)). Defined.

Lemma smart_game_name_examples_witness :
  smart_game_name (U := sample_db) (lit "Super Game (USA) [v1.1].iso") = lit "Super Game" /\
  smart_game_name (U := sample_db) (lit "C:\roms\Mario 64ds (USA).iso") = lit "Mario 64Ds" /\
  smart_game_name (U := sample_db) (lit "Super Game (USA) [v1.1]") = lit "Super Game V1".
Proof. apply (smart_game_name_examples (UA := sample_db_ascii)). Defined.

Lemma smart_game_name_db_independent_witness :
  smart_game_name (U := ascii_db) [80; 111; 107; 233; 109; 111; 110] =
  smart_game_name (U := sample_db) [80; 111; 107; 233; 109; 111; 110].
Proof. apply (smart_game_name_db_independent ascii_db sample_db ascii_db_ascii sample_db_ascii). Defined.

End Normalizer.
