(* ===== verification/Console.v ===== *)
(** The console classifier [GameDiscBurner.detect_console] (src/main.py
    198-217) on the code points of the path, returning the label strings
    the code returns, and the ordered rule table of the spec
    (section 4.2) as an abstract specification that the classifier
    refines.  [str.lower()] reads the Unicode database, and the classifier
    is defined in a Section over it. *)

From S2P Require Import Prelude ReSub UStr.

Module Classifier.
Local Open Scope N_scope.

Section WithDB.
Context {U : UnicodeDB}.

Definition detect_console (file_path : ustr) : string :=
  let file_path_lower := py_lower file_path in
  let iso := py_endswith file_path_lower (lit ".iso") in
  if py_endswith file_path_lower (lit ".bin") || py_endswith file_path_lower (lit ".cue")
  then "PS1"
  else if py_contains file_path_lower (lit "ps2") && iso then "PS2"
  else if py_contains file_path_lower (lit "wii") && iso then "Wii"
  else if py_contains file_path_lower (lit "xbox360") && iso then "Xbox 360"
  else if iso then "PC"
  else if existsb (fun x => py_contains file_path_lower (lit x)) ["ps3"; "ps4"; "ps5"]%string
          && iso then
    if py_contains file_path_lower (lit "ps3") then "PS3"
    else if py_contains file_path_lower (lit "ps4") then "PS4"
    else if py_contains file_path_lower (lit "ps5") then "PS5"
    else "Unknown"
  else "Unknown".
End WithDB.

(** ** The rule table of the spec *)

Record rule := { rule_holds : ustr -> bool; rule_label : string }.

Definition ext_rule (exts : list string) (c : string) : rule :=
  {| rule_holds := fun l => existsb (fun e => py_endswith l (lit e)) exts; rule_label := c |}.

Definition iso_tag_rule (tag : string) (c : string) : rule :=
  {| rule_holds := fun l => py_contains l (lit tag) && py_endswith l (lit ".iso");
     rule_label := c |}.

(** Evaluated top to bottom on the lower-cased path, first match wins. *)
Definition spec_rules : list rule :=
  [ ext_rule [".bin"; ".cue"] "PS1";
    iso_tag_rule "ps2" "PS2";
    iso_tag_rule "wii" "Wii";
    iso_tag_rule "xbox360" "Xbox 360";
    ext_rule [".iso"] "PC";
    iso_tag_rule "ps3" "PS3";
    iso_tag_rule "ps4" "PS4";
    iso_tag_rule "ps5" "PS5" ]%string.

Fixpoint classify (rules : list rule) (l : ustr) : string :=
  match rules with
  | [] => "Unknown"
  | r :: rs => if rule_holds r l then rule_label r else classify rs l
  end.

(** ** Lemmas *)

(** Two different suffixes of the same length cannot both end a string. *)
Lemma endswith_exclusive l s1 s2 :
  length s1 = length s2 -> s1 <> s2 ->
  py_endswith l s1 = true -> py_endswith l s2 = false.
Proof.
  intros Hlen Hne H1. apply py_endswith_spec in H1 as [a ->].
  destruct (py_endswith (a ++ s1) s2) eqn:H2; [|reflexivity]. exfalso.
  apply py_endswith_spec in H2 as [b Hb]. apply Hne.
  assert (Hab : length a = length b).
  { apply (f_equal (@length N)) in Hb. rewrite !length_app in Hb. lia. }
  apply (f_equal (skipn (length a))) in Hb.
  rewrite skipn_app, skipn_all, Nat.sub_diag, Hab, skipn_app, skipn_all, Nat.sub_diag in Hb.
  exact Hb.
Qed.

Lemma iso_not_bin l : py_endswith l (lit ".iso") = true -> py_endswith l (lit ".bin") = false.
Proof. apply endswith_exclusive; [reflexivity | discriminate]. Qed.

Lemma iso_not_cue l : py_endswith l (lit ".iso") = true -> py_endswith l (lit ".cue") = false.
Proof. apply endswith_exclusive; [reflexivity | discriminate]. Qed.

Section Generic.
Context {U : UnicodeDB}.

(** C8: the classifier implements the ordered rule table of the spec: on
    every path it returns the label of the first rule that holds on the
    lower-cased path, and "Unknown" when none does. *)
Theorem detect_console_refines_spec p :
  detect_console p = classify spec_rules (py_lower p).
Proof.
  unfold detect_console. cbv zeta.
  cbn [classify spec_rules ext_rule iso_tag_rule rule_holds rule_label existsb].
  set (l := py_lower p). rewrite !orb_false_r.
  destruct (py_endswith l (lit ".bin")), (py_endswith l (lit ".cue")); try reflexivity.
  cbn [orb]. destruct (py_endswith l (lit ".iso")); rewrite ?andb_true_r, ?andb_false_r.
  - destruct (py_contains l (lit "ps2")), (py_contains l (lit "wii")),
      (py_contains l (lit "xbox360")); reflexivity.
  - reflexivity.
Qed.

(** C21: the PS3/PS4/PS5 branch of [detect_console] is dead and no rule
    yields "Xbox": the classifier never returns these four labels. *)
Theorem detect_console_dead_labels p :
  detect_console p <> "PS3"%string /\ detect_console p <> "PS4"%string /\
  detect_console p <> "PS5"%string /\ detect_console p <> "Xbox"%string.
Proof.
  unfold detect_console. cbv zeta.
  destruct (py_endswith (py_lower p) (lit ".iso")); rewrite ?andb_false_r; case_ifs;
    repeat split; discriminate.
Qed.

(** C22: the classifier answers "Unknown" exactly for the paths that end in
    none of [.bin], [.cue], [.iso], ignoring case: every file the dialog's
    filter offers gets a console. *)
Theorem detect_console_unknown_iff p :
  detect_console p = "Unknown"%string <->
  Forall (fun e => py_endswith (py_lower p) (lit e) = false) [".bin"; ".cue"; ".iso"]%string.
Proof.
  rewrite !Forall_cons_iff. unfold detect_console. cbv zeta.
  set (l := py_lower p).
  destruct (py_endswith l (lit ".iso")) eqn:Hiso.
  - rewrite (iso_not_bin _ Hiso), (iso_not_cue _ Hiso), !andb_true_r. cbn [orb].
    split; [case_ifs; discriminate | intros (_ & _ & H & _); discriminate].
  - rewrite !andb_false_r.
    destruct (py_endswith l (lit ".bin")), (py_endswith l (lit ".cue")); cbn [orb];
      split; try discriminate; intuition (discriminate || auto).
Qed.

(** C23: a path is classified as PC exactly when it ends in [.iso] (any
    case) and contains none of "ps2", "wii", "xbox360" (any case). *)
Theorem detect_console_pc_iff p :
  let l := py_lower p in
  detect_console p = "PC"%string <->
  py_endswith l (lit ".iso") = true /\ py_contains l (lit "ps2") = false /\
  py_contains l (lit "wii") = false /\ py_contains l (lit "xbox360") = false.
Proof.
  intros l. unfold detect_console. cbv zeta. fold l.
  destruct (py_endswith l (lit ".iso")) eqn:Hiso.
  - rewrite (iso_not_bin _ Hiso), (iso_not_cue _ Hiso), !andb_true_r. cbn [orb].
    destruct (py_contains l (lit "ps2")), (py_contains l (lit "wii")),
      (py_contains l (lit "xbox360")); intuition discriminate.
  - rewrite !andb_false_r. case_ifs; intuition discriminate.
Qed.

(** The labels the classifier returns. *)
Lemma detect_console_range p :
  In (detect_console p) ["PS1"; "PS2"; "Wii"; "Xbox 360"; "PC"; "Unknown"]%string.
Proof.
  unfold detect_console. cbv zeta.
  destruct (py_endswith (py_lower p) (lit ".iso")); rewrite ?andb_false_r; case_ifs; simpl; tauto.
Qed.

End Generic.

Section Lawful.
Context {U : UnicodeDB} {UA : @UnicodeAscii U}.

(** On an ASCII path the classifier does not read the database beyond
    ASCII. *)
Lemma detect_console_ascii p :
  forallb (fun c => c <? 128) p = true -> detect_console p = detect_console (U := ascii_db) p.
Proof.
  intros H. unfold detect_console, py_lower.
  rewrite !lower_go_ascii by now apply forall_lt_128.
  reflexivity.
Qed.

(** The examples of the spec (section 8). *)
Example detect_console_spec_examples :
  detect_console (lit "game.bin") = "PS1"%string /\ detect_console (lit "my_wii_game.iso") = "Wii"%string /\
  detect_console (lit "random.iso") = "PC"%string /\ detect_console (lit "noext") = "Unknown"%string.
Proof. rewrite !detect_console_ascii by reflexivity. vm_compute. repeat split. Qed.

(** The substring tests look at the whole path, so a folder name
    decides the console; "Xbox 360" written with a space is not
    recognised, and such an image is classified as PC.  And [lower()] can
    make the tested letters out of other characters: with CPython's lower
    case of U+0130 ([i] followed by U+0307), [wi]U+0130[.iso] is a Wii
    image. *)
Theorem detect_console_whole_path :
  (forall b a, ucd_to_lower b 304 a = [105; 775]) ->
  detect_console (lit "C:\Wii Backups\Halo.iso") = "Wii"%string /\
  detect_console (lit "C:\games\Xbox 360 Halo.iso") = "PC"%string /\
  detect_console [119; 105; 304; 46; 105; 115; 111] = "Wii"%string.
Proof.
  intros H304. rewrite !detect_console_ascii by reflexivity. split; [vm_compute; reflexivity|].
  split; [vm_compute; reflexivity|].
  unfold detect_console, py_lower. cbn [lower_go app]. rewrite H304.
  rewrite !(ucd_lower_ascii (UnicodeAscii := UA)) by (unfold N.lt; reflexivity).
  vm_compute. reflexivity.
Qed.
End Lawful.

Lemma detect_console_whole_path_witness :
  (forall b a, @ucd_to_lower sample_db b 304 a = [105; 775]) /\
  detect_console (U := sample_db) (lit "C:\Wii Backups\Halo.iso") = "Wii"%string /\
  detect_console (U := sample_db) (lit "C:\games\Xbox 360 Halo.iso") = "PC"%string /\
  detect_console (U := sample_db) [119; 105; 304; 46; 105; 115; 111] = "Wii"%string.
Proof.
  assert (H : forall b a, @ucd_to_lower sample_db b 304 a = [105; 775]) by reflexivity.
  split; [exact H|]. exact (detect_console_whole_path (UA := sample_db_ascii) H).
Defined.

End Classifier.
