(* ===== verification/Drives.v ===== *)
(** The drive enumerator [GameDiscBurner.find_dvd_drives] (src/main.py
    258-268).  The two Win32 queries are the variables of a Section: the
    [GetLogicalDrives] bit mask (a DWORD) and [GetDriveTypeW].  ctypes calls
    them with its default result type [c_int], so the mask reaches Python as
    a signed 32-bit integer; [c_int] writes that wrap-around out.  The loop
    shifts the mask right once per letter; [drives_at] is the reference that
    reads bit [i] for letter [i] directly. *)

From S2P Require Import Prelude.

Module DriveEnum.
Local Open Scope Z_scope.

(** ctypes' default [restype]: the low 32 bits read as a signed integer. *)
Definition c_int (x : Z) : Z := ((x + 2 ^ 31) mod 2 ^ 32) - 2 ^ 31.

Definition DRIVE_CDROM : Z := 5.

Definition drive_letters : list ascii := list_ascii_of_string "ABCDEFGHIJKLMNOPQRSTUVWXYZ".

Section WithOS.
Variable GetLogicalDrives : Z.
Variable GetDriveTypeW : string -> Z.

Definition is_cdrom (letter : ascii) : bool :=
    c_int (GetDriveTypeW (String letter ":/")) =? DRIVE_CDROM.

  (** [for letter in "A..Z": if bitmask & 1: ...; bitmask >>= 1] *)
Fixpoint scan_drives (letters : list ascii) (bitmask : Z) (drives : list string)
    : list string :=
    match letters with
    | [] => drives
    | letter :: rest =>
        let drives' :=
          if negb (Z.land bitmask 1 =? 0) then
            if is_cdrom letter then drives ++ [String letter ":"] else drives
          else drives in
        scan_drives rest (Z.shiftr bitmask 1) drives'
    end.

Definition find_dvd_drives : list string :=
    scan_drives drive_letters (c_int GetLogicalDrives) [].

  (** Reference: letter number [i] is kept when bit [i] of the mask is set
      and the drive is a CD-ROM drive. *)
Definition keep_at (b : Z) (il : nat * ascii) : bool :=
    Z.testbit b (Z.of_nat (fst il)) && is_cdrom (snd il).

Definition drive_name (il : nat * ascii) : string := String (snd il) ":".

Definition drives_at (b : Z) : list string :=
    map drive_name (filter (keep_at b) (combine (seq 0 26) drive_letters)).
End WithOS.

Example find_dvd_drives_example :
  find_dvd_drives (Z.lor 4 (Z.lor 8 16))
    (fun p => if (p =? "D:/")%string then 5 else if (p =? "E:/")%string then 5 else 3)
  = ["D:"; "E:"]%string.
Proof. reflexivity. Qed.

(** ** Bits *)

Lemma land_1_eqb_0 x : (Z.land x 1 =? 0) = negb (Z.testbit x 0).
Proof.
  change 1 with (Z.ones 1). rewrite Z.land_ones by lia. rewrite Z.bit0_odd.
  rewrite Zmod_odd. now destruct (Z.odd x).
Qed.

Lemma c_int_mod x : c_int x mod 2 ^ 32 = x mod 2 ^ 32.
Proof.
  unfold c_int. rewrite Zminus_mod_idemp_l. f_equal. lia.
Qed.

(** The signed reading keeps the 32 low bits. *)
Lemma c_int_testbit x i : 0 <= i < 32 -> Z.testbit (c_int x) i = Z.testbit x i.
Proof.
  intros Hi. rewrite <- (Z.mod_pow2_bits_low (c_int x) 32), c_int_mod,
    Z.mod_pow2_bits_low by lia. reflexivity.
Qed.

(** ** The loop against the reference *)

Section Loop.
Variable GetDriveTypeW : string -> Z.
Variable b : Z.

Lemma scan_drives_spec letters n acc :
    scan_drives GetDriveTypeW letters (Z.shiftr b (Z.of_nat n)) acc =
    acc ++ map drive_name
              (filter (keep_at GetDriveTypeW b) (combine (seq n (length letters)) letters)).
Proof.
  revert n acc. induction letters as [|l letters IH]; intros n acc; simpl.
  - now rewrite app_nil_r.
  - rewrite Z.shiftr_shiftr by lia.
    replace (Z.of_nat n + 1) with (Z.of_nat (S n)) by lia.
    rewrite IH, land_1_eqb_0, negb_involutive, Z.shiftr_spec, Z.add_0_l by lia.
    change (keep_at GetDriveTypeW b (n, l))
      with (Z.testbit b (Z.of_nat n) && is_cdrom GetDriveTypeW l).
    destruct (Z.testbit b (Z.of_nat n)), (is_cdrom GetDriveTypeW l); simpl;
      rewrite <- ?app_assoc; reflexivity.
Qed.
End Loop.

Lemma keep_at_c_int T d il :
  In il (combine (seq 0 26) drive_letters) -> keep_at T (c_int d) il = keep_at T d il.
Proof.
  destruct il as [i l]. intros H. apply in_combine_l, in_seq in H. unfold keep_at. simpl fst.
  rewrite c_int_testbit by lia. reflexivity.
Qed.

(** The loop, started on the [c_int] reading of the mask, as a filter over
    the bit positions of the mask itself. *)
Lemma find_dvd_drives_filter d T :
  find_dvd_drives d T = map drive_name (filter (keep_at T d) (combine (seq 0 26) drive_letters)).
Proof.
  unfold find_dvd_drives.
  rewrite <- (Z.shiftr_0_r (c_int d)). change 0 with (Z.of_nat 0).
  rewrite scan_drives_spec, app_nil_l. f_equal. apply filter_ext_in.
  intros il Hil. now apply keep_at_c_int.
Qed.

(** C9: the shifting loop of [find_dvd_drives] computes the reference: the
    drives "X:" for the letters X whose bit of the [GetLogicalDrives] mask
    is set and whose [GetDriveTypeW] code is [DRIVE_CDROM], in alphabetical
    order; the signed 32-bit reading of the mask by ctypes changes nothing. *)
Theorem find_dvd_drives_correct d T : find_dvd_drives d T = drives_at T d.
Proof. unfold drives_at. apply find_dvd_drives_filter. Qed.

(** C24: only the 26 low bits of the mask matter. *)
Theorem find_dvd_drives_low_bits d T : find_dvd_drives d T = find_dvd_drives (d mod 2 ^ 26) T.
Proof.
  rewrite !find_dvd_drives_filter. f_equal. apply filter_ext_in.
  intros [i l] H. apply in_combine_l, in_seq in H. unfold keep_at. simpl fst.
  rewrite Z.mod_pow2_bits_low by lia. reflexivity.
Qed.

Lemma drive_names_NoDup : NoDup (map drive_name (combine (seq 0 26) drive_letters)).
Proof.
  vm_compute. repeat (constructor; [simpl; intuition discriminate|]). constructor.
Qed.

(** C25: the enumerated drives are distinct and each is a letter of
    [A..Z] followed by a colon. *)
Theorem find_dvd_drives_shape d T :
  NoDup (find_dvd_drives d T) /\
  Forall (fun x => exists l, x = String l ":" /\ In l drive_letters) (find_dvd_drives d T).
Proof.
  rewrite find_dvd_drives_filter. split.
  - apply NoDup_map_filter, drive_names_NoDup.
  - apply Forall_forall. intros x (il & <- & Hin)%in_map_iff.
    apply filter_In in Hin as [Hin _]. destruct il as [i l].
    exists l. split; [reflexivity|]. eapply in_combine_r; eauto.
Qed.

(** With no CD-ROM drive among the letters the result is the empty
    list, whatever the mask. *)
Theorem find_dvd_drives_none d T :
  (forall l, In l drive_letters -> is_cdrom T l = false) -> find_dvd_drives d T = [].
Proof.
  intros H. rewrite find_dvd_drives_filter.
  rewrite filter_all_false; [reflexivity|]. intros [i l] Hin. unfold keep_at. simpl.
  rewrite H; [apply andb_false_r | eapply in_combine_r; eauto].
Qed.

Lemma find_dvd_drives_none_witness :
  (forall l, In l drive_letters -> is_cdrom (fun _ => 3) l = false) /\
  find_dvd_drives 12 (fun _ => 3) = [].
Proof.
  split; [intros l _; reflexivity|].
  apply (find_dvd_drives_none 12 (fun _ => 3)). intros l _. reflexivity.
Defined.

End DriveEnum.
