(* ===== verification/PyEffects.v ===== *)
(** The effects of the program's handlers.  A Python exception is a value
    of [exc]; the world outside the process is an environment record [env]
    (file system, Win32 drive queries, process launches, HTTP); the user's
    answers to message boxes and the trace of what the program shows or
    starts are an [io] record.  A handler over a state [S] is a function
    [M S A := env -> S -> io -> (exc + A) * S * io]: state changes and
    events performed before an exception stay, as in Python.  [try_except]
    catches what [except Exception] catches: not [SystemExit]. *)

From S2P Require Import Prelude PyStr.
From Stdlib Require Import Setoid Morphisms.
From Stdlib Require Import DecimalString.

Module Py.

(** ** Python values printed by the program *)

Definition py_str_int (z : Z) : string := NilZero.string_of_int (Z.to_int z).

Definition hex_digit (n : N) : ascii := nth (N.to_nat n) (list_ascii_of_string "0123456789abcdef") "0"%char.

(** CPython's [repr] of a one-byte string: single quotes unless the text has
    a single quote and no double quote; backslash, the quote, tab, newline
    and carriage return escaped; other non-printable characters as [\xhh]. *)
Definition repr_char (quote c : ascii) : pystr :=
  let n := code c in
  if (c =? quote)%char || (c =? "\")%char then ["\"; c]%char
  else if (c =? "009")%char then ["\"; "t"]%char
  else if (c =? "010")%char then ["\"; "n"]%char
  else if (c =? "013")%char then ["\"; "r"]%char
  else if (n <? 32)%N || (n =? 127)%N || ((128 <=? n)%N && (n <=? 160)%N) || (n =? 173)%N
  then ["\"; "x"; hex_digit (n / 16); hex_digit (n mod 16)]%char
  else [c].

(** The double quote character. *)
Definition dquote_ch : ascii := "034"%char.
Definition dquote : string := String dquote_ch EmptyString.

Definition py_repr (s : string) : string :=
  let l := list_ascii_of_string s in
  let quote := if existsb (fun c => (c =? "'")%char) l && negb (existsb (fun c => (c =? dquote_ch)%char) l)
               then dquote_ch else "'"%char in
  string_of_list_ascii (quote :: flat_map (repr_char quote) l ++ [quote]).

Definition py_repr_list (l : list string) : string :=
  "[" ++ String.concat ", " (map py_repr l) ++ "]".

(** ** Exceptions *)

Inductive exc :=
| AttributeError (msg : string)
| NameError (name : string)
| KeyError (msg : string)
| IndexError (msg : string)
| TypeError (msg : string)
| ValueError (msg : string)
| OSError (msg : string)
| CalledProcessError (returncode : Z) (cmd : list string)
| RequestException (msg : string)
| JSONDecodeError (msg : string)
| PyException (msg : string)
| SystemExit (code : Z)
(* the Qt runtime ends the process ([qFatal]); no handler sees it *)
| Abort (msg : string).

(** [except Exception] catches everything but [SystemExit] (and a
    process abort). *)
Definition is_Exception (x : exc) : bool :=
  match x with SystemExit _ | Abort _ => false | _ => true end.

(** [str(e)] *)
Definition exc_str (x : exc) : string :=
  match x with
  | NameError name => "name " ++ py_repr name ++ " is not defined"
  | AttributeError msg | KeyError msg | IndexError msg | TypeError msg | ValueError msg | OSError msg
  | RequestException msg | JSONDecodeError msg | PyException msg => msg
  | CalledProcessError code cmd =>
      "Command '" ++ py_repr_list cmd ++ "' returned non-zero exit status " ++ py_str_int code ++ "."
  | SystemExit code => py_str_int code
  | Abort msg => msg
  end.

(** ** JSON values and HTTP responses *)

Inductive json :=
| JNull
| JBool (b : bool)
| JNum (z : Z)
| JStr (s : string)
| JArr (l : list json)
| JObj (kv : list (string * json)).

Record response := {
  status_code : Z;
  resp_text : string;
  resp_json : string + json;   (* [response.json()]: the message of a decoding error, or the value *)
  resp_image : bool          (* [QPixmap.loadFromData(response.content)] gives a non-null pixmap *)
}.

(** [requests.Response.ok], i.e. [raise_for_status] does not raise: the
    status is not in the client or server error ranges [400, 600). *)
Definition resp_ok (r : response) : bool :=
  (status_code r <? 400)%Z || (600 <=? status_code r)%Z.

(** The messages of Python's [AttributeError]. *)
Definition module_attr_error (obj attr : string) : exc :=
  AttributeError ("module " ++ py_repr obj ++ " has no attribute " ++ py_repr attr).
Definition object_attr_error (tname attr : string) : exc :=
  AttributeError (py_repr tname ++ " object has no attribute " ++ py_repr attr).

(** ** The outside world *)

(** A call [requests.post(url, params=..., headers=..., data=...)]: the
    Python values of the [params] and [headers] dictionaries, in their
    order, and the [data] string.  Their encoding (and the rejection of a
    value [requests] cannot send) is the environment's answer. *)
Record request := mkRequest {
  req_url : string;
  req_params : list (string * json);
  req_headers : list (string * json);
  req_data : string
}.

Record env := {
  env_config : string + json;    (* [json.load(open("config.json"))]: error message or value *)
  env_isfile : string -> bool;
  env_isdir : string -> bool;
  env_cwd : string;
  env_logical_drives : Z;
  env_drive_type : string -> Z;
  env_run : list string -> string + Z;   (* [subprocess.run]: OSError message or exit status *)
  env_popen : list string -> option string; (* [subprocess.Popen]: OSError message *)
  env_post : request -> string + response;  (* RequestException message or response *)
  env_get : string -> string + response
}.

(** ** Observable events *)

Inductive msg_kind := Information | Warning | Critical.

Inductive event :=
| EvMessage (k : msg_kind) (title text : string)
| EvQuestion (title text : string) (answer : bool)
| EvRun (args : list string)
| EvSpawn (args : list string)
| EvHttp (r : request)
| EvThreadStart (id : nat) (url : string).

Record io := mkIO { io_answers : list bool; io_trace : list event }.

(** ** The monad *)

Definition M (S A : Type) : Type := env -> S -> io -> (exc + A) * S * io.

Definition ret {S A} (a : A) : M S A := fun _ s o => (inr a, s, o).

Definition bind {S A B} (m : M S A) (k : A -> M S B) : M S B := fun e s o =>
  match m e s o with
  | (inl x, s', o') => (inl x, s', o')
  | (inr a, s', o') => k a e s' o'
  end.

Definition raise {S A} (x : exc) : M S A := fun _ s o => (inl x, s, o).

Definition try_except {S A} (m : M S A) (h : exc -> M S A) : M S A := fun e s o =>
  match m e s o with
  | (inl x, s', o') => if is_Exception x then h x e s' o' else (inl x, s', o')
  | r => r
  end.

Definition get {S} : M S S := fun _ s o => (inr s, s, o).
Definition put {S} (s' : S) : M S unit := fun _ _ o => (inr tt, s', o).
Definition modify {S} (f : S -> S) : M S unit := fun _ s o => (inr tt, f s, o).
Definition ask {S} : M S env := fun e s o => (inr e, s, o).

Notation "'let*' x ':=' m 'in' k" := (bind m (fun x => k))
  (at level 10, x name, m at level 100, k at level 200) : py_scope.
Notation "'let*' ' p ':=' m 'in' k" := (bind m (fun x => match x with p => k end))
  (at level 10, p pattern, m at level 100, k at level 200) : py_scope.
Local Open Scope py_scope.

Definition emit {S} (ev : event) : M S unit := fun _ s o =>
  (inr tt, s, mkIO (io_answers o) (io_trace o ++ [ev])).

(** [QMessageBox.information/warning/critical] *)
Definition message {S} (k : msg_kind) (title text : string) : M S unit :=
  emit (EvMessage k title text).

(** [QMessageBox.question(..., Yes | No)]: the next answer of the user; a
    user who closes the box answers No. *)
Definition question {S} (title text : string) : M S bool := fun _ s o =>
  let (a, rest) := match io_answers o with
                   | a :: rest => (a, rest)
                   | [] => (false, [])
                   end in
  (inr a, s, mkIO rest (io_trace o ++ [EvQuestion title text a])).

Definition isfile {S} (p : string) : M S bool := fun e s o => (inr (env_isfile e p), s, o).
Definition isdir {S} (p : string) : M S bool := fun e s o => (inr (env_isdir e p), s, o).

(** [subprocess.run(args, check=True)]: a process that could not be started
    raises its [OSError]; one that ran is in the trace, and a non-zero exit
    status raises [CalledProcessError]. *)
Definition subprocess_run {S} (args : list string) : M S unit := fun e s o =>
  match env_run e args with
  | inl msg => (inl (OSError msg), s, o)
  | inr code =>
      let o' := mkIO (io_answers o) (io_trace o ++ [EvRun args]) in
      if (code =? 0)%Z then (inr tt, s, o') else (inl (CalledProcessError code args), s, o')
  end.

(** [subprocess.Popen(args)]: started without waiting. *)
Definition popen {S} (args : list string) : M S unit := fun e s o =>
  match env_popen e args with
  | Some msg => (inl (OSError msg), s, o)
  | None => (inr tt, s, mkIO (io_answers o) (io_trace o ++ [EvSpawn args]))
  end.

(** [requests.post] and [requests.get(url)] *)
Definition http_post {S} (r : request) : M S response := fun e s o =>
  let o' := mkIO (io_answers o) (io_trace o ++ [EvHttp r]) in
  match env_post e r with
  | inl msg => (inl (RequestException msg), s, o')
  | inr r => (inr r, s, o')
  end.

(** [requests] refuses a URL without an http(s) scheme before any I/O. *)
Definition has_http_scheme (url : string) : bool :=
  String.prefix "http://" url || String.prefix "https://" url.

Definition http_get {S} (url : string) : M S response := fun e s o =>
  if negb (has_http_scheme url) then
    (inl (RequestException ("Invalid URL " ++ py_repr url ++ ": No scheme supplied.")), s, o)
  else
    let o' := mkIO (io_answers o) (io_trace o ++ [EvHttp (mkRequest url [] [] "")]) in
    match env_get e url with
    | inl msg => (inl (RequestException msg), s, o')
    | inr r => (inr r, s, o')
    end.

(** ** Running a handler *)

Definition run {S A} (m : M S A) (e : env) (s : S) (o : io) := m e s o.
Definition result {S A} (r : (exc + A) * S * io) : exc + A := fst (fst r).
Definition final_state {S A} (r : (exc + A) * S * io) : S := snd (fst r).
Definition final_io {S A} (r : (exc + A) * S * io) : io := snd r.

Lemma bind_ok {S A B} (m : M S A) (k : A -> M S B) e s o a s' o' :
  m e s o = (inr a, s', o') -> bind m k e s o = k a e s' o'.
Proof. intros H. unfold bind. now rewrite H. Qed.

Lemma bind_err {S A B} (m : M S A) (k : A -> M S B) e s o x s' o' :
  m e s o = (inl x, s', o') -> bind m k e s o = (inl x, s', o').
Proof. intros H. unfold bind. now rewrite H. Qed.

(** Unfold the monad and its primitives, leaving the environment and the
    user's answers symbolic. *)
Ltac py_unfold :=
  cbv beta iota zeta delta [bind ret raise try_except get put modify ask emit message question
    isfile isdir subprocess_run popen http_post http_get run result final_state final_io].

(** Split a membership in a trace built by [++ [ev]] into its events. *)
Ltac trace_in H :=
  cbn [io_trace io_answers final_io fst snd] in H; rewrite ?in_app_iff in H; simpl in H.

(** ** Properties of handlers, closed under the combinators *)

(** No process is started. *)
Definition spawn_free {S A} (m : M S A) : Prop :=
  forall e s o a, In (EvSpawn a) (io_trace (final_io (m e s o))) -> In (EvSpawn a) (io_trace o).

(** The state is left as it was. *)
Definition keeps_state {S A} (m : M S A) : Prop :=
  forall e s o, final_state (m e s o) = s.

(** No exception escapes. *)
Definition never_raises {S A} (m : M S A) : Prop :=
  forall e s o, exists a, result (m e s o) = inr a.

(** Every exception that escapes is an [Exception] (not [SystemExit]). *)
Definition only_exceptions {S A} (m : M S A) : Prop :=
  forall e s o x, result (m e s o) = inl x -> is_Exception x = true.

Create HintDb effects.

Section Closure.
Context {S : Type}.

Lemma spawn_free_ret {A} (a : A) : spawn_free (S := S) (ret a).
Proof. intros e s o x H. exact H. Qed.

Lemma spawn_free_raise {A} x : spawn_free (S := S) (A := A) (raise x).
Proof. intros e s o a H. exact H. Qed.

Lemma spawn_free_bind {A B} (m : M S A) (k : A -> M S B) :
  spawn_free m -> (forall a, spawn_free (k a)) -> spawn_free (bind m k).
Proof.
  intros Hm Hk e s o a. unfold bind, final_io.
  destruct (m e s o) as [[[x|v] s'] o'] eqn:E; intros H.
  - apply (Hm e s o a). unfold final_io. now rewrite E.
  - apply Hk in H. apply (Hm e s o a). unfold final_io. now rewrite E.
Qed.

Lemma spawn_free_try {A} (m : M S A) (h : exc -> M S A) :
  spawn_free m -> (forall x, spawn_free (h x)) -> spawn_free (try_except m h).
Proof.
  intros Hm Hh e s o a. unfold try_except, final_io.
  destruct (m e s o) as [[[x|v] s'] o'] eqn:E;
    [destruct (is_Exception x); [intros H; apply Hh in H|intros H] | intros H];
    apply (Hm e s o a); unfold final_io; now rewrite E.
Qed.

Lemma spawn_free_get : spawn_free (S := S) get.
Proof. intros e s o a H. exact H. Qed.

Lemma spawn_free_modify f : spawn_free (S := S) (modify f).
Proof. intros e s o a H. exact H. Qed.

Lemma spawn_free_ask : spawn_free (S := S) ask.
Proof. intros e s o a H. exact H. Qed.

Lemma spawn_free_emit ev : (forall a, ev <> EvSpawn a) -> spawn_free (S := S) (emit ev).
Proof.
  intros Hev e s o a H. simpl in H. apply in_app_or in H as [H|[H|[]]]; [exact H|].
  exfalso. now apply (Hev a).
Qed.

Lemma spawn_free_message k t x : spawn_free (S := S) (message k t x).
Proof. apply spawn_free_emit. discriminate. Qed.

Lemma spawn_free_question t x : spawn_free (S := S) (question t x).
Proof.
  intros e s o a. unfold question, final_io. destruct (io_answers o) as [|b l]; simpl;
    intros H; apply in_app_or in H as [H|[H|[]]]; easy.
Qed.

Lemma spawn_free_isfile p : spawn_free (S := S) (isfile p).
Proof. intros e s o a H. exact H. Qed.

Lemma spawn_free_isdir p : spawn_free (S := S) (isdir p).
Proof. intros e s o a H. exact H. Qed.

Lemma spawn_free_run args : spawn_free (S := S) (subprocess_run args).
Proof.
  intros e s o a. unfold subprocess_run, final_io.
  destruct (env_run e args) as [x|c]; [auto|]. destruct (c =? 0)%Z; simpl;
    intros H; apply in_app_or in H as [H|[H|[]]]; easy.
Qed.

Lemma spawn_free_post r : spawn_free (S := S) (http_post r).
Proof.
  intros e s o a. unfold http_post, final_io.
  destruct (env_post e r); simpl; intros H; apply in_app_or in H as [H|[H|[]]]; easy.
Qed.

Lemma spawn_free_get_url u : spawn_free (S := S) (http_get u).
Proof.
  intros e s o a. unfold http_get, final_io. destruct (negb (has_http_scheme u)); [auto|].
  destruct (env_get e u); simpl; intros H; apply in_app_or in H as [H|[H|[]]]; easy.
Qed.

(** State *)

Lemma keeps_state_ret {A} (a : A) : keeps_state (S := S) (ret a).
Proof. intros e s o. reflexivity. Qed.

Lemma keeps_state_raise {A} x : keeps_state (S := S) (A := A) (raise x).
Proof. intros e s o. reflexivity. Qed.

Lemma keeps_state_bind {A B} (m : M S A) (k : A -> M S B) :
  keeps_state m -> (forall a, keeps_state (k a)) -> keeps_state (bind m k).
Proof.
  intros Hm Hk e s o. unfold bind, final_state. specialize (Hm e s o). unfold final_state in Hm.
  destruct (m e s o) as [[[x|v] s'] o']; simpl in *; [auto|]. subst. apply Hk.
Qed.

Lemma keeps_state_try {A} (m : M S A) (h : exc -> M S A) :
  keeps_state m -> (forall x, keeps_state (h x)) -> keeps_state (try_except m h).
Proof.
  intros Hm Hh e s o. unfold try_except, final_state. specialize (Hm e s o). unfold final_state in Hm.
  destruct (m e s o) as [[[x|v] s'] o']; simpl in *; subst; [|reflexivity].
  destruct (is_Exception x); [apply Hh | reflexivity].
Qed.

Lemma keeps_state_get : keeps_state (S := S) get.
Proof. intros e s o. reflexivity. Qed.

Lemma keeps_state_ask : keeps_state (S := S) ask.
Proof. intros e s o. reflexivity. Qed.

Lemma keeps_state_emit ev : keeps_state (S := S) (emit ev).
Proof. intros e s o. reflexivity. Qed.

Lemma keeps_state_message k t x : keeps_state (S := S) (message k t x).
Proof. intros e s o. reflexivity. Qed.

Lemma keeps_state_question t x : keeps_state (S := S) (question t x).
Proof. intros e s o. unfold question, final_state. now destruct (io_answers o). Qed.

Lemma keeps_state_isfile p : keeps_state (S := S) (isfile p).
Proof. intros e s o. reflexivity. Qed.

Lemma keeps_state_isdir p : keeps_state (S := S) (isdir p).
Proof. intros e s o. reflexivity. Qed.

Lemma keeps_state_run args : keeps_state (S := S) (subprocess_run args).
Proof.
  intros e s o. unfold subprocess_run, final_state.
  destruct (env_run e args) as [x|c]; [reflexivity|]. now destruct (c =? 0)%Z.
Qed.

(** Exceptions *)

Lemma only_exceptions_never {A} (m : M S A) : never_raises m -> only_exceptions m.
Proof. intros H e s o x Hx. destruct (H e s o) as [a Ha]. congruence. Qed.

Lemma only_exceptions_raise {A} x : is_Exception x = true -> only_exceptions (S := S) (A := A) (raise x).
Proof. intros Hx e s o y H. unfold result, raise in H. simpl in H. inv H. exact Hx. Qed.

Lemma only_exceptions_bind {A B} (m : M S A) (k : A -> M S B) :
  only_exceptions m -> (forall a, only_exceptions (k a)) -> only_exceptions (bind m k).
Proof.
  intros Hm Hk e s o x. unfold bind, result. specialize (Hm e s o). unfold result in Hm.
  destruct (m e s o) as [[[y|v] s'] o']; simpl in *; [intros H; inv H; exact (Hm _ eq_refl)|]. apply Hk.
Qed.

Lemma only_exceptions_run args : only_exceptions (S := S) (subprocess_run args).
Proof.
  intros e s o x. unfold subprocess_run, result. destruct (env_run e args) as [m|c]; simpl;
    [|destruct (c =? 0)%Z; simpl]; intros H; inv H; reflexivity.
Qed.

Lemma only_exceptions_popen args : only_exceptions (S := S) (popen args).
Proof.
  intros e s o x. unfold popen, result. destruct (env_popen e args); simpl; intros H; inv H; reflexivity.
Qed.

Lemma never_raises_ret {A} (a : A) : never_raises (S := S) (ret a).
Proof. intros e s o. now exists a. Qed.

Lemma never_raises_bind {A B} (m : M S A) (k : A -> M S B) :
  never_raises m -> (forall a, never_raises (k a)) -> never_raises (bind m k).
Proof.
  intros Hm Hk e s o. unfold bind, result. destruct (Hm e s o) as [a Ha]. unfold result in Ha.
  destruct (m e s o) as [[[x|v] s'] o']; simpl in *; [discriminate|]. apply Hk.
Qed.

(** A handler for every [Exception] that itself does not raise: only a
    [SystemExit] of the body can escape. *)
Lemma never_raises_try {A} (m : M S A) (h : exc -> M S A) :
  only_exceptions m -> (forall x, never_raises (h x)) -> never_raises (try_except m h).
Proof.
  intros Hm Hh e s o. unfold try_except, result. specialize (Hm e s o). unfold result in Hm.
  destruct (m e s o) as [[[x|v] s'] o']; simpl in *; [|eauto].
  rewrite (Hm x eq_refl). apply Hh.
Qed.

Lemma never_raises_get : never_raises (S := S) get.
Proof. intros e s o. unfold result. simpl. eauto. Qed.

Lemma never_raises_ask : never_raises (S := S) ask.
Proof. intros e s o. unfold result. simpl. eauto. Qed.

Lemma never_raises_emit ev : never_raises (S := S) (emit ev).
Proof. intros e s o. unfold result. simpl. eauto. Qed.

Lemma never_raises_modify f : never_raises (S := S) (modify f).
Proof. intros e s o. unfold result. simpl. eauto. Qed.

Lemma never_raises_message k t x : never_raises (S := S) (message k t x).
Proof. intros e s o. unfold message, emit, result. simpl. eauto. Qed.

Lemma never_raises_question t x : never_raises (S := S) (question t x).
Proof. intros e s o. unfold question, result. destruct (io_answers o); simpl; eauto. Qed.

Lemma never_raises_isfile p : never_raises (S := S) (isfile p).
Proof. intros e s o. unfold result. simpl. eauto. Qed.

Lemma never_raises_isdir p : never_raises (S := S) (isdir p).
Proof. intros e s o. unfold result. simpl. eauto. Qed.

Lemma keeps_state_popen args : keeps_state (S := S) (popen args).
Proof. intros e s o. unfold popen, final_state. now destruct (env_popen e args). Qed.

Lemma keeps_state_post r : keeps_state (S := S) (http_post r).
Proof. intros e s o. unfold http_post, final_state. now destruct (env_post e r). Qed.

Lemma keeps_state_get_url u : keeps_state (S := S) (http_get u).
Proof.
  intros e s o. unfold http_get, final_state.
  destruct (has_http_scheme u); [|reflexivity]. now destruct (env_get e u).
Qed.

Lemma only_exceptions_post r : only_exceptions (S := S) (http_post r).
Proof.
  intros e s o x. unfold http_post, result. destruct (env_post e r); simpl; intros H; inv H; reflexivity.
Qed.

Lemma only_exceptions_get_url u : only_exceptions (S := S) (http_get u).
Proof.
  intros e s o x. unfold http_get, result. destruct (has_http_scheme u); simpl;
    [destruct (env_get e u); simpl|]; intros H; inv H; reflexivity.
Qed.
End Closure.

(** ** Handlers that keep a relation between the state before and after

    [preserves R m]: every run of [m] ends in a state related to the one it
    started in.  For a preorder [R] the property is closed under the
    combinators, and a handler that keeps the state preserves every [R]. *)

Section Preserves.
Context {S : Type} (R : S -> S -> Prop) `{!PreOrder R}.

Definition preserves {A} (m : M S A) : Prop :=
  forall e s o, R s (final_state (m e s o)).

Lemma preserves_keeps {A} (m : M S A) : keeps_state m -> preserves m.
Proof. intros H e s o. rewrite H. reflexivity. Qed.

Lemma preserves_modify f : (forall s, R s (f s)) -> preserves (modify f).
Proof. intros H e s o. apply H. Qed.

Lemma preserves_bind {A B} (m : M S A) (k : A -> M S B) :
  preserves m -> (forall a, preserves (k a)) -> preserves (bind m k).
Proof.
  intros Hm Hk e s o. unfold bind, final_state. specialize (Hm e s o). unfold final_state in Hm.
  destruct (m e s o) as [[[x|v] s'] o']; simpl in *; [exact Hm|].
  etransitivity; [exact Hm | apply Hk].
Qed.

Lemma preserves_try {A} (m : M S A) (h : exc -> M S A) :
  preserves m -> (forall x, preserves (h x)) -> preserves (try_except m h).
Proof.
  intros Hm Hh e s o. unfold try_except, final_state. specialize (Hm e s o). unfold final_state in Hm.
  destruct (m e s o) as [[[x|v] s'] o']; simpl in *; [|exact Hm].
  destruct (is_Exception x); [|exact Hm]. etransitivity; [exact Hm | apply Hh].
Qed.
End Preserves.

#[export] Hint Resolve keeps_state_popen keeps_state_post keeps_state_get_url
  only_exceptions_post only_exceptions_get_url : effects.
#[export] Hint Resolve preserves_bind preserves_try preserves_modify : effects.
#[export] Hint Extern 3 (preserves _ _) =>
  apply preserves_keeps; solve [typeclasses eauto | auto with effects] : effects.

(** ** Handlers whose outcome depends on the environment only

    The result of an [oblivious] computation does not depend on the state
    or on the answers and trace it starts from. *)

Definition oblivious {S A} (m : M S A) : Prop :=
  forall e s s' o o', result (m e s o) = result (m e s' o').

Section Oblivious.
Context {S : Type}.

Lemma oblivious_ret {A} (a : A) : oblivious (S := S) (ret a).
Proof. intros e s s' o o'. reflexivity. Qed.

Lemma oblivious_raise {A} x : oblivious (S := S) (A := A) (raise x).
Proof. intros e s s' o o'. reflexivity. Qed.

Lemma oblivious_bind {A B} (m : M S A) (k : A -> M S B) :
  oblivious m -> (forall a, oblivious (k a)) -> oblivious (bind m k).
Proof.
  intros Hm Hk e s s' o o'. unfold bind, result. specialize (Hm e s s' o o'). unfold result in Hm.
  destruct (m e s o) as [[r1 s1] o1], (m e s' o') as [[r2 s2] o2]; simpl in *. subst r2.
  destruct r1; [reflexivity|]. apply Hk.
Qed.

Lemma oblivious_post r : oblivious (S := S) (http_post r).
Proof. intros e s s' o o'. unfold http_post, result. now destruct (env_post e r). Qed.

Lemma oblivious_ask : oblivious (S := S) ask.
Proof. intros e s s' o o'. reflexivity. Qed.
End Oblivious.

#[export] Hint Resolve oblivious_ret oblivious_raise oblivious_bind oblivious_post oblivious_ask : effects.

#[export] Hint Resolve spawn_free_ret spawn_free_raise spawn_free_bind spawn_free_try
  spawn_free_get spawn_free_modify spawn_free_ask spawn_free_message spawn_free_question
  spawn_free_isfile spawn_free_isdir spawn_free_run spawn_free_post spawn_free_get_url : effects.
#[export] Hint Resolve keeps_state_ret keeps_state_raise keeps_state_bind keeps_state_try
  keeps_state_get keeps_state_ask keeps_state_emit keeps_state_message keeps_state_question
  keeps_state_isfile keeps_state_isdir keeps_state_run : effects.
#[export] Hint Resolve only_exceptions_never only_exceptions_bind only_exceptions_run
  only_exceptions_popen : effects.
#[export] Hint Resolve never_raises_ret never_raises_bind never_raises_get never_raises_ask
  never_raises_emit never_raises_modify never_raises_message never_raises_question never_raises_isfile
  never_raises_isdir : effects.

(** A [raise] of a given exception other than [SystemExit]. *)
#[export] Hint Extern 2 (only_exceptions (raise _)) => apply only_exceptions_raise; reflexivity : effects.

(** ** Postconditions of the returned value *)

Definition post {S A} (Q : A -> Prop) (m : M S A) : Prop :=
  forall e s o a, result (m e s o) = inr a -> Q a.

Section Post.
Context {S : Type}.

Lemma post_ret {A} (Q : A -> Prop) a : Q a -> post (S := S) Q (ret a).
Proof. intros H e s o b Hb. inv Hb. exact H. Qed.

Lemma post_raise {A} (Q : A -> Prop) x : post (S := S) Q (raise x).
Proof. intros e s o b Hb. discriminate. Qed.

Lemma post_bind {A B} (P : A -> Prop) (Q : B -> Prop) (m : M S A) (k : A -> M S B) :
  post P m -> (forall a, P a -> post Q (k a)) -> post Q (bind m k).
Proof.
  intros Hm Hk e s o b. unfold bind, result. specialize (Hm e s o). unfold result in Hm.
  destruct (m e s o) as [[[x|a] s'] o']; simpl in *; [discriminate|]. apply Hk, Hm; reflexivity.
Qed.

Lemma post_bind_any {A B} (Q : B -> Prop) (m : M S A) (k : A -> M S B) :
  (forall a, post Q (k a)) -> post Q (bind m k).
Proof. intros Hk. apply (post_bind (fun _ => True)); [intros ? ? ? ? ?; exact I | auto]. Qed.

(** A relation kept by a continuation that is only run on the results
    [m] can return. *)
Lemma preserves_bind_post (R : S -> S -> Prop) `{!PreOrder R} {A B} (Q : A -> Prop)
    (m : M S A) (k : A -> M S B) :
  post Q m -> preserves R m -> (forall a, Q a -> preserves R (k a)) -> preserves R (bind m k).
Proof.
  intros Hq Hm Hk e s o. unfold bind, final_state. specialize (Hm e s o). specialize (Hq e s o).
  unfold final_state, result in *.
  destruct (m e s o) as [[[x|v] s'] o']; simpl in *; [exact Hm|].
  etransitivity; [exact Hm | apply Hk, Hq; reflexivity].
Qed.
End Post.

(** [keeps_prop P]: the state keeps the property [P]. *)
Definition keeps_prop {S} (P : S -> Prop) (s s' : S) : Prop := P s -> P s'.

#[export] Instance keeps_prop_preorder {S} (P : S -> Prop) : PreOrder (keeps_prop P).
Proof. split; unfold keeps_prop; [intros s H | intros s1 s2 s3 H1 H2 H]; auto. Qed.

(** A field update that the property does not read. *)
#[export] Hint Extern 2 (preserves (keeps_prop _) (modify _)) =>
  apply preserves_modify; intros ?; exact (fun H => H) : effects.

(** One step of the search for the closure lemmas. *)
Ltac effects_step :=
  first
    [ progress intros
    | solve [auto with effects]
    | apply spawn_free_bind | apply keeps_state_bind | apply never_raises_bind
    | apply only_exceptions_bind | apply oblivious_bind
    | apply preserves_bind; try typeclasses eauto
    | apply preserves_try; try typeclasses eauto
    | apply spawn_free_try | apply keeps_state_try
    | apply never_raises_try
    | match goal with |- context [match ?x with _ => _ end] => destruct x end ].

Ltac effects_auto := repeat effects_step.

End Py.
