(* ===== verification/Igdb.v ===== *)
(** The metadata lookup: [IGDBClient] (src/main.py 22-65), the window's
    [fetch_cover_url] (244-248) and the body of [ImageDownloadThread.run]
    (73-82).  Decoded JSON is a [json] value; indexing and [.get] raise the
    exceptions Python raises on values of the wrong type.  A POST is a
    [request] with the Python values of its query parameters and headers
    (the credentials and the bearer token) and its data; the environment
    answers it. *)

From S2P Require Import Prelude PyStr UStr Title PyEffects.
Import Py Normalizer.

Module Igdb.
Local Open Scope string_scope.
Local Open Scope py_scope.

(** ** Python operations on decoded JSON *)

Definition json_truthy (j : json) : bool :=
  match j with
  | JNull => false
  | JBool b => b
  | JNum z => negb (z =? 0)%Z
  | JStr s => negb (String.eqb s "")
  | JArr l => negb (Nat.eqb (List.length l) 0)
  | JObj kv => negb (Nat.eqb (List.length kv) 0)
  end.

Definition json_type_name (j : json) : string :=
  match j with
  | JNull => "NoneType" | JBool _ => "bool" | JNum _ => "int"
  | JStr _ => "str" | JArr _ => "list" | JObj _ => "dict"
  end.

(** [repr] of a decoded value, and [str]: a string is itself. *)
Fixpoint json_repr (j : json) : string :=
  match j with
  | JNull => "None"
  | JBool true => "True"
  | JBool false => "False"
  | JNum z => py_str_int z
  | JStr s => py_repr s
  | JArr l => "[" ++ String.concat ", " (map json_repr l) ++ "]"
  | JObj kv => "{" ++ String.concat ", " (map (fun kv => py_repr (fst kv) ++ ": " ++ json_repr (snd kv)) kv) ++ "}"
  end.

Definition py_str_json (j : json) : string :=
  match j with JStr s => s | _ => json_repr j end.

(** [json.loads] keeps the last value of a repeated key. *)
Definition obj_lookup (kv : list (string * json)) (k : string) : option json :=
  option_map snd (find (fun p => String.eqb (fst p) k) (rev kv)).

(** [x.get(k, default)] *)
Definition py_get {S} (j : json) (k : string) (default : json) : M S json :=
  match j with
  | JObj kv => ret (match obj_lookup kv k with Some v => v | None => default end)
  | _ => raise (object_attr_error (json_type_name j) "get")
  end.

(** [x[0]] *)
Definition py_index0 {S} (j : json) : M S json :=
  match j with
  | JArr (x :: _) => ret x
  | JArr [] => raise (IndexError "list index out of range")
  | JObj _ => raise (KeyError "0")
  | JStr (String c _) => ret (JStr (String c EmptyString))
  | JStr EmptyString => raise (IndexError "string index out of range")
  | _ => raise (TypeError (py_repr (json_type_name j) ++ " object is not subscriptable"))
  end.

(** [x["key"]] *)
Definition py_getitem_str {S} (j : json) (k : string) : M S json :=
  match j with
  | JObj kv => match obj_lookup kv k with Some v => ret v | None => raise (KeyError (py_repr k)) end
  | JArr _ => raise (TypeError "list indices must be integers or slices, not str")
  | JStr _ => raise (TypeError "string indices must be integers, not 'str'")
  | _ => raise (TypeError (py_repr (json_type_name j) ++ " object is not subscriptable"))
  end.

(** [response.json()] *)
Definition json_of {S} (r : response) : M S json :=
  match resp_json r with inl msg => raise (JSONDecodeError msg) | inr j => ret j end.

(** ** [IGDBClient] *)

Record igdb_client := { client_id : json; client_secret : json; token : json }.

Definition token_url : string := "https://id.twitch.tv/oauth2/token".
Definition games_url : string := "https://api.igdb.com/v4/games".

(** The request of [get_token]: the credentials as query parameters. *)
Definition token_request (c : igdb_client) : request :=
  mkRequest token_url
    [("client_id", client_id c); ("client_secret", client_secret c);
     ("grant_type", JStr "client_credentials")] [] "".

(** [get_token] *)
Definition get_token {S} (c : igdb_client) : M S igdb_client :=
  let* response := http_post (token_request c) in
  if resp_ok response then
    let* j := json_of response in
    let* tok := py_getitem_str j "access_token" in
    ret {| client_id := client_id c; client_secret := client_secret c; token := tok |}
  else raise (PyException ("Failed to get IGDB token: " ++ py_str_int (status_code response)
                           ++ " " ++ resp_text response)).

(** [config.get(key)] on the loaded configuration. *)
Definition config_get (config : json) (k : string) : exc + json :=
  match config with
  | JObj kv => inr (match obj_lookup kv k with Some v => v | None => JNull end)
  | _ => inl (object_attr_error (json_type_name config) "get")
  end.

(** [IGDBClient.__init__] *)
Definition igdb_init {S} : M S igdb_client :=
  let* e := ask in
  let loaded :=
    match env_config e with
    | inl msg => inl (OSError msg)
    | inr config =>
        match config_get config "TWITCH_CLIENT_ID", config_get config "TWITCH_CLIENT_SECRET" with
        | inr cid, inr sec => inr (cid, sec)
        | inl x, _ | _, inl x => inl x
        end
    end in
  match loaded with
  | inl x => raise (PyException ("Failed to load config.json: " ++ exc_str x))
  | inr (cid, sec) => get_token {| client_id := cid; client_secret := sec; token := JNull |}
  end.

(** [get_cover_url(image_id, size="cover_big")] *)
Definition get_cover_url (image_id : json) (size : string) : string :=
  "https://images.igdb.com/igdb/image/upload/t_" ++ size ++ "/" ++ py_str_json image_id ++ ".jpg".

(** The query language request of [search_game]. *)
Definition search_body (game_name : string) : string :=
  "search " ++ dquote ++ game_name ++ dquote ++ "; fields name,cover.image_id; limit 1;".

(** The request of [search_game]: the client id and the bearer token as
    headers, the query as data. *)
Definition search_request (c : igdb_client) (game_name : string) : request :=
  mkRequest games_url []
    [("Client-ID", client_id c); ("Authorization", JStr ("Bearer " ++ py_str_json (token c)))]
    (search_body game_name).

Record search_result := { sr_name : json; sr_cover_url : option string }.

(** [search_game] *)
Definition search_game {S} (c : igdb_client) (game_name : string) : M S (option search_result) :=
  let* response := http_post (search_request c game_name) in
  let* found :=
    (if resp_ok response then let* j := json_of response in ret (json_truthy j) else ret false) in
  if found then
    let* j := json_of response in
    let* result := py_index0 j in
    let* name := py_get result "name" (JStr "") in
    let* cover := py_get result "cover" (JObj []) in
    let* cover_id := py_get cover "image_id" (JStr "") in
    let cover_url := if json_truthy cover_id then Some (get_cover_url cover_id "cover_big") else None in
    ret (Some {| sr_name := name; sr_cover_url := cover_url |})
  else ret None.

(** [GameDiscBurner.fetch_cover_url] *)
Definition fetch_cover_url {S} (c : igdb_client) (game_name : string) : M S string :=
  let* result := search_game c game_name in
  match result with
  | Some {| sr_cover_url := Some url |} => ret url
  | _ => ret ""
  end.

(** ** [ImageDownloadThread.run] *)

(** The pixmap emitted by [image_ready]: null, or the image downloaded from
    a URL. *)
Inductive pixmap := PixNull | PixImage (url : string).

Definition download_image {S} (url : string) : M S pixmap :=
  try_except
    (let* response := http_get url in
     if resp_ok response then ret (if resp_image response then PixImage url else PixNull)
     else raise (RequestException ("HTTPError " ++ py_str_int (status_code response))))
    (fun _ => ret PixNull).

(** ** A concrete world for the witnesses: the search endpoint answers
    every request with [answer]. *)

Definition search_env (answer : string + response) : env := {|
  env_config := inl ""; env_isfile := fun _ => false; env_isdir := fun _ => false;
  env_cwd := ""; env_logical_drives := 0; env_drive_type := fun _ => 1%Z;
  env_run := fun _ => inl ""; env_popen := fun _ => None;
  env_post := fun _ => answer; env_get := fun _ => inl "" |}.

Definition halo_response (status : Z) (j : json) : response :=
  {| status_code := status; resp_text := ""; resp_json := inr j; resp_image := false |}.

Definition halo_json : json := JArr [JObj [("name", JStr "Halo"); ("cover", JObj [("image_id", JStr "co1x")])]].

Definition no_client : igdb_client := {| client_id := JNull; client_secret := JNull; token := JNull |}.

(** ** Theorems *)

Lemma count_dquote_title l :
  forallb is_title_char l = true -> count_occ ascii_dec (map ascii_of_N l) dquote_ch = 0.
Proof.
  induction l as [|c l IH]; simpl; [reflexivity|]. intros [Hc Hl]%andb_prop.
  destruct (ascii_dec (ascii_of_N c) dquote_ch) as [E|]; [|auto].
  apply (f_equal N_of_ascii) in E. rewrite N_ascii_embedding in E
    by (pose proof (title_char_lt c Hc); lia).
  subst c. discriminate.
Qed.

(** C16: the query sent for a selected file has exactly two double quotes,
    those around the title: the normalized title cannot close the quoted
    search string of the request. *)
Theorem search_body_quotes {U : UnicodeDB} {UA : @UnicodeAscii U} p :
  count_occ ascii_dec (list_ascii_of_string (search_body (smart_game_name_str p))) dquote_ch = 2.
Proof.
  unfold search_body. autorewrite with pyrw. rewrite !count_occ_app, smart_game_name_str_ascii.
  rewrite count_dquote_title by apply smart_game_name_str_alphabet. reflexivity.
Qed.

Section Search.
Variables (S : Type) (c : igdb_client) (n : string) (e : env) (s : S) (o : io).

(** C15: a failed request to the search endpoint raises its
    [RequestException] out of [search_game]. *)
Theorem search_game_network_error msg :
  env_post e (search_request c n) = inl msg ->
  result (search_game c n e s o) = inl (RequestException msg).
Proof. intros H. unfold search_game. py_unfold. rewrite H. reflexivity. Qed.

(** C27: a response that is not ok, or whose decoded body is empty or
    falsy, gives [None]. *)
Theorem search_game_no_result r :
  env_post e (search_request c n) = inr r ->
  resp_ok r = false \/ (exists j, resp_json r = inr j /\ json_truthy j = false) ->
  result (search_game c n e s o) = inr None.
Proof.
  intros H [Hok|(j & Hj & Ht)]; unfold search_game, json_of; py_unfold; rewrite H; cbn.
  - rewrite Hok. reflexivity.
  - rewrite Hj. destruct (resp_ok r); cbn; [rewrite Ht|]; reflexivity.
Qed.

(** C28: a first match with a non-empty cover identifier gives its name
    (or "") and the large cover URL built from the identifier. *)
Theorem search_game_found r kv rest ckv image_id :
  env_post e (search_request c n) = inr r -> resp_ok r = true ->
  resp_json r = inr (JArr (JObj kv :: rest)) ->
  obj_lookup kv "cover" = Some (JObj ckv) -> obj_lookup ckv "image_id" = Some (JStr image_id) ->
  image_id <> "" ->
  result (search_game c n e s o) =
  inr (Some {| sr_name := match obj_lookup kv "name" with Some v => v | None => JStr "" end;
               sr_cover_url := Some (get_cover_url (JStr image_id) "cover_big") |}).
Proof.
  intros H Hok Hj Hc Hi Hne. unfold search_game, json_of, py_index0, py_get. py_unfold.
  rewrite H. cbn. rewrite Hok, Hj. cbn. rewrite Hc, Hi. cbn.
  destruct (String.eqb_spec image_id ""); [contradiction|]. reflexivity.
Qed.

End Search.

Lemma search_game_network_error_witness :
  env_post (search_env (inl "Connection refused")) (search_request no_client "Halo") = inl "Connection refused" /\
  result (search_game (S := unit) no_client "Halo" (search_env (inl "Connection refused")) tt (mkIO [] [])) =
  inl (RequestException "Connection refused").
Proof.
  split; [reflexivity|]. apply (search_game_network_error unit no_client "Halo"). reflexivity.
Defined.

Lemma search_game_no_result_witness :
  let r := halo_response 200 (JArr []) in
  env_post (search_env (inr r)) (search_request no_client "Halo") = inr r /\
  (resp_ok r = false \/ (exists j, resp_json r = inr j /\ json_truthy j = false)) /\
  result (search_game (S := unit) no_client "Halo" (search_env (inr r)) tt (mkIO [] [])) = inr None.
Proof.
  intros r. assert (H1 : env_post (search_env (inr r)) (search_request no_client "Halo") = inr r) by reflexivity.
  assert (H2 : resp_ok r = false \/ (exists j, resp_json r = inr j /\ json_truthy j = false))
    by (right; exists (JArr []); split; reflexivity).
  split; [exact H1|]. split; [exact H2|]. exact (search_game_no_result unit no_client "Halo" _ tt _ r H1 H2).
Defined.

Lemma search_game_found_witness :
  let r := halo_response 200 halo_json in
  let kv := [("name", JStr "Halo"); ("cover", JObj [("image_id", JStr "co1x")])] in
  env_post (search_env (inr r)) (search_request no_client "Halo") = inr r /\ resp_ok r = true /\
  resp_json r = inr (JArr (JObj kv :: [])) /\
  obj_lookup kv "cover" = Some (JObj [("image_id", JStr "co1x")]) /\
  obj_lookup [("image_id", JStr "co1x")] "image_id" = Some (JStr "co1x") /\ "co1x" <> "" /\
  result (search_game (S := unit) no_client "Halo" (search_env (inr r)) tt (mkIO [] [])) =
  inr (Some {| sr_name := JStr "Halo"; sr_cover_url := Some (get_cover_url (JStr "co1x") "cover_big") |}).
Proof.
  intros r kv. do 6 (split; [first [reflexivity | discriminate]|]).
  exact (search_game_found unit no_client "Halo" (search_env (inr r)) tt (mkIO [] []) r kv [] _ "co1x"
           eq_refl eq_refl eq_refl eq_refl eq_refl ltac:(discriminate)).
Defined.

(** The cover URL of a search result is absent or a large cover URL. *)
Definition cover_shape (u : string) : Prop := exists image_id, u = get_cover_url image_id "cover_big".

Lemma search_game_cover {S} c n :
  post (fun r => match r with Some r => sr_cover_url r = None \/ exists u, sr_cover_url r = Some u /\ cover_shape u
                 | None => True end)
       (search_game (S := S) c n).
Proof.
  unfold search_game. apply post_bind_any; intros response. apply post_bind_any; intros [|].
  - repeat (apply post_bind_any; intros). apply post_ret. cbn.
    destruct (json_truthy _); [right; eexists; split; [reflexivity|eexists; reflexivity] | left; reflexivity].
  - apply post_ret. exact I.
Qed.

(** [fetch_cover_url] returns the empty string or a large cover URL
    of the image service, when it returns. *)
Theorem fetch_cover_url_shape {S} c n e (s : S) o u :
  result (fetch_cover_url c n e s o) = inr u -> u = "" \/ cover_shape u.
Proof.
  revert e s o u. unfold fetch_cover_url. apply (post_bind _ _ _ _ (search_game_cover c n)).
  intros [[nm [url|]]|] H; apply post_ret; cbn in H; auto.
  destruct H as [H|(u & H & Hu)]; [discriminate|]. inv H. auto.
Qed.

Lemma fetch_cover_url_shape_witness :
  result (fetch_cover_url (S := unit) no_client "Halo" (search_env (inr (halo_response 200 halo_json))) tt
            (mkIO [] [])) = inr (get_cover_url (JStr "co1x") "cover_big") /\
  (get_cover_url (JStr "co1x") "cover_big" = "" \/ cover_shape (get_cover_url (JStr "co1x") "cover_big")).
Proof.
  assert (H : result (fetch_cover_url (S := unit) no_client "Halo"
    (search_env (inr (halo_response 200 halo_json))) tt (mkIO [] [])) =
    inr (get_cover_url (JStr "co1x") "cover_big")) by (vm_compute; reflexivity).
  split; [exact H|]. exact (fetch_cover_url_shape _ _ _ _ _ _ H).
Defined.

(** C30: [ImageDownloadThread.run] never lets an exception out, and a URL
    without a scheme (the "" of a failed lookup) gives the null pixmap
    without any request. *)
Theorem download_image_total {S} url e (s : S) o :
  (exists p, result (download_image url e s o) = inr p) /\
  (has_http_scheme url = false -> download_image url e s o = (inr PixNull, s, o)).
Proof.
  split.
  - unfold download_image, http_get. py_unfold.
    destruct (has_http_scheme url); cbn; eauto.
    destruct (env_get e url) as [m|r]; cbn; eauto.
    destruct (resp_ok r); cbn; eauto.
  - intros H. unfold download_image, http_get. py_unfold. rewrite H. reflexivity.
Qed.

Lemma search_body_quotes_witness :
  count_occ ascii_dec (list_ascii_of_string (search_body (smart_game_name_str (U := ascii_db)
    ("C:\games\" ++ dquote ++ "Halo" ++ dquote ++ " 2.iso")))) dquote_ch = 2.
Proof. apply (search_body_quotes (UA := ascii_db_ascii)). Defined.

End Igdb.
