(* ===== verification/Window.v ===== *)
(** The state of the main window [GameDiscBurner] (src/main.py 115-178):
    the attributes its methods read and write, the content of the cover-art
    label, the style sheet, and the image download threads the Qt runtime keeps running on
    its behalf.  A [QLabel] shows a text or a pixmap; setting one clears the
    other ([QLabel::setText], [QLabel::setPixmap]). *)

From S2P Require Import Prelude PyStr PyEffects Igdb.
Import Py Igdb.

Module Win.

Inductive label_content := LText (t : string) | LPixmap (p : pixmap).

Record window := mkWindow {
  (* the style sheet [apply_theme] sets *)
  style_sheet : string;
  imgburn_path : string;
  payload_base : string;
  igdb : igdb_client;
  label_console : string;
  label_description : string;
  label_image : label_content;
  btn_burn_enabled : bool;
  selected_game_path : option string;
  selected_console : option string;
  img_thread : option nat;
  (* threads started by [load_game_art] and not finished: id and URL *)
  threads : list (nat * string);
  next_thread : nat
}.

(** Field updates. *)
Definition set_label_console (t : string) (w : window) : window :=
  mkWindow (style_sheet w) (imgburn_path w) (payload_base w) (igdb w) t (label_description w) (label_image w)
    (btn_burn_enabled w) (selected_game_path w) (selected_console w) (img_thread w)
    (threads w) (next_thread w).
Definition set_label_description (t : string) (w : window) : window :=
  mkWindow (style_sheet w) (imgburn_path w) (payload_base w) (igdb w) (label_console w) t (label_image w)
    (btn_burn_enabled w) (selected_game_path w) (selected_console w) (img_thread w)
    (threads w) (next_thread w).
Definition set_label_image (c : label_content) (w : window) : window :=
  mkWindow (style_sheet w) (imgburn_path w) (payload_base w) (igdb w) (label_console w) (label_description w) c
    (btn_burn_enabled w) (selected_game_path w) (selected_console w) (img_thread w)
    (threads w) (next_thread w).
Definition set_btn_burn (b : bool) (w : window) : window :=
  mkWindow (style_sheet w) (imgburn_path w) (payload_base w) (igdb w) (label_console w) (label_description w)
    (label_image w) b (selected_game_path w) (selected_console w) (img_thread w)
    (threads w) (next_thread w).
Definition set_selected_game_path (p : option string) (w : window) : window :=
  mkWindow (style_sheet w) (imgburn_path w) (payload_base w) (igdb w) (label_console w) (label_description w)
    (label_image w) (btn_burn_enabled w) p (selected_console w) (img_thread w)
    (threads w) (next_thread w).
Definition set_selected_console (c : option string) (w : window) : window :=
  mkWindow (style_sheet w) (imgburn_path w) (payload_base w) (igdb w) (label_console w) (label_description w)
    (label_image w) (btn_burn_enabled w) (selected_game_path w) c (img_thread w)
    (threads w) (next_thread w).

(** [self.img_thread = ImageDownloadThread(url); ...; self.img_thread.start()] *)
Definition start_thread (url : string) (w : window) : window :=
  mkWindow (style_sheet w) (imgburn_path w) (payload_base w) (igdb w) (label_console w) (label_description w)
    (label_image w) (btn_burn_enabled w) (selected_game_path w) (selected_console w)
    (Some (next_thread w)) (threads w ++ [(next_thread w, url)]) (S (next_thread w)).

(** A finished thread leaves the runtime. *)
Definition finish_thread (id : nat) (w : window) : window :=
  mkWindow (style_sheet w) (imgburn_path w) (payload_base w) (igdb w) (label_console w) (label_description w)
    (label_image w) (btn_burn_enabled w) (selected_game_path w) (selected_console w)
    (img_thread w) (filter (fun t => negb (Nat.eqb (fst t) id)) (threads w)) (next_thread w).

(** The f-string rendering of [self.selected_console]: the label, or "None". *)
Definition console_str (c : option string) : string :=
  match c with Some c => c | None => "None" end.

(** The comparison [console == "PS2"] of [apply_payload_if_needed]: a
    [None] console equals no label. *)
Definition console_is (c : option string) (l : string) : bool :=
  match c with Some x => String.eqb x l | None => false end.

Lemma console_is_spec c l : console_is c l = true <-> c = Some l.
Proof.
  destruct c as [x|]; simpl; [rewrite String.eqb_eq|]; split; congruence.
Qed.

Lemma console_is_false c l : console_is c l = false -> c <> Some l.
Proof. intros H E. apply console_is_spec in E. congruence. Qed.

(** A newline inside a message. *)
Definition nl : string := String "010"%char EmptyString.

End Win.
