(* ===== verification/Payload.v ===== *)
(** The payload policy [GameDiscBurner.apply_payload_if_needed] (src/main.py
    284-324) and the interface [PayloadStep] through which [burn_game] uses
    it: a step that leaves the window state alone, starts no process with
    [Popen] and lets no exception escape.  The burn handler's theorems are
    proved against the interface; [apply_payload_step] discharges it. *)

From S2P Require Import Prelude PyStr UStr Console PyEffects Igdb Window.
Import Py Classifier Igdb Win.

Module Payload.
Local Open Scope string_scope.
Local Open Scope py_scope.

(** [ntpath.join(a, b)] for a relative [b] without a drive: a separator is
    inserted unless [a] is empty, ends with a separator or is a bare drive
    [X:]. *)
Definition path_join (a b : string) : string :=
  match list_ascii_of_string a with
  | [] => b
  | l =>
      if is_sep (last l "a"%char) then a ++ b
      else match l with
           | [c; d] => if negb (is_sep c) && (d =? ":")%char then a ++ b else a ++ "\" ++ b
           | _ => a ++ "\" ++ b
           end
  end.

Definition patcher_path (w : window) : string :=
  path_join (path_join (payload_base w) "PS2") "FDVDB_ESR_Patcher.exe".

Definition xbox_payload_dir (w : window) : string := path_join (payload_base w) "Xbox".

Definition esr_question : string :=
  "This PS2 game may require patching for FreeMcBoot. Patch it now?".

(** [subprocess.run([patcher, game_path], check=True)]; a [None] path fails
    in [subprocess] before anything is started. *)
Definition run_patcher (patcher : string) (game_path : option string) : M window unit :=
  match game_path with
  | Some p => subprocess_run [patcher; p]
  | None => raise (TypeError "expected str, bytes or os.PathLike object, not NoneType")
  end.

Definition apply_payload_if_needed : M window (bool * string) :=
  let* self := get in
  let console := selected_console self in
  let game_path := selected_game_path self in
  if console_is console "PS2" then
      let patcher := patcher_path self in
      let* found := isfile patcher in
      if negb found then ret (false, "ESR patcher not found.")
      else
        let* reply := question "ESR Patch" esr_question in
        if reply then
          try_except
            (let* _ := run_patcher patcher game_path in ret (true, "ESR patch applied."))
            (fun x => ret (false, "Patch failed: " ++ exc_str x))
        else ret (true, "User skipped ESR patch.")
  else if console_is console "Xbox" then
      let* found := isdir (xbox_payload_dir self) in
      if negb found then ret (false, "SID payload folder missing.")
      else ret (true, "Include SID manually on ISO root using DVD burning.")
  else if console_is console "Wii" then
      ret (true, "Wii games typically do not need extra payloads if they are already scrubbed ISO.")
  else if console_is console "Xbox 360" then
      ret (true, "Xbox 360 backups must be in .dvd/.iso format and burned using layer break settings (ImgBurn does this automatically).")
  else if console_is console "PS3" then
      ret (true, "Requires CFW or HEN to install via USB or ISO mount. Not bootable directly from DVD.")
  else ret (true, "No payload needed for " ++ console_str console ++ ".").

(** ** The interface seen by [burn_game] *)

Class PayloadStep := {
  payload_step : M window (bool * string);
  payload_spawn_free : spawn_free payload_step;
  payload_keeps_state : keeps_state payload_step;
  payload_never_raises : never_raises payload_step
}.

Lemma run_patcher_spawn_free p g : spawn_free (run_patcher p g).
Proof. destruct g; unfold run_patcher; auto with effects. Qed.

Lemma run_patcher_keeps_state p g : keeps_state (run_patcher p g).
Proof. destruct g; unfold run_patcher; auto with effects. Qed.

Lemma run_patcher_only_exceptions p g : only_exceptions (run_patcher p g).
Proof. destruct g; unfold run_patcher; auto using only_exceptions_raise with effects. Qed.

#[export] Hint Resolve run_patcher_spawn_free run_patcher_keeps_state
  run_patcher_only_exceptions : effects.

#[export] Program Instance apply_payload_step : PayloadStep := {|
  payload_step := apply_payload_if_needed
|}.
Next Obligation. unfold apply_payload_if_needed. effects_auto. Qed.
Next Obligation. unfold apply_payload_if_needed. effects_auto. Qed.
Next Obligation. unfold apply_payload_if_needed. effects_auto. Qed.

(** The outcome flag of the step, [false] also for an escaped exception. *)
Definition payload_ok (e : env) (w : window) (o : io) : bool :=
  match result (apply_payload_if_needed e w o) with inr (b, _) => b | inl _ => false end.

(** When the step reports failure: the PS2 patcher is missing, or the user
    accepted the patch and it could not run to a zero exit status; or the
    Xbox payload folder is missing. *)
Definition payload_failure_cond (e : env) (w : window) (o : io) : Prop :=
  (selected_console w = Some "PS2" /\
   (env_isfile e (patcher_path w) = false \/
    (hd false (io_answers o) = true /\
     (selected_game_path w = None \/
      exists p, selected_game_path w = Some p /\ env_run e [patcher_path w; p] <> inr 0%Z)))) \/
  (selected_console w = Some "Xbox" /\ env_isdir e (xbox_payload_dir w) = false).

(** A concrete world for the witnesses: only "C:\burn\payload\PS2\..." exists. *)
Definition fixture_env (patcher_present : bool) (exit_code : Z) : env := {|
  env_config := inr (JObj []);
  env_isfile := fun p => patcher_present && String.eqb p "C:\burn\payload\PS2\FDVDB_ESR_Patcher.exe";
  env_isdir := fun _ => false;
  env_cwd := "C:\burn";
  env_logical_drives := 8;
  env_drive_type := fun p => if String.eqb p "D:/" then 5 else 3;
  env_run := fun _ => inr exit_code;
  env_popen := fun _ => None;
  env_post := fun _ => inl "offline";
  env_get := fun _ => inl "offline"
|}%Z.

Definition fixture_window (c : option string) : window :=
  mkWindow "" "C:\Program Files (x86)\ImgBurn\ImgBurn.exe" "C:\burn\payload"
    {| client_id := JNull; client_secret := JNull; token := JStr "t" |}
    "" "" (LText "") true (Some "C:/games/ps2/game.iso") c None [] 0.

(** ** Theorems *)

(** For a PS2 image whose patcher executable is missing, the step
    reports failure with the message about the patcher, shows no dialog and
    runs no process: the trace is unchanged. *)
Theorem payload_ps2_missing_patcher e w o :
  selected_console w = Some "PS2" -> env_isfile e (patcher_path w) = false ->
  apply_payload_if_needed e w o = (inr (false, "ESR patcher not found."), w, o).
Proof.
  intros Hc Hf. unfold apply_payload_if_needed. py_unfold. rewrite Hc. simpl. now rewrite Hf.
Qed.

Lemma payload_ps2_missing_patcher_witness :
  selected_console (fixture_window (Some "PS2")) = Some "PS2" /\
  env_isfile (fixture_env false 0) (patcher_path (fixture_window (Some "PS2"))) = false /\
  apply_payload_if_needed (fixture_env false 0) (fixture_window (Some "PS2")) (mkIO [true] []) =
  (inr (false, "ESR patcher not found."), fixture_window (Some "PS2"), mkIO [true] []).
Proof.
  split; [reflexivity|]. split; [reflexivity|].
  apply payload_ps2_missing_patcher; reflexivity.
Defined.

(** C6: the patcher runs only for a PS2 image whose patcher exists, after
    the user answered Yes to the patch question, and with exactly the
    patcher and the selected path as its arguments. *)
Theorem payload_runs_patcher_only_after_yes e w o args :
  In (EvRun args) (io_trace (final_io (apply_payload_if_needed e w o))) ->
  In (EvRun args) (io_trace o) \/
  (selected_console w = Some "PS2" /\ env_isfile e (patcher_path w) = true /\
   hd false (io_answers o) = true /\
   exists p, selected_game_path w = Some p /\ args = [patcher_path w; p]).
Proof.
  unfold apply_payload_if_needed, run_patcher. py_unfold.
  destruct (console_is (selected_console w) "PS2") eqn:Hc; simpl.
  - apply console_is_spec in Hc.
    destruct (env_isfile e (patcher_path w)) eqn:Hf; simpl; auto.
    destruct (io_answers o) as [|[] rest] eqn:Ha; simpl; try (intros H; left; trace_in H; intuition discriminate).
    destruct (selected_game_path w) as [p|] eqn:Hp; simpl; [|intros H; left; trace_in H; intuition discriminate].
    destruct (env_run e [patcher_path w; p]) as [m|c]; simpl; [intros H; left; trace_in H; intuition discriminate|].
    destruct (c =? 0)%Z; simpl; intros H; trace_in H;
      (destruct H as [[H|[H|[]]]|[H|[]]]; [left; exact H | discriminate | inv H]);
      right; repeat split; eauto.
  - case_ifs; simpl; auto.
Qed.

Lemma payload_runs_patcher_only_after_yes_witness :
  let w := fixture_window (Some "PS2") in
  let o := mkIO [true] [] in
  let args := ["C:\burn\payload\PS2\FDVDB_ESR_Patcher.exe"; "C:/games/ps2/game.iso"] in
  In (EvRun args) (io_trace (final_io (apply_payload_if_needed (fixture_env true 0) w o))) /\
  (In (EvRun args) (io_trace o) \/
   (selected_console w = Some "PS2" /\ env_isfile (fixture_env true 0) (patcher_path w) = true /\
    hd false (io_answers o) = true /\
    exists p, selected_game_path w = Some p /\ args = [patcher_path w; p])).
Proof.
  intros w o args.
  assert (H : In (EvRun args) (io_trace (final_io (apply_payload_if_needed (fixture_env true 0) w o))))
    by (vm_compute; auto).
  split; [exact H|]. exact (payload_runs_patcher_only_after_yes _ _ _ _ H).
Defined.

(** C18: composed with the classifier, the payload step never reports
    failure for an image that is not classified as PS2: the only other
    failing branch, "Xbox", is dead since [detect_console] never returns
    that label.  For such an image the step opens no dialog, runs nothing
    and leaves the window as it was. *)
Theorem payload_non_ps2_succeeds {U : UnicodeDB} p e w o :
  selected_console w = Some (detect_console p) -> detect_console p <> "PS2" ->
  exists msg, apply_payload_if_needed e w o = (inr (true, msg), w, o).
Proof.
  intros Hc Hn. pose proof (detect_console_range p) as H.
  unfold apply_payload_if_needed. py_unfold. rewrite Hc.
  remember (detect_console p) as c eqn:Ec. clear Ec. simpl in H.
  destruct H as [<-|[<-|[<-|[<-|[<-|[<-|[]]]]]]]; [| congruence | ..]; eexists; reflexivity.
Qed.

Lemma payload_non_ps2_succeeds_witness :
  let p := lit "C:/games/Wii/Mario.iso" in
  selected_console (fixture_window (Some "Wii")) = Some (detect_console (U := ascii_db) p) /\
  detect_console (U := ascii_db) p <> "PS2" /\
  exists msg, apply_payload_if_needed (fixture_env false 0) (fixture_window (Some "Wii")) (mkIO [] []) =
    (inr (true, msg), fixture_window (Some "Wii"), mkIO [] []).
Proof.
  intros p. assert (H1 : selected_console (fixture_window (Some "Wii")) = Some (detect_console (U := ascii_db) p))
    by (vm_compute; reflexivity).
  assert (H2 : detect_console (U := ascii_db) p <> "PS2") by (vm_compute; discriminate).
  split; [exact H1|]. split; [exact H2|].
  exact (payload_non_ps2_succeeds p _ _ _ H1 H2).
Defined.

(** C7: the step reports failure exactly under [payload_failure_cond]. *)
Theorem payload_fails_iff e w o : payload_ok e w o = false <-> payload_failure_cond e w o.
Proof.
  unfold payload_ok, payload_failure_cond, apply_payload_if_needed, run_patcher. py_unfold.
  destruct (console_is (selected_console w) "PS2") eqn:Hc; simpl.
  - apply console_is_spec in Hc. rewrite Hc.
    destruct (env_isfile e (patcher_path w)) eqn:Hf; simpl; [|intuition].
    destruct (io_answers o) as [|[] rest]; simpl;
      [split; [discriminate | intros [[_ [H|[H _]]]|[H _]]; discriminate] | |
       split; [discriminate | intros [[_ [H|[H _]]]|[H _]]; discriminate]].
    destruct (selected_game_path w) as [p|] eqn:Hp; simpl; [|intuition].
    destruct (env_run e [patcher_path w; p]) as [m|c] eqn:Hr; simpl.
    + split; [intros _; left; split; [reflexivity|]; right; split; [reflexivity|]; right;
              exists p; split; congruence | reflexivity].
    + destruct (c =? 0)%Z eqn:Hz; simpl.
      * apply Z.eqb_eq in Hz as ->. split; [discriminate|].
        intros [[_ [H|[_ [H|(q & Hq & Hne)]]]]|[H _]]; congruence.
      * apply Z.eqb_neq in Hz. split; [intros _|reflexivity].
        left. split; [reflexivity|]. right. split; [reflexivity|]. right.
        exists p. split; [reflexivity|]. congruence.
  - apply console_is_false in Hc.
    destruct (console_is (selected_console w) "Xbox") eqn:Hx; simpl.
    + apply console_is_spec in Hx.
      destruct (env_isdir e (xbox_payload_dir w)); simpl; intuition discriminate.
    + apply console_is_false in Hx.
      case_ifs; simpl; split; try discriminate; intros [[H _]|[H _]]; contradiction.
Qed.

End Payload.
