(* ===== verification/Burner.v ===== *)
(** The burn handler of the main window: [GameDiscBurner.burn_game]
    (src/main.py 325-379) with the calls it makes, [find_dvd_drives],
    [manual_drive_selection] (270-282), the payload step and
    [show_console_instruction] (381-427).  [burn_game] is written against the
    [PayloadStep] interface; its theorems hold for any step that keeps the
    window state, starts no process and raises nothing, and so for
    [apply_payload_if_needed]. *)

From S2P Require Import Prelude PyStr UStr Console Drives PyEffects Igdb Window Payload.
Import Py Classifier DriveEnum Igdb Win Payload.

Module Burner.
Local Open Scope string_scope.
Local Open Scope py_scope.

(** The dict [instructions] of [show_console_instruction], in source order. *)
Definition instructions : list (string * string) :=
  [("PS2", "PlayStation 2:" ++ nl ++ "- Requires Free McBoot (FMCB) on memory card." ++ nl
           ++ "- ESR patched games can boot from DVD-R." ++ nl
           ++ "- Insert disc, launch ESR, game should start.");
   ("Xbox", "Original Xbox:" ++ nl ++ "- Requires softmod (e.g., SID 5.11/5.12)." ++ nl
            ++ "- Burn SID installer to DVD-R." ++ nl
            ++ "- Use Splinter Cell or similar with exploit save.");
   ("Wii", "Nintendo Wii:" ++ nl ++ "- Requires Homebrew Channel installed." ++ nl
           ++ "- Use NeoGamma or USB Loader GX to run backups." ++ nl
           ++ "- Burn to DVD-R for best compatibility.");
   ("Xbox 360", "Xbox 360:" ++ nl ++ "- Requires flashed drive (LT+ firmware)." ++ nl
                ++ "- Use .DVD file to burn properly with layer break." ++ nl
                ++ "- ImgBurn supports this automatically.");
   ("PS3", "PlayStation 3:" ++ nl ++ "- Requires CFW or HEN." ++ nl
           ++ "- Burn ISO to disc, or better: use USB/FTP." ++ nl
           ++ "- Blu-ray burning not required unless for movie ISO.");
   ("PC", "PC:" ++ nl ++ "- Just insert disc and run." ++ nl
          ++ "- No extra mods or patching required.");
   ("PS1", "PlayStation 1:" ++ nl ++ "- Burn CD-R at 4x or slower." ++ nl
           ++ "- Requires modchip or boot disc (PS-X-Change)." ++ nl
           ++ "- ISO + CUE format is preferred.")].

(** [dict.get(key, default)] on a dict with [str] keys; the key [None]
    is no key of such a dict. *)
Definition dict_get (d : list (string * string)) (key : option string) (default : string) : string :=
  match key with
  | Some k => match find (fun kv => String.eqb (fst kv) k) d with
              | Some (_, v) => v
              | None => default
              end
  | None => default
  end.

Definition show_console_instruction (console : option string) : M window unit :=
  let text := dict_get instructions console "No specific instructions available for this console." in
  message Information (console_str console ++ " Instructions") text.

(** [manual_drive_selection]: its first statement builds a
    [DriveSelectionDialog], a name that src/main.py never defines, so the
    call raises [NameError] before any dialog is shown. *)
Definition manual_drive_selection (drives : list string) : M window (option string) :=
  raise (NameError "DriveSelectionDialog").

(** The ImgBurn command line. *)
Definition burn_args (imgburn src dest : string) : list string :=
  [imgburn; "/MODE"; "ISOBURN"; "/SRC"; src; "/DEST"; dest; "/START"; "/CLOSE"].

Definition use_drive_text (d : string) : string :=
  "Detected DVD drive: " ++ d ++ nl ++ "Use this drive?".

(** [find_dvd_drives] on the queries of the environment. *)
Definition dvd_drives (e : env) : list string :=
  find_dvd_drives (env_logical_drives e) (env_drive_type e).

(** The enumeration is a value of the environment for the handlers' proofs:
    [simpl] leaves it folded. *)
Arguments dvd_drives : simpl never.

(** The [try] block that starts ImgBurn. *)
Definition start_burn (self : window) (drive : string) : M window unit :=
  try_except
    (let* _ := match selected_game_path self with
               | Some src => popen (burn_args (imgburn_path self) src drive)
               | None => raise (TypeError "expected str, bytes or os.PathLike object, not NoneType")
               end in
     let* _ := show_console_instruction (selected_console self) in
     message Information "Burning Started" ("Burning started on drive " ++ drive))
    (fun x => message Critical "Burn Failed" (exc_str x)).

Section BurnGame.
Context `{PayloadStep}.

(** Lines 335-347: the detected drive, confirmed by the user. *)
Definition confirm_drive (drives : list string) : M window (option string) :=
  match drives with
  | [d] =>
      let* confirm := question "Use Detected Drive" (use_drive_text d) in
      if confirm then ret (Some d) else manual_drive_selection drives
  | _ => manual_drive_selection drives
  end.

(** Lines 352-379: the payload step, the ImgBurn check and the launch. *)
Definition burn_on_drive (drive : string) : M window unit :=
  let* '(success, msg) := payload_step in
  if negb success then message Warning "Payload Error" msg
  else
    let* _ := message Information "Payload" msg in
    let* self := get in
    let* found := isfile (imgburn_path self) in
    if negb found then
      message Critical "ImgBurn Not Found" ("ImgBurn.exe not found at:" ++ nl ++ imgburn_path self)
    else start_burn self drive.

Definition burn_game : M window unit :=
  let* self := get in
  match selected_game_path self with
  | None | Some EmptyString => message Warning "No Game" "Please select a game file first."
  | Some _ =>
      let* e := ask in
      match dvd_drives e with
      | [] => message Warning "No DVD Drive Found" "No DVD drive detected."
      | drives =>
          let* selected_drive := confirm_drive drives in
          match selected_drive with
          | None | Some EmptyString => ret tt
          | Some drive => burn_on_drive drive
          end
      end
  end.
End BurnGame.

(** ** Theorems of [burn_game], for any payload step *)

Section BurnTheorems.
Context `{P : PayloadStep}.

(** What the interface guarantees of one run of the step. *)
Lemma payload_step_shape e w o :
  exists b msg o', payload_step e w o = (inr (b, msg), w, o') /\
    forall a, In (EvSpawn a) (io_trace o') -> In (EvSpawn a) (io_trace o).
Proof.
  destruct (payload_never_raises e w o) as [[b msg] Hr].
  pose proof (payload_keeps_state e w o) as Hs. pose proof (payload_spawn_free e w o) as Hf.
  unfold spawn_free, result, final_state, final_io in *.
  destruct (payload_step e w o) as [[r w'] o'] eqn:E. simpl in *. subst.
  exists b, msg, o'. split; auto.
Qed.

(** The io after the user answered Yes to "Use Detected Drive". *)
Definition after_confirm (o : io) (d : string) : io :=
  mkIO (tl (io_answers o)) (io_trace o ++ [EvQuestion "Use Detected Drive" (use_drive_text d) true]).

Lemma confirm_drive_run drives e w o :
  confirm_drive drives e w o =
  match drives with
  | [d] =>
      if hd false (io_answers o) then (inr (Some d), w, after_confirm o d)
      else (inl (NameError "DriveSelectionDialog"), w,
            mkIO (tl (io_answers o))
                 (io_trace o ++ [EvQuestion "Use Detected Drive" (use_drive_text d) false]))
  | _ => (inl (NameError "DriveSelectionDialog"), w, o)
  end.
Proof.
  unfold confirm_drive, manual_drive_selection, after_confirm. py_unfold.
  destruct drives as [|d [|d2 ds]]; [reflexivity| |reflexivity].
  destruct (io_answers o) as [|[] rest]; reflexivity.
Qed.

(** The only process [burn_on_drive] starts is ImgBurn, after a successful
    payload step, when ImgBurn exists, on the selected path and drive. *)
Lemma burn_on_drive_spawn drive e w o a :
  In (EvSpawn a) (io_trace (final_io (@burn_on_drive P drive e w o))) ->
  In (EvSpawn a) (io_trace o) \/
  exists msg src,
    result (payload_step e w o) = inr (true, msg) /\ env_isfile e (imgburn_path w) = true /\
    selected_game_path w = Some src /\ a = burn_args (imgburn_path w) src drive.
Proof.
  destruct (payload_step_shape e w o) as (b & msg & o' & Hps & Hsp).
  unfold burn_on_drive. unfold bind at 1. rewrite Hps. unfold result. simpl fst.
  destruct b; py_unfold; cbn [negb].
  - destruct (env_isfile e (imgburn_path w)) eqn:Hi; cbn [negb].
    + unfold start_burn. py_unfold.
      destruct (selected_game_path w) as [src|] eqn:Hs.
      * destruct (env_popen e (burn_args (imgburn_path w) src drive)); cbn [is_Exception];
          simpl; intros H; trace_in H; decompose [or] H; clear H;
          first [ left; now apply Hsp | discriminate | contradiction
                | match goal with Hx : EvSpawn _ = EvSpawn _ |- _ => inv Hx end;
                  right; exists msg, src; auto ].
      * cbn [is_Exception]. simpl. intros H; trace_in H; left; apply Hsp; intuition discriminate.
    + simpl. intros H; trace_in H; left; apply Hsp; intuition discriminate.
  - simpl. intros H; trace_in H; left; apply Hsp; intuition discriminate.
Qed.


(** A spawn recorded in [after_confirm o d] was already in [o]. *)
Lemma spawn_after_confirm o d a :
  In (EvSpawn a) (io_trace (after_confirm o d)) -> In (EvSpawn a) (io_trace o).
Proof. unfold after_confirm. simpl. intros H. trace_in H. intuition discriminate. Qed.

(** The processes [burn_game] starts, by the path it takes. *)
Lemma burn_game_spawn_cases e w o a :
  In (EvSpawn a) (io_trace (final_io (@burn_game P e w o))) ->
  In (EvSpawn a) (io_trace o) \/
  exists p d msg,
    selected_game_path w = Some p /\ p <> EmptyString /\ dvd_drives e = [d] /\
    hd false (io_answers o) = true /\
    result (payload_step e w (after_confirm o d)) = inr (true, msg) /\
    env_isfile e (imgburn_path w) = true /\
    a = burn_args (imgburn_path w) p d.
Proof.
  unfold burn_game. py_unfold.
  destruct (selected_game_path w) as [[|c p]|] eqn:Hp;
    [intros H; left; trace_in H; intuition discriminate| |
     intros H; left; trace_in H; intuition discriminate].
  destruct (dvd_drives e) as [|d ds] eqn:Hd; [intros H; left; trace_in H; intuition discriminate|].
  rewrite confirm_drive_run.
  destruct ds as [|d2 ds]; [|intros H; left; exact H].
  destruct (hd false (io_answers o)) eqn:Ha; [|intros H; left; simpl in H; trace_in H; intuition discriminate].
  destruct d as [|cd d]; [intros H; left; apply (spawn_after_confirm o ""); exact H|].
  intros H. apply burn_on_drive_spawn in H as [H|(msg & src & Hr & Hi & Hs & ->)].
  - left. apply (spawn_after_confirm o (String cd d)). exact H.
  - right. exists (String c p), (String cd d), msg. rewrite Hs in Hp. inv Hp.
    repeat split; auto. discriminate.
Qed.

(** C1: [burn_game] starts a process only as the last step of the happy
    path: a non-empty game path is selected, exactly one optical drive is
    detected and the user confirmed it, the payload step (run right after
    the confirmation) reported success, ImgBurn exists, and the process is
    ImgBurn with the fixed flags, the selected path as source and the drive
    as destination. *)
Theorem burn_game_spawn_safety e w o a :
  In (EvSpawn a) (io_trace (final_io (@burn_game P e w o))) ->
  In (EvSpawn a) (io_trace o) \/
  exists p d msg,
    selected_game_path w = Some p /\ p <> EmptyString /\ dvd_drives e = [d] /\
    hd false (io_answers o) = true /\
    result (payload_step e w (after_confirm o d)) = inr (true, msg) /\
    env_isfile e (imgburn_path w) = true /\
    a = burn_args (imgburn_path w) p d.
Proof. exact (burn_game_spawn_cases e w o a). Qed.

Lemma show_console_instruction_never_raises c : never_raises (show_console_instruction c).
Proof. unfold show_console_instruction. auto with effects. Qed.

Lemma start_burn_never_raises self drive : never_raises (start_burn self drive).
Proof.
  unfold start_burn. apply never_raises_try; [|auto with effects].
  apply only_exceptions_bind; [|intros _; apply only_exceptions_never; apply never_raises_bind;
                                [apply show_console_instruction_never_raises | auto with effects]].
  destruct (selected_game_path self); [auto with effects | now apply only_exceptions_raise].
Qed.

Lemma burn_on_drive_never_raises drive : never_raises (@burn_on_drive P drive).
Proof.
  unfold burn_on_drive. apply never_raises_bind; [apply payload_never_raises|].
  intros [[|] msg]; cbn [negb]; [|auto with effects].
  apply never_raises_bind; [auto with effects|]. intros _.
  apply never_raises_bind; [auto with effects|]. intros self.
  apply never_raises_bind; [auto with effects|]. intros [|]; cbn [negb];
    [apply start_burn_never_raises | auto with effects].
Qed.

(** C2: [burn_game] raises [NameError] (the undefined
    [DriveSelectionDialog]) exactly when a game path is selected, some
    optical drive is detected, and it is not the case that exactly one
    drive was detected and the user accepted it. *)
Theorem burn_game_name_error_iff e w o :
  result (@burn_game P e w o) = inl (NameError "DriveSelectionDialog") <->
  (exists p, selected_game_path w = Some p /\ p <> EmptyString) /\ dvd_drives e <> [] /\
  ~ (exists d, dvd_drives e = [d] /\ hd false (io_answers o) = true).
Proof.
  unfold burn_game. py_unfold.
  destruct (selected_game_path w) as [[|c p]|] eqn:Hp;
    [split; [discriminate | intros [(q & Hq & Hne) _]; congruence] | |
     split; [discriminate | intros [(q & Hq & _) _]; discriminate]].
  destruct (dvd_drives e) as [|d ds] eqn:Hd;
    [split; [discriminate | intros [_ [H _]]; congruence]|].
  rewrite confirm_drive_run.
  assert (Hpe : exists q, Some (String c p) = Some q /\ q <> EmptyString)
    by (eexists; split; [reflexivity | discriminate]).
  destruct ds as [|d2 ds]; [|split; [intros _; split; [exact Hpe|]; split; [discriminate|];
                                     intros (x & Hx & _); discriminate | reflexivity]].
  destruct (hd false (io_answers o)) eqn:Ha.
  - split; [|intros [_ [_ Hn]]; exfalso; apply Hn; eauto].
    destruct d as [|cd d]; [discriminate|].
    destruct (burn_on_drive_never_raises (String cd d) e w (after_confirm o (String cd d)))
      as [x Hx].
    unfold result in Hx. rewrite Hx. discriminate.
  - split; [intros _; split; [exact Hpe|]; split; [discriminate|] | reflexivity].
    intros (x & Hx & Hy). congruence.
Qed.

(** With a game selected and no optical drive detected, [burn_game]
    only shows the "No DVD Drive Found" warning: no question, no process,
    no change of the window. *)
Theorem burn_game_no_drive e w o p :
  selected_game_path w = Some p -> p <> EmptyString -> dvd_drives e = [] ->
  @burn_game P e w o =
  (inr tt, w, mkIO (io_answers o)
                (io_trace o ++ [EvMessage Warning "No DVD Drive Found" "No DVD drive detected."])).
Proof.
  intros Hp Hne Hd. unfold burn_game. py_unfold. rewrite Hp.
  destruct p as [|c p]; [congruence|]. now rewrite Hd.
Qed.

(** The handler leaves the window state as it found it. *)
Lemma burn_game_keeps_state : keeps_state (@burn_game P).
Proof.
  pose proof (@payload_keeps_state P).
  unfold burn_game, confirm_drive, burn_on_drive, start_burn, show_console_instruction,
    manual_drive_selection.
  effects_auto.
Qed.

End BurnTheorems.

(** ** The classifier and the instructions *)


(** ** Witnesses, on a world with one CD-ROM drive D: and ImgBurn installed *)

Definition imgburn_exe : string := "C:\Program Files (x86)\ImgBurn\ImgBurn.exe".

Definition burn_env (drive_mask : Z) : env := {|
  env_config := inr (JObj []);
  env_isfile := fun p => String.eqb p imgburn_exe;
  env_isdir := fun _ => false;
  env_cwd := "C:\burn";
  env_logical_drives := drive_mask;
  env_drive_type := fun p => if String.eqb p "D:/" then 5%Z else if String.eqb p "E:/" then 5%Z else 3%Z;
  env_run := fun _ => inr 0%Z;
  env_popen := fun _ => None;
  env_post := fun _ => inl "offline";
  env_get := fun _ => inl "offline"
|}.

Definition burn_window : window :=
  mkWindow "" imgburn_exe "C:\burn\payload"
    {| client_id := JNull; client_secret := JNull; token := JStr "t" |}
    "" "" (LText "") true (Some "C:/games/random.iso") (Some "PC") None [] 0.

Lemma burn_game_spawn_safety_witness :
  In (EvSpawn (burn_args imgburn_exe "C:/games/random.iso" "D:"))
     (io_trace (final_io (@burn_game apply_payload_step (burn_env 12) burn_window (mkIO [true] [])))) /\
  (In (EvSpawn (burn_args imgburn_exe "C:/games/random.iso" "D:")) [] \/
   exists p d msg,
     selected_game_path burn_window = Some p /\ p <> EmptyString /\ dvd_drives (burn_env 12) = [d] /\
     hd false (io_answers (mkIO [true] [])) = true /\
     result (@payload_step apply_payload_step (burn_env 12) burn_window (after_confirm (mkIO [true] []) d))
       = inr (true, msg) /\
     env_isfile (burn_env 12) (imgburn_path burn_window) = true /\
     burn_args imgburn_exe "C:/games/random.iso" "D:" = burn_args (imgburn_path burn_window) p d).
Proof.
  assert (H : In (EvSpawn (burn_args imgburn_exe "C:/games/random.iso" "D:"))
     (io_trace (final_io (@burn_game apply_payload_step (burn_env 12) burn_window (mkIO [true] []))))).
  { vm_compute. right. right. left. reflexivity. }
  split; [exact H|].
  exact (burn_game_spawn_safety (burn_env 12) burn_window (mkIO [true] []) _ H).
Defined.

Lemma burn_game_no_drive_witness :
  selected_game_path burn_window = Some "C:/games/random.iso" /\
  "C:/games/random.iso" <> EmptyString /\ dvd_drives (burn_env 3) = [] /\
  @burn_game apply_payload_step (burn_env 3) burn_window (mkIO [] []) =
  (inr tt, burn_window, mkIO [] [EvMessage Warning "No DVD Drive Found" "No DVD drive detected."]).
Proof.
  assert (Hd : dvd_drives (burn_env 3) = []) by reflexivity.
  split; [reflexivity|]. split; [discriminate|]. split; [exact Hd|].
  exact (burn_game_no_drive (burn_env 3) burn_window (mkIO [] []) "C:/games/random.iso"
           eq_refl ltac:(discriminate) Hd).
Defined.

End Burner.
