(* ===== verification/Settings.v ===== *)
(** The [settings] module (src/settings.py) as its namespace: a stdpp
    [gmap] from attribute names to Python values.  [getattr] is an
    attribute access [settings.X] from src/main.py ([AttributeError] when
    the attribute is missing); [global_lookup] is a name lookup inside the
    module's own function [get_theme] ([NameError]).  The settings dialog
    of src/main.py (85-114) reads [settings.THEME] and
    [settings.FONT_SIZE] and calls [settings.save()]. *)

From S2P Require Import Prelude PyStr PyEffects.
From stdpp Require Import base strings gmap.
Import Py.

Module Settings.

Inductive pyval :=
| PStr (s : string)
| PInt (z : Z)
| PBool (b : bool)
| PTuple (l : list pyval)
| PDict (kv : list (string * pyval))
| PFun (name : string).

Definition pyval_type_name (v : pyval) : string :=
  match v with
  | PStr _ => "str" | PInt _ => "int" | PBool _ => "bool" | PTuple _ => "tuple"
  | PDict _ => "dict" | PFun _ => "function"
  end.

Fixpoint hashable (v : pyval) : bool :=
  match v with
  | PDict _ => false
  | PTuple l => forallb hashable l
  | _ => true
  end.

(** A dict display with distinct keys. *)
Definition dict_get (kv : list (string * pyval)) (k : string) : option pyval :=
  option_map snd (find (fun p => String.eqb (fst p) k) kv).

Definition theme_dict (bg text hl border button button_text : string) : pyval :=
  PDict [("background", PStr bg); ("text", PStr text); ("highlight", PStr hl);
         ("border", PStr border); ("button", PStr button); ("button_text", PStr button_text)].

Definition dark_theme : pyval :=
  theme_dict "#222222" "#DDDDDD" "#00FF00" "1px solid #444" "#333333" "#FFFFFF".
Definition light_theme : pyval :=
  theme_dict "#FFFFFF" "#000000" "#0000FF" "1px solid #CCC" "#EEEEEE" "#000000".

(** The namespace after [import settings]. *)
Definition settings_module : gmap string pyval :=
  list_to_map [
    ("APP_NAME", PStr "Game Disc Burner");
    ("WINDOW_SIZE", PTuple [PInt 600; PInt 460]);
    ("THEME", PStr "dark");
    ("THEMES", PDict [("dark", dark_theme); ("light", light_theme)]);
    ("get_theme", PFun "get_theme");
    ("IMGBURN_PATH", PStr "C:\Program Files (x86)\ImgBurn\ImgBurn.exe");
    ("PAYLOAD_FOLDER", PStr "payload");
    ("CONFIG_FILE", PStr "config.json");
    ("LOG_FILE", PStr "burn_log.txt");
    ("LAST_PATH_FILE", PStr "last_path.txt");
    ("DEFAULT_BURN_SPEED", PInt 4);
    ("AUTO_PATCH_PS2", PBool true);
    ("SHOW_INSTRUCTIONS_AFTER_BURN", PBool true);
    ("AUTO_DOWNLOAD_BOX_ART", PBool true);
    ("REMEMBER_LAST_PATH", PBool true);
    ("ENABLE_ANIMATIONS", PBool false);
    ("LANGUAGE", PStr "en");
    ("DEFAULT_CONSOLE", PStr "PS2");
    ("AUTO_SELECT_SINGLE_DRIVE", PBool true);
    ("SHOW_CONFIRMATION_BEFORE_BURN", PBool true);
    ("DEBUG_MODE", PBool false);
    ("AUTO_EJECT_AFTER_BURN", PBool false);
    ("ALLOW_NETWORK_LOOKUPS", PBool true)]%Z.

(** [settings.X] from another module. *)
Definition getattr (ns : gmap string pyval) (attr : string) : exc + pyval :=
  match ns !! attr with
  | Some v => inr v
  | None => inl (module_attr_error "settings" attr)
  end.

(** A global name inside the module. *)
Definition global_lookup (ns : gmap string pyval) (name : string) : exc + pyval :=
  match ns !! name with
  | Some v => inr v
  | None => inl (NameError name)
  end.

(** [get_theme()]: [THEMES.get(THEME, THEMES["dark"])], evaluated as
    Python does: the bound method [THEMES.get], then [THEME], then the
    default [THEMES["dark"]], then the call. *)
Definition get_theme (ns : gmap string pyval) : exc + pyval :=
  match global_lookup ns "THEMES" with
  | inl x => inl x
  | inr (PDict kv) =>
      match global_lookup ns "THEME" with
      | inl x => inl x
      | inr theme =>
          match dict_get kv "dark" with
          | None => inl (KeyError (py_repr "dark"))
          | Some dflt =>
              if negb (hashable theme) then
                inl (TypeError ("unhashable type: " ++ py_repr (pyval_type_name theme)))
              else match theme with
                   | PStr t => inr (match dict_get kv t with Some v => v | None => dflt end)
                   | _ => inr dflt
                   end
          end
      end
  | inr v => inl (object_attr_error (pyval_type_name v) "get")
  end.

(** [str(v)] of the values the dialog prints. *)
Definition py_str_val (v : pyval) : string :=
  match v with
  | PStr s => s
  | PInt z => py_str_int z
  | PBool true => "True"
  | PBool false => "False"
  | PFun n => "<function " ++ n ++ ">"
  | _ => "<" ++ pyval_type_name v ++ ">"
  end.

(** ** [SettingsDialog] *)

Record settings_dialog := { theme_box : string; font_size_box : string }.

Definition theme_items : list string := ["light"; "dark"].
Definition font_size_items : list string := ["10"; "12"; "14"; "16"].

(** [QComboBox.setCurrentText] on a non-editable box selects the item with
    that text if there is one, and otherwise keeps the current (first) item. *)
Definition combo_set_current (items : list string) (t : string) : string :=
  if existsb (String.eqb t) items then t else hd "" items.

(** [SettingsDialog.__init__]: [setCurrentText] needs a [str]. *)
Definition settings_dialog_init (ns : gmap string pyval) : exc + settings_dialog :=
  match getattr ns "THEME" with
  | inl x => inl x
  | inr (PStr theme) =>
      match getattr ns "FONT_SIZE" with
      | inl x => inl x
      | inr fs => inr {| theme_box := combo_set_current theme_items theme;
                         font_size_box := combo_set_current font_size_items (py_str_val fs) |}
      end
  | inr v => inl (TypeError ("setCurrentText(self, text: Optional[str]): argument 1 has unexpected type "
                             ++ py_repr (pyval_type_name v)))
  end.

(** [int(text)] for the decimal texts of the font-size box. *)
Definition py_int (s : string) : exc + Z :=
  match DecimalString.NilZero.int_of_string s with
  | Some i => inr (Z.of_int i)
  | None => inl (ValueError ("invalid literal for int() with base 10: " ++ py_repr s))
  end.

(** [save_settings]: the two assignments to the module, then
    [settings.save()].  The result is the namespace afterwards and the
    exception that escaped, if any. *)
Definition save_settings (ns : gmap string pyval) (d : settings_dialog)
  : gmap string pyval * option exc :=
  let ns1 := <["THEME" := PStr (theme_box d)]> ns in
  match py_int (font_size_box d) with
  | inl x => (ns1, Some x)
  | inr n =>
      let ns2 := <["FONT_SIZE" := PInt n]> ns1 in
      match getattr ns2 "save" with
      | inl x => (ns2, Some x)
      | inr (PFun _) => (ns2, None)
      | inr v => (ns2, Some (TypeError (py_repr (pyval_type_name v) ++ " object is not callable")))
      end
  end.

(** ** Theorems *)

Lemma getattr_missing ns a : ns !! a = None -> getattr ns a = inl (module_attr_error "settings" a).
Proof. unfold getattr. intros ->. reflexivity. Qed.

Lemma getattr_present ns a v : ns !! a = Some v -> getattr ns a = inr v.
Proof. unfold getattr. intros ->. reflexivity. Qed.

Lemma settings_module_THEMES :
  settings_module !! "THEMES" = Some (PDict [("dark", dark_theme); ("light", light_theme)]).
Proof. reflexivity. Qed.

Lemma settings_dialog_init_module :
  settings_dialog_init settings_module = inl (module_attr_error "settings" "FONT_SIZE").
Proof. reflexivity. Qed.

(** C17: a settings namespace whose [THEME] is a string and which has no
    [FONT_SIZE] (the module as written) makes [SettingsDialog()] raise
    [AttributeError: module 'settings' has no attribute 'FONT_SIZE']. *)
Theorem settings_dialog_init_raises ns t :
  ns !! "THEME" = Some (PStr t) -> ns !! "FONT_SIZE" = None ->
  settings_dialog_init ns = inl (module_attr_error "settings" "FONT_SIZE").
Proof.
  intros Ht Hf. unfold settings_dialog_init.
  rewrite (getattr_present _ _ _ Ht), (getattr_missing _ _ Hf). reflexivity.
Qed.

Lemma settings_dialog_init_raises_witness :
  settings_module !! "THEME" = Some (PStr "dark") /\ settings_module !! "FONT_SIZE" = None /\
  settings_dialog_init settings_module = inl (module_attr_error "settings" "FONT_SIZE").
Proof.
  split; [reflexivity|]. split; [reflexivity|].
  apply (settings_dialog_init_raises settings_module "dark"); reflexivity.
Defined.

(** C32: [get_theme] of the module with any string [THEME] returns the
    light palette for "light" and the dark palette otherwise; it never
    raises. *)
Theorem get_theme_spec t :
  get_theme (<["THEME" := PStr t]> settings_module) =
  inr (if String.eqb t "light" then light_theme else dark_theme).
Proof.
  unfold get_theme, global_lookup.
  rewrite lookup_insert_ne by discriminate. rewrite lookup_insert_eq, settings_module_THEMES.
  unfold dict_get; cbn [find fst snd option_map hashable negb].
  destruct (String.eqb_spec "dark" t) as [<-|Hd]; [reflexivity|].
  destruct (String.eqb_spec "light" t) as [<-|Hl]; [reflexivity|].
  destruct (String.eqb_spec t "light"); [congruence|reflexivity].
Qed.

(** C33: [save_settings] assigns [THEME] and [FONT_SIZE] in the module and
    then fails on [settings.save()], which the module does not define, so
    the confirmation message and [accept()] are never reached. *)
Theorem save_settings_raises ns d n :
  py_int (font_size_box d) = inr n -> ns !! "save" = None ->
  save_settings ns d =
  (<["FONT_SIZE" := PInt n]> (<["THEME" := PStr (theme_box d)]> ns),
   Some (module_attr_error "settings" "save")).
Proof.
  intros Hn Hs. unfold save_settings. rewrite Hn, getattr_missing; [reflexivity|].
  rewrite !lookup_insert_ne by discriminate. exact Hs.
Qed.

Lemma save_settings_raises_witness :
  let d := {| theme_box := "light"; font_size_box := "14" |} in
  py_int (font_size_box d) = inr 14%Z /\ settings_module !! "save" = None /\
  save_settings settings_module d =
  (<["FONT_SIZE" := PInt 14]> (<["THEME" := PStr "light"]> settings_module),
   Some (module_attr_error "settings" "save")).
Proof.
  intros d. split; [reflexivity|]. split; [reflexivity|].
  apply save_settings_raises; reflexivity.
Defined.


(** ** The dialog writes back what it shows *)

Lemma combo_set_current_in items t : In t items -> combo_set_current items t = t.
Proof.
  intros H. unfold combo_set_current.
  replace (existsb (String.eqb t) items) with true; [reflexivity|].
  symmetry. apply existsb_exists. exists t. split; [exact H | apply String.eqb_refl].
Qed.

Lemma combo_set_current_mem items t : items <> [] -> In (combo_set_current items t) items.
Proof.
  intros Hne. unfold combo_set_current. destruct (existsb (String.eqb t) items) eqn:E.
  - apply existsb_exists in E as (x & Hx & ->%String.eqb_eq). exact Hx.
  - destruct items; [congruence | now left].
Qed.

(** The texts of the font-size box are the decimal forms of 10, 12, 14, 16. *)
Lemma font_size_items_int f :
  In f font_size_items <-> exists z, In z [10; 12; 14; 16]%Z /\ f = py_str_int z.
Proof.
  split.
  - intros H. repeat destruct H as [<-|H]; try contradiction;
      [exists 10%Z | exists 12%Z | exists 14%Z | exists 16%Z]; split; simpl; auto 6.
  - intros (z & Hz & ->). repeat destruct Hz as [<-|Hz]; try contradiction; simpl; auto 6.
Qed.

Lemma py_int_str z : In z [10; 12; 14; 16]%Z -> py_int (py_str_int z) = inr z.
Proof. intros H. repeat destruct H as [<-|H]; try contradiction; reflexivity. Qed.

Lemma save_settings_fst ns d n :
  py_int (font_size_box d) = inr n ->
  fst (save_settings ns d) = <["FONT_SIZE" := PInt n]> (<["THEME" := PStr (theme_box d)]> ns).
Proof.
  intros Hn. unfold save_settings. rewrite Hn.
  destruct (getattr _ "save") as [|[]]; reflexivity.
Qed.

(** C39: pressing OK in a dialog opened on a [THEME] string [t] and an
    integer [FONT_SIZE] [z] leaves the module as it was exactly when [t]
    is an item of the theme box and [z] one of the font-size box; any
    other value is replaced by the box's first item. *)
Theorem settings_dialog_roundtrip ns t z :
  ns !! "THEME" = Some (PStr t) -> ns !! "FONT_SIZE" = Some (PInt z) ->
  exists d, settings_dialog_init ns = inr d /\
    (fst (save_settings ns d) = ns <-> In t theme_items /\ In z [10; 12; 14; 16]%Z).
Proof.
  intros Ht Hz. unfold settings_dialog_init. rewrite (getattr_present _ _ _ Ht), (getattr_present _ _ _ Hz).
  eexists; split; [reflexivity|]. cbn [theme_box font_size_box py_str_val].
  destruct (proj1 (font_size_items_int _) (combo_set_current_mem font_size_items (py_str_int z)
    ltac:(discriminate))) as (n & Hn & En).
  rewrite (save_settings_fst _ _ n) by (cbn; rewrite En; now apply py_int_str).
  cbn [theme_box]. split.
  - intros E. pose proof (f_equal (lookup "THEME") E) as E1. pose proof (f_equal (lookup "FONT_SIZE") E) as E2.
    rewrite lookup_insert_ne, lookup_insert_eq, Ht in E1 by discriminate.
    rewrite lookup_insert_eq, Hz in E2. simplify_eq. split; [|exact Hn].
    rewrite <- E1. now apply combo_set_current_mem.
  - intros [Hti Hzi]. rewrite combo_set_current_in by exact Hti.
    rewrite (insert_id ns "THEME") by exact Ht.
    rewrite combo_set_current_in in En by (apply font_size_items_int; eauto).
    assert (n = z) as -> by (apply (f_equal py_int) in En; rewrite !py_int_str in En by assumption; congruence).
    now apply insert_id.
Qed.

Lemma settings_dialog_roundtrip_witness :
  (<["FONT_SIZE" := PInt 12]> settings_module) !! "THEME" = Some (PStr "dark") /\
  (<["FONT_SIZE" := PInt 12]> settings_module) !! "FONT_SIZE" = Some (PInt 12) /\
  exists d, settings_dialog_init (<["FONT_SIZE" := PInt 12]> settings_module) = inr d /\
    (fst (save_settings (<["FONT_SIZE" := PInt 12]> settings_module) d) =
       <["FONT_SIZE" := PInt 12]> settings_module <->
     In "dark" theme_items /\ In 12%Z [10; 12; 14; 16]%Z).
Proof.
  split; [reflexivity|]. split; [reflexivity|].
  apply settings_dialog_roundtrip; reflexivity.
Defined.

End Settings.
