(* ===== verification/App.v ===== *)
(** The running application: [GameDiscBurner.__init__] (src/main.py
    115-178) and [main] (430-434), the slots [select_file] (219-231),
    [load_game_art] (233-242), [on_art_loaded] (250-257) and
    [open_settings] (179-181) beside [burn_game], and the image download
    threads (66-82).  The Qt event loop is a step function [app_step] on the
    whole system: the settings namespace, the window, the image signals
    queued for the main thread, the user's answers and the trace, and
    whether the process still runs.  PyQt6 ends the process when an
    exception escapes a slot, which stops the system.  A download whose
    thread is no longer [self.img_thread] runs on: its running [run]
    holds the thread object. *)

From S2P Require Import Prelude PyStr UStr Title Console PyEffects Igdb Window Payload Burner Settings.
From stdpp Require Import base gmap.
Import Py Normalizer Classifier Igdb Win Payload Burner Settings.

Module App.
Local Open Scope string_scope.
Local Open Scope py_scope.

Section WithDB.
Context {U : UnicodeDB}.

(** An [exc + A] value as a computation. *)
Definition of_sum {S A} (r : exc + A) : M S A :=
  match r with inl x => raise x | inr a => ret a end.

(** ** Slots of the main window *)

(** [self.img_thread = ImageDownloadThread(url); ... .start()]: the
    assignment drops the window's reference to the previous thread, but
    the frame of a [run] that still executes holds that thread, so it is
    not destroyed: it goes on running beside the new one, and its
    [image_ready] signal stays connected to [on_art_loaded]. *)
Definition replace_img_thread (url : string) : M window unit :=
  let* self := get in
  let* _ := emit (EvThreadStart (next_thread self) url) in
  modify (start_thread url).

(** [load_game_art] *)
Definition load_game_art (game_name : string) : M window unit :=
  let* _ := modify (set_label_image (LText "Loading box art...")) in
  let* _ := modify (set_label_image (LPixmap PixNull)) in
  try_except
    (let* self := get in
     let* url := fetch_cover_url (igdb self) game_name in
     replace_img_thread url)
    (fun _ => modify (set_label_image (LText "Failed to load art."))).

(** [on_art_loaded]: [pixmap and not pixmap.isNull()]. *)
Definition on_art_loaded (p : pixmap) : M window unit :=
  match p with
  | PixImage url => modify (set_label_image (LPixmap (PixImage url)))
  | PixNull => modify (set_label_image (LText "No box art found."))
  end.

(** What [on_art_loaded] puts in the image label. *)
Definition art_of (p : pixmap) : label_content :=
  match p with
  | PixImage url => LPixmap (PixImage url)
  | PixNull => LText "No box art found."
  end.

(** [select_file], given the path the file dialog returned ("" when the
    user cancelled it). *)
Definition select_file (file_path : string) : M window unit :=
  if String.eqb file_path "" then ret tt
  else
    let* _ := modify (set_selected_game_path (Some file_path)) in
    let cleaned_name := smart_game_name_str file_path in
    let* _ := modify (set_selected_console (Some (detect_console (ustr_of_string file_path)))) in
    let* self := get in
    let* _ := modify (set_label_console ("Detected Console: " ++ console_str (selected_console self))) in
    let* _ := modify (set_label_description ("Detected Game Title: " ++ cleaned_name)) in
    let* _ := load_game_art cleaned_name in
    modify (set_btn_burn true).

(** The user's choice in a combo box: an item, or no change. *)
Definition combo_pick (items : list string) (current t : string) : string :=
  if existsb (String.eqb t) items then t else current.

(** [open_settings]: [SettingsDialog()], then [exec()] in which the user
    picks a theme and a font size and presses OK ([Some]) or Cancel
    ([None]); OK runs [save_settings].  The state is the settings
    namespace. *)
Definition open_settings (choice : option (string * string)) : M (gmap string pyval) unit :=
  let* ns := get in
  let* dlg := of_sum (settings_dialog_init ns) in
  match choice with
  | None => ret tt
  | Some (t, f) =>
      let dlg' := {| theme_box := combo_pick theme_items (theme_box dlg) t;
                     font_size_box := combo_pick font_size_items (font_size_box dlg) f |} in
      let (ns', r) := save_settings ns dlg' in
      let* _ := put ns' in
      match r with
      | Some x => raise x
      | None => message Information "Saved" "Changes saved. Restart app to apply."
      end
  end.

(** [apply_theme]: [settings.THEME == "dark"]; a value that is not a
    [str] equals no string. *)
Definition apply_theme (theme : pyval) : string :=
  match theme with
  | PStr t => if String.eqb t "dark" then "background-color: #1e1e1e; color: white;" else ""
  | _ => ""
  end.

(** [GameDiscBurner.__init__]: the settings it reads, the IGDB client
    (a failure shows a critical message and calls [sys.exit(1)]), and the
    initial widgets. *)
Definition app_init (ns : gmap string pyval) : M unit window :=
  let* _ := of_sum (getattr ns "APP_NAME") in
  let* _ := of_sum (getattr ns "WINDOW_SIZE") in
  let* e := ask in
  let payload_base := path_join (env_cwd e) "payload" in
  let* client :=
    try_except igdb_init
      (fun x => let* _ := message Critical "IGDB Init Failed" (exc_str x) in raise (SystemExit 1)) in
  let* theme := of_sum (getattr ns "THEME") in
  ret (mkWindow (apply_theme theme) imgburn_exe payload_base client "Detected Console: None" "No game selected"
         (LText "") false None None None [] 0).

(** ** The event loop *)

Inductive status := Running | Stopped (x : exc).

Record sys := mkSys {
  sns : gmap string pyval;
  swin : window;
  (* [image_ready] signals queued for the main thread: thread id and pixmap *)
  pending : list (nat * pixmap);
  sio : io;
  sstatus : status
}.

Inductive ui_event :=
| ClickSelect (file_path : string)
| ClickBurn
| ClickGear (choice : option (string * string))
| ThreadRun (id : nat)   (* the thread runs [ImageDownloadThread.run] to its end *)
| Deliver.               (* the main loop delivers the oldest queued signal *)

Definition status_of {A} (r : exc + A) : status :=
  match r with inl x => Stopped x | inr _ => Running end.

(** A slot of the window runs to its end or stops the process. *)
Definition run_slot (m : M window unit) (e : env) (s : sys) : sys :=
  let '(r, w, o) := m e (swin s) (sio s) in mkSys (sns s) w (pending s) o (status_of r).

Definition find_thread (id : nat) (w : window) : option string :=
  option_map snd (find (fun t => Nat.eqb (fst t) id) (threads w)).

Definition app_step (e : env) (s : sys) (ev : ui_event) : sys :=
  match sstatus s with
  | Stopped _ => s
  | Running =>
      match ev with
      | ClickSelect p => run_slot (select_file p) e s
      | ClickBurn => if btn_burn_enabled (swin s) then run_slot (@burn_game apply_payload_step) e s else s
      | ClickGear c =>
          let '(r, ns, o) := open_settings c e (sns s) (sio s) in
          mkSys ns (swin s) (pending s) o (status_of r)
      | ThreadRun id =>
          match find_thread id (swin s) with
          | None => s
          | Some url =>
              let '(r, w, o) := download_image url e (swin s) (sio s) in
              match r with
              | inr pix => mkSys (sns s) (finish_thread id w) (pending s ++ [(id, pix)]) o Running
              | inl x => mkSys (sns s) (finish_thread id w) (pending s) o (Stopped x)
              end
          end
      | Deliver =>
          match pending s with
          | [] => s
          | (_, pix) :: rest => run_slot (on_art_loaded pix) e (mkSys (sns s) (swin s) rest (sio s) Running)
          end
      end
  end.

Definition run_events (e : env) (s : sys) (evs : list ui_event) : sys :=
  fold_left (app_step e) evs s.

(** [main()]: the window is built with the user's answers [ans] ahead; a
    failure ends the process before the event loop. *)
Definition app_start (e : env) (ns : gmap string pyval) (ans : list bool) : (exc * io) + sys :=
  match app_init ns e tt (mkIO ans []) with
  | (inr w, _, o) => inr (mkSys ns w [] o Running)
  | (inl x, _, o) => inl (x, o)
  end.

(** The systems the program can reach from its start. *)
Inductive reachable (e : env) : sys -> Prop :=
| reach_start ans s : app_start e settings_module ans = inr s -> reachable e s
| reach_step s ev : reachable e s -> reachable e (app_step e s ev).

(** ** What the handlers leave unchanged *)

(** The fields [select_file] sets: the selection, its labels and the burn
    button. *)
Definition sel_view (w : window) :=
  (selected_game_path w, selected_console w, label_console w, label_description w, btn_burn_enabled w).

Definition same_sel (w w' : window) : Prop := sel_view w = sel_view w'.

#[local] Instance same_sel_preorder : PreOrder same_sel.
Proof. split; unfold same_sel; [intros w | intros w1 w2 w3 -> ->]; reflexivity. Qed.

Lemma fetch_cover_url_keeps_state c n : keeps_state (S := window) (fetch_cover_url c n).
Proof.
  unfold fetch_cover_url, search_game, json_of, py_index0, py_get. effects_auto.
Qed.

Lemma fetch_cover_url_oblivious c n : oblivious (S := window) (fetch_cover_url c n).
Proof.
  unfold fetch_cover_url, search_game, json_of, py_index0, py_get. effects_auto.
Qed.

#[local] Hint Resolve fetch_cover_url_keeps_state fetch_cover_url_oblivious : effects.

Lemma load_game_art_same_sel n : preserves same_sel (load_game_art n).
Proof.
  unfold load_game_art, replace_img_thread.
  effects_auto; try (apply preserves_modify; intros; reflexivity).
  all: try (apply preserves_keeps; auto with effects).
Qed.

(** The window shows the selection of [p]: its path, its console and the
    two labels [select_file] writes for it. *)
Definition shows_selection (w : window) (p : string) : Prop :=
  p <> "" /\ selected_game_path w = Some p /\ selected_console w = Some (detect_console (ustr_of_string p)) /\
  label_console w = "Detected Console: " ++ detect_console (ustr_of_string p) /\
  label_description w = "Detected Game Title: " ++ smart_game_name_str p.

(** An enabled burn button goes with a shown selection. *)
Definition burn_ready (w : window) : Prop :=
  btn_burn_enabled w = true -> exists p, shows_selection w p.

Lemma shows_selection_same_sel w w' p : same_sel w w' -> shows_selection w p -> shows_selection w' p.
Proof.
  unfold same_sel, sel_view. intros H. injection H. intros E5 E4 E3 E2 E1 (?&?&?&?&?).
  repeat split; congruence.
Qed.

Lemma select_file_burn_ready p : preserves (keeps_prop burn_ready) (select_file p).
Proof.
  intros e w o Hw. unfold select_file.
  destruct (String.eqb_spec p ""); [exact Hw|].
  py_unfold.
  match goal with |- context [load_game_art ?n e ?w1 ?o1] =>
    pose proof (load_game_art_same_sel n e w1 o1) as Hv;
    destruct (load_game_art n e w1 o1) as [[r w2] o2] end.
  assert (Hs : shows_selection w2 p).
  { eapply shows_selection_same_sel; [exact Hv|]. split; [exact n|]. repeat split. }
  destruct r; intros _; exists p; exact Hs.
Qed.

Lemma download_image_keeps_state url : keeps_state (S := window) (download_image url).
Proof. unfold download_image. effects_auto. Qed.

Lemma app_init_window ns e u o w :
  result (app_init ns e u o) = inr w ->
  btn_burn_enabled w = false /\ img_thread w = None /\ threads w = [].
Proof.
  unfold app_init, of_sum, getattr. py_unfold.
  destruct (ns !! "APP_NAME"); [|discriminate]. destruct (ns !! "WINDOW_SIZE"); [|discriminate].
  destruct (igdb_init e u _) as [[[x|c] u'] o']; [destruct (is_Exception x)|]; cbn;
    try discriminate; destruct (ns !! "THEME"); cbn; intros H; inv H; auto.
Qed.

Lemma app_start_window e ns ans s :
  app_start e ns ans = inr s ->
  btn_burn_enabled (swin s) = false /\ img_thread (swin s) = None /\ threads (swin s) = [].
Proof.
  unfold app_start. pose proof (app_init_window ns e tt (mkIO ans [])) as H.
  destruct (app_init ns e tt (mkIO ans [])) as [[[x|w] u] o]; intros E; inv E. apply H. reflexivity.
Qed.

(** A property of the window that every slot keeps holds in every
    reachable system. *)
Section WindowInvariant.
Variable e : env.
Variable P : window -> Prop.
Hypothesis P_start : forall ans s, app_start e settings_module ans = inr s -> P (swin s).
Hypothesis P_select : forall p, preserves (keeps_prop P) (select_file p).
Hypothesis P_art : forall pix, preserves (keeps_prop P) (on_art_loaded pix).
Hypothesis P_finish : forall id w, P w -> P (finish_thread id w).

Lemma run_slot_inv (m : M window unit) s :
  preserves (keeps_prop P) m -> P (swin s) -> P (swin (run_slot m e s)).
Proof.
  intros Hm Hs. specialize (Hm e (swin s) (sio s) Hs). unfold run_slot, final_state in *.
  destruct (m e (swin s) (sio s)) as [[r w] o]. exact Hm.
Qed.

Lemma reachable_window_inv s : reachable e s -> P (swin s).
Proof.
  induction 1 as [ans s Hs | s ev _ IH]; [eauto|].
  unfold app_step. destruct (sstatus s); [|exact IH].
  destruct ev as [p| |c|id|].
  - apply run_slot_inv; auto.
  - destruct (btn_burn_enabled (swin s)); [|exact IH].
    apply run_slot_inv; [|exact IH]. apply preserves_keeps; [typeclasses eauto|].
    apply burn_game_keeps_state.
  - destruct (open_settings c e (sns s) (sio s)) as [[r ns] o]. exact IH.
  - destruct (find_thread id (swin s)) as [url|]; [|exact IH].
    pose proof (download_image_keeps_state url e (swin s) (sio s)) as Hk. unfold final_state in Hk.
    destruct (download_image url e (swin s) (sio s)) as [[[x|pix] w] o]; simpl in *; subst; auto.
  - destruct (pending s) as [|[id pix] rest]; [exact IH|].
    apply (run_slot_inv _ (mkSys (sns s) (swin s) rest (sio s) Running)); auto.
Qed.
End WindowInvariant.

Lemma on_art_loaded_keeps (P : window -> Prop) pix :
  (forall c w, P w -> P (set_label_image c w)) -> preserves (keeps_prop P) (on_art_loaded pix).
Proof. intros H. destruct pix; apply preserves_modify; intros w; unfold keeps_prop; apply H. Qed.

(** The client [IGDBClient()] builds when the program starts. *)
Definition startup_client (e : env) : exc + igdb_client := result (igdb_init (S := unit) e tt (mkIO [] [])).

Lemma igdb_init_oblivious : oblivious (S := unit) igdb_init.
Proof. unfold igdb_init, get_token, json_of, py_getitem_str. effects_auto. Qed.

Lemma app_init_igdb ns e u o w :
  result (app_init ns e u o) = inr w -> result (igdb_init e u o) = inr (igdb w).
Proof.
  unfold app_init, of_sum, getattr. py_unfold.
  destruct (ns !! "APP_NAME"); [|discriminate]. destruct (ns !! "WINDOW_SIZE"); [|discriminate].
  destruct (igdb_init e u o) as [[[x|c] u'] o'] eqn:E; [destruct (is_Exception x)|]; cbn;
    try discriminate; destruct (ns !! "THEME"); cbn; intros H; inv H; reflexivity.
Qed.

Lemma select_file_igdb e p : preserves (keeps_prop (fun w => startup_client e = inr (igdb w))) (select_file p).
Proof. unfold select_file, load_game_art, replace_img_thread. effects_auto. Qed.

Lemma app_init_style ns e u o w :
  result (app_init ns e u o) = inr w -> exists v, ns !! "THEME" = Some v /\ style_sheet w = apply_theme v.
Proof.
  unfold app_init, of_sum, getattr. py_unfold.
  destruct (ns !! "APP_NAME"); [|discriminate]. destruct (ns !! "WINDOW_SIZE"); [|discriminate].
  destruct (igdb_init e u o) as [[[x|c] u'] o']; [destruct (is_Exception x)|]; cbn;
    try discriminate; destruct (ns !! "THEME"); cbn; intros H; inv H; eauto.
Qed.

Lemma select_file_style p t : preserves (keeps_prop (fun w => style_sheet w = t)) (select_file p).
Proof. unfold select_file, load_game_art, replace_img_thread. effects_auto. Qed.

Lemma reachable_burn_ready e s : reachable e s -> burn_ready (swin s).
Proof.
  apply (reachable_window_inv e burn_ready).
  - intros ans s0 Hs H. destruct (app_start_window _ _ _ _ Hs) as [Hb _]. congruence.
  - apply select_file_burn_ready.
  - intros pix. apply on_art_loaded_keeps. intros c w H. exact H.
  - intros id w H. exact H.
Qed.

(** The click on the gear button when the settings are the imported module. *)
Lemma open_settings_module c e o :
  open_settings c e settings_module o = (inl (module_attr_error "settings" "FONT_SIZE"), settings_module, o).
Proof. unfold open_settings, of_sum. py_unfold. rewrite settings_dialog_init_module. reflexivity. Qed.

Lemma reachable_settings e s : reachable e s -> sns s = settings_module.
Proof.
  induction 1 as [ans s Hs | s ev _ IH].
  - unfold app_start in Hs. destruct (app_init settings_module e tt (mkIO ans [])) as [[[x|w] u] o].
    + discriminate.
    + inv Hs. reflexivity.
  - unfold app_step. destruct (sstatus s); [|exact IH].
    destruct ev as [p| |c|id|]; unfold run_slot.
    + destruct (select_file p e (swin s) (sio s)) as [[r w] o]. exact IH.
    + destruct (btn_burn_enabled (swin s)); [|exact IH].
      destruct (burn_game e (swin s) (sio s)) as [[r w] o]. exact IH.
    + rewrite IH, open_settings_module. reflexivity.
    + destruct (find_thread id (swin s)); [|exact IH].
      destruct (download_image s0 e (swin s) (sio s)) as [[[x|pix] w] o]; exact IH.
    + destruct (pending s) as [|[id pix] rest]; [exact IH|].
      cbn. destruct (on_art_loaded pix e (swin s) (sio s)) as [[r' w] o]. exact IH.
Qed.

(** The image label is unchanged or shows the failure text. *)
Definition label_or_failed (w w' : window) : Prop :=
  label_image w' = label_image w \/ label_image w' = LText "Failed to load art.".

#[local] Instance label_or_failed_preorder : PreOrder label_or_failed.
Proof.
  split; unfold label_or_failed; [intros w; left; reflexivity|].
  intros w1 w2 w3 [H12|H12] [H23|H23]; rewrite ?H23; auto.
Qed.

Lemma final_state_bind_modify {A} (f : window -> window) (k : unit -> M window A) e w o :
  final_state (bind (modify f) k e w o) = final_state (k tt e (f w) o).
Proof. reflexivity. Qed.

(** ** A concrete world

    The configuration holds credentials, the token request succeeds, and a
    search for a title starting with "Alpha" finds the cover "a1", any
    other search the cover "b2"; every image downloads. *)

Definition ok_json (j : json) : response :=
  {| status_code := 200; resp_text := ""; resp_json := inr j; resp_image := true |}.

Definition game_json (image_id : string) : json :=
  JArr [JObj [("name", JStr "Game"); ("cover", JObj [("image_id", JStr image_id)])]].

Definition app_env (config : string + json) : env := {|
  env_config := config;
  env_isfile := fun _ => true;
  env_isdir := fun _ => false;
  env_cwd := "C:\burn";
  env_logical_drives := 8;
  env_drive_type := fun p => if String.eqb p "D:/" then 5 else 3;
  env_run := fun _ => inr 0;
  env_popen := fun _ => None;
  env_post := fun r =>
    if String.eqb (req_url r) token_url then inr (ok_json (JObj [("access_token", JStr "tok")]))
    else inr (ok_json (game_json (if String.prefix ("search " ++ dquote ++ "Alpha") (req_data r) then "a1" else "b2")));
  env_get := fun _ => inr (ok_json JNull)
|}%Z.

Definition good_config : string + json :=
  inr (JObj [("TWITCH_CLIENT_ID", JStr "id"); ("TWITCH_CLIENT_SECRET", JStr "secret")]).

(** The system right after [main()] built the window. *)
Definition app_s0 : sys :=
  match app_start (app_env good_config) settings_module [] with
  | inr s => s
  | inl _ => mkSys settings_module burn_window [] (mkIO [] []) Running
  end.

Definition alpha_iso : string := "C:/games/Alpha.iso".
Definition beta_iso : string := "C:/games/Beta.iso".

Lemma reachable_run_events e s evs : reachable e s -> reachable e (run_events e s evs).
Proof.
  revert s. induction evs as [|ev evs IH]; intros s Hs; [exact Hs|].
  apply IH. apply reach_step, Hs.
Qed.

Lemma reachable_app_s0 : reachable (app_env good_config) app_s0.
Proof. apply (reach_start _ []). vm_compute. reflexivity. Qed.

(** ** Theorems of the running application *)

(** C3: in every system the program reaches, an enabled "Burn Game"
    button goes with a selected non-empty path whose console, console label
    and title label are the ones [select_file] computes from it. *)
Theorem app_burn_button_consistent e s :
  reachable e s -> btn_burn_enabled (swin s) = true -> exists p, shows_selection (swin s) p.
Proof. apply reachable_burn_ready. Qed.

(** C19: the image a click on "Burn Game" hands to ImgBurn is the one the
    window shows: in every reachable system, a process the click starts is
    ImgBurn with the selected path as its source, and that path's detected
    console and cleaned title are the two labels on screen. *)
Theorem app_burn_shown_selection e s a :
  reachable e s ->
  In (EvSpawn a) (io_trace (sio (app_step e s ClickBurn))) ->
  In (EvSpawn a) (io_trace (sio s)) \/
  exists p d, shows_selection (swin s) p /\ a = burn_args (imgburn_path (swin s)) p d.
Proof.
  intros Hr. unfold app_step. destruct (sstatus s); [|auto].
  destruct (btn_burn_enabled (swin s)) eqn:Hb; [|auto].
  destruct (reachable_burn_ready e s Hr Hb) as [p Hp].
  pose proof (burn_game_spawn_cases (P := apply_payload_step) e (swin s) (sio s) a) as H.
  unfold run_slot. destruct (burn_game e (swin s) (sio s)) as [[r w] o]. cbn [sio final_io snd] in *.
  intros Hin. destruct (H Hin) as [H'|(p' & d & msg & Hs & _ & _ & _ & _ & _ & ->)]; [auto|].
  right. exists p, d. pose proof Hp as (_ & Hs' & _). rewrite Hs in Hs'. inv Hs'. auto.
Qed.

(** C26: the IGDB token is obtained once, at startup, and reused: in
    every reachable system the window's client is the one [IGDBClient()]
    built when the program started.  So every search request
    ([search_request]) carries the startup [Client-ID] and the header
    [Authorization: Bearer] with the startup token; no step refreshes it. *)
Theorem app_igdb_client_fixed e s : reachable e s -> startup_client e = inr (igdb (swin s)).
Proof.
  apply (reachable_window_inv e (fun w => startup_client e = inr (igdb w))).
  - intros ans s0. unfold app_start. pose proof (app_init_igdb settings_module e tt (mkIO ans [])) as H.
    destruct (app_init settings_module e tt (mkIO ans [])) as [[[x|w] u] o]; intros E; inv E.
    unfold startup_client. rewrite (igdb_init_oblivious e tt tt _ (mkIO ans [])). now apply H.
  - apply select_file_igdb.
  - intros pix. apply on_art_loaded_keeps. intros c w H. exact H.
  - intros id w H. exact H.
Qed.

(** C29: [apply_theme] runs once, in [__init__], with the imported
    [settings.THEME] "dark": in every reachable system the window has the
    dark style sheet.  No slot sets it again, so a theme saved in the
    settings dialog is not applied while the program runs. *)
Theorem app_style_sheet_fixed e s :
  reachable e s -> style_sheet (swin s) = "background-color: #1e1e1e; color: white;".
Proof.
  apply (reachable_window_inv e (fun w => style_sheet w = "background-color: #1e1e1e; color: white;")).
  - intros ans s0. unfold app_start. pose proof (app_init_style settings_module e tt (mkIO ans [])) as H.
    destruct (app_init settings_module e tt (mkIO ans [])) as [[[x|w] u] o]; intros E; inv E.
    destruct (H w eq_refl) as (v & Hv & Hs). cbn [swin]. rewrite Hs. vm_compute in Hv. inv Hv. reflexivity.
  - intros p. apply select_file_style.
  - intros pix. apply on_art_loaded_keeps. intros c w H. exact H.
  - intros id w H. exact H.
Qed.

(** C5: in every reachable running system a click on the gear button
    stops the program with [AttributeError: module 'settings' has no
    attribute 'FONT_SIZE'], changing nothing else. *)
Theorem app_gear_click_crashes e s c :
  reachable e s -> sstatus s = Running ->
  app_step e s (ClickGear c) =
  mkSys (sns s) (swin s) (pending s) (sio s) (Stopped (module_attr_error "settings" "FONT_SIZE")).
Proof.
  intros Hr Hs. unfold app_step. rewrite Hs, (reachable_settings e s Hr), open_settings_module.
  reflexivity.
Qed.

(** C31: when config.json cannot be read, [main()] shows the critical
    message "IGDB Init Failed" with the error and exits with status 1
    before the window exists; nothing else happens. *)
Theorem app_start_config_error e ans msg :
  env_config e = inl msg ->
  app_start e settings_module ans =
  inl (SystemExit 1, mkIO ans [EvMessage Critical "IGDB Init Failed" ("Failed to load config.json: " ++ msg)]).
Proof.
  intros Hc. unfold app_start, app_init, igdb_init, of_sum. py_unfold. rewrite Hc. reflexivity.
Qed.

(** C36: a rejected token request also ends the program at startup, with
    a message of its own: [get_token] runs after the [try] of
    [IGDBClient.__init__], so its exception is not wrapped in "Failed to
    load config.json".  [main()] shows "IGDB Init Failed" with "Failed to
    get IGDB token:", the status and the body of the response, and exits
    with status 1 before the window exists. *)
Theorem app_start_token_error e ans cid sec r :
  (exists config, env_config e = inr config /\ config_get config "TWITCH_CLIENT_ID" = inr cid /\
                  config_get config "TWITCH_CLIENT_SECRET" = inr sec) ->
  env_post e (token_request {| client_id := cid; client_secret := sec; token := JNull |}) = inr r ->
  resp_ok r = false ->
  app_start e settings_module ans =
  inl (SystemExit 1,
       mkIO ans [EvHttp (token_request {| client_id := cid; client_secret := sec; token := JNull |});
                 EvMessage Critical "IGDB Init Failed"
                   ("Failed to get IGDB token: " ++ py_str_int (status_code r) ++ " " ++ resp_text r)]).
Proof.
  intros (config & Hc & H1 & H2) Hp Hok.
  unfold app_start, app_init, igdb_init, get_token, of_sum. py_unfold.
  rewrite Hc, H1, H2. cbn -[token_request]. rewrite Hp. cbn -[token_request]. rewrite Hok. reflexivity.
Qed.

(** C34: when [load_game_art] returns or raises, the image label shows the
    empty pixmap or "Failed to load art.": the text "Loading box art..."
    it sets first is replaced at once by [setPixmap(QPixmap())] and is
    never visible. *)
Theorem load_game_art_label n e w o :
  label_image (final_state (load_game_art n e w o)) = LPixmap PixNull \/
  label_image (final_state (load_game_art n e w o)) = LText "Failed to load art.".
Proof.
  unfold load_game_art. rewrite !final_state_bind_modify.
  match goal with |- context [try_except ?m ?h] =>
    assert (Hp : preserves label_or_failed (try_except m h)) end.
  { unfold replace_img_thread. effects_auto;
      apply preserves_modify; intros; unfold label_or_failed; auto. }
  apply Hp.
Qed.


(** ** Every started download is shown *)

Lemma on_art_loaded_art p e w o : on_art_loaded p e w o = (inr tt, set_label_image (art_of p) w, o).
Proof. destruct p; reflexivity. Qed.

Lemma download_image_runs url e (w : window) o :
  exists pix o', download_image url e w o = (inr pix, w, o').
Proof.
  unfold download_image, http_get. py_unfold.
  destruct (has_http_scheme url); cbn; eauto.
  destruct (env_get e url) as [m|r]; cbn; eauto.
  destruct (resp_ok r); cbn; eauto.
Qed.

Lemma find_thread_finished id w : find_thread id (finish_thread id w) = None.
Proof.
  unfold find_thread. cbn [threads finish_thread].
  destruct (find _ _) as [t|] eqn:E; [|reflexivity].
  destruct (find_some _ _ E) as [Hin Ht]. apply filter_In in Hin as [_ Hn].
  rewrite Ht in Hn. discriminate.
Qed.

(** The main loop delivers the queued signals one per [Deliver]: as many
    [Deliver]s as signals empty the queue, and the label shows the last. *)
Lemma deliver_all e s :
  sstatus s = Running ->
  let s' := run_events e s (repeat Deliver (length (pending s))) in
  sstatus s' = Running /\ pending s' = [] /\ threads (swin s') = threads (swin s) /\
  selected_game_path (swin s') = selected_game_path (swin s) /\
  (pending s <> [] -> label_image (swin s') = art_of (snd (List.last (pending s) (0, PixNull)))).
Proof.
  destruct s as [ns w q o st]. cbn [sstatus pending swin]. intros ->. revert w o.
  induction q as [|[i p] q IH]; intros w o; [cbn; repeat split; congruence|].
  cbn [length repeat run_events fold_left]. fold (run_events e).
  cbn [app_step sstatus pending]. unfold run_slot. cbn [swin sio sns]. rewrite on_art_loaded_art.
  cbn [status_of]. destruct (IH (set_label_image (art_of p) w) o) as (H1 & H2 & H3 & H5 & H4).
  repeat split; [exact H1 | exact H2 | exact H3 | exact H5 |]. intros _.
  destruct q as [|x q]; [reflexivity|]. exact (H4 ltac:(discriminate)).
Qed.

(** ** Downloads that run beside each other *)

Lemma fetch_cover_url_only_exceptions c n : only_exceptions (S := window) (fetch_cover_url c n).
Proof. unfold fetch_cover_url, search_game, json_of, py_index0, py_get. effects_auto. Qed.

#[local] Hint Resolve fetch_cover_url_only_exceptions : effects.

Lemma select_file_never_raises p : never_raises (select_file p).
Proof. unfold select_file, load_game_art, replace_img_thread. effects_auto. Qed.

Lemma find_thread_start id url u w :
  find_thread id w = Some u -> find_thread id (start_thread url w) = Some u.
Proof.
  unfold find_thread, start_thread. cbn [threads].
  induction (threads w) as [|t ts IH]; cbn; [discriminate|].
  destruct (Nat.eqb (fst t) id); auto.
Qed.

Lemma select_file_keeps_thread p id u :
  preserves (keeps_prop (fun w => find_thread id w = Some u)) (select_file p).
Proof.
  unfold select_file, load_game_art, replace_img_thread. effects_auto.
  all: apply preserves_modify; intros w; unfold keeps_prop; apply find_thread_start.
Qed.

(** The URLs the program hands to [ImageDownloadThread]. *)
Definition igdb_download (t : nat * string) : Prop := snd t = "" \/ cover_shape (snd t).

Lemma fetch_then_replace c n :
  preserves (keeps_prop (fun w => Forall igdb_download (threads w)))
    (let* url := fetch_cover_url c n in replace_img_thread url).
Proof.
  apply (preserves_bind_post _ (fun u => u = "" \/ cover_shape u)).
  - intros e w o u H. exact (fetch_cover_url_shape c n e w o u H).
  - apply preserves_keeps; [typeclasses eauto | apply fetch_cover_url_keeps_state].
  - intros u Hu. unfold replace_img_thread. effects_auto.
    apply preserves_modify. intros w Hw. unfold start_thread. cbn [threads].
    apply Forall_app. split; [exact Hw|]. constructor; [exact Hu | constructor].
Qed.

Lemma select_file_downloads p :
  preserves (keeps_prop (fun w => Forall igdb_download (threads w))) (select_file p).
Proof. pose proof fetch_then_replace. unfold select_file, load_game_art. effects_auto. Qed.

Lemma finish_thread_forall (Q : nat * string -> Prop) id w :
  Forall Q (threads w) -> Forall Q (threads (finish_thread id w)).
Proof.
  unfold finish_thread. cbn [threads]. rewrite !List.Forall_forall.
  intros H t Ht. apply filter_In in Ht as [Ht _]. auto.
Qed.

(** [select_file] of a non-empty path selects it. *)
Lemma select_file_selects p e w o :
  p <> "" -> selected_game_path (final_state (select_file p e w o)) = Some p.
Proof.
  intros Hp. unfold select_file. destruct (String.eqb_spec p ""); [contradiction|].
  py_unfold.
  match goal with |- context [load_game_art ?n e ?w1 ?o1] =>
    pose proof (load_game_art_same_sel n e w1 o1) as Hv;
    destruct (load_game_art n e w1 o1) as [[r w2] o2] end.
  unfold same_sel, sel_view, final_state in Hv. cbn in Hv. injection Hv. intros.
  destruct r; cbn; congruence.
Qed.

(** A running download, once its thread ends and the main loop delivers
    the queued signals, is shown; the selection is left as it was. *)
Lemma download_delivered e s id url :
  sstatus s = Running -> find_thread id (swin s) = Some url ->
  let s' := run_events e s (ThreadRun id :: repeat Deliver (S (length (pending s)))) in
  sstatus s' = Running /\ pending s' = [] /\ find_thread id (swin s') = None /\
  selected_game_path (swin s') = selected_game_path (swin s) /\
  exists pix, result (download_image url e (swin s) (sio s)) = inr pix /\ label_image (swin s') = art_of pix.
Proof.
  intros Hs Hf s'. subst s'. cbn [run_events fold_left]. fold (run_events e).
  destruct (download_image_runs url e (swin s) (sio s)) as (pix & o' & Hd).
  set (s1 := mkSys (sns s) (finish_thread id (swin s)) (pending s ++ [(id, pix)]) o' Running).
  assert (E1 : app_step e s (ThreadRun id) = s1) by (unfold app_step; now rewrite Hs, Hf, Hd).
  rewrite E1. change (fold_left (app_step e) ?l s1) with (run_events e s1 l).
  replace (S (length (pending s))) with (length (pending s1))
    by (cbn [pending s1]; rewrite length_app; cbn; lia).
  destruct (deliver_all e s1 eq_refl) as (H1 & H2 & H3 & H5 & H4).
  repeat split; [exact H1 | exact H2 | | exact H5 |].
  - unfold find_thread. rewrite H3. apply find_thread_finished.
  - exists pix. rewrite Hd. split; [reflexivity|]. rewrite H4.
    + cbn [pending s1]. now rewrite List.last_last.
    + cbn [pending s1]. destruct (pending s); discriminate.
Qed.

(** C37: liveness of the cover download.  In a running system where the
    download thread [id] runs, once that thread runs to its end and the
    main loop delivers the queued signals (the earlier ones and the new
    one), no signal is left, the thread is gone, the process still runs,
    and the image label shows what [on_art_loaded] makes of that
    download's pixmap. *)
Theorem app_download_delivered e s id url :
  sstatus s = Running -> find_thread id (swin s) = Some url ->
  let s' := run_events e s (ThreadRun id :: repeat Deliver (S (length (pending s)))) in
  sstatus s' = Running /\ pending s' = [] /\ find_thread id (swin s') = None /\
  exists pix, result (download_image url e (swin s) (sio s)) = inr pix /\ label_image (swin s') = art_of pix.
Proof.
  intros Hs Hf. destruct (download_delivered e s id url Hs Hf) as (H1 & H2 & H3 & _ & H4). auto.
Qed.

(** A selection leaves the process running and every download running. *)
Lemma app_select_keeps_running_core e s p :
  sstatus s = Running ->
  sstatus (app_step e s (ClickSelect p)) = Running /\
  (forall id url, find_thread id (swin s) = Some url ->
     find_thread id (swin (app_step e s (ClickSelect p))) = Some url).
Proof.
  intros Hs. unfold app_step, run_slot. rewrite Hs.
  destruct (select_file_never_raises p e (swin s) (sio s)) as [a Ha].
  pose proof (fun id u => select_file_keeps_thread p id u e (swin s) (sio s)) as Hk.
  unfold result, final_state, keeps_prop in *.
  destruct (select_file p e (swin s) (sio s)) as [[r w] o]. cbn in *. subst r. auto.
Qed.

(** C4: selecting a game never stops the program, even while a cover
    download runs: an error of the IGDB search is caught by
    [load_game_art], and rebinding [self.img_thread] does not destroy the
    previous thread, whose running [run] frame holds it.  Every download
    that ran before the click still runs after it, with the same URL. *)
Theorem app_select_keeps_running e s p :
  sstatus s = Running ->
  sstatus (app_step e s (ClickSelect p)) = Running /\
  (forall id url, find_thread id (swin s) = Some url ->
     find_thread id (swin (app_step e s (ClickSelect p))) = Some url).
Proof. exact (app_select_keeps_running_core e s p). Qed.

(** C13: the program downloads only IGDB covers: in every reachable
    system every download that runs fetches a [cover_big] image URL of
    images.igdb.com, or the empty URL when the search found no cover
    ([requests] then fails at once and the thread emits a null pixmap). *)
Theorem app_downloads_covers e s :
  reachable e s -> forall t, In t (threads (swin s)) -> snd t = "" \/ cover_shape (snd t).
Proof.
  intros Hr. apply List.Forall_forall.
  apply (reachable_window_inv e (fun w => Forall igdb_download (threads w))); auto.
  - intros ans s0 Hs. destruct (app_start_window _ _ _ _ Hs) as (_ & _ & E). rewrite E. constructor.
  - apply select_file_downloads.
  - intros pix. apply on_art_loaded_keeps. intros c w H. exact H.
  - apply finish_thread_forall.
Qed.

(** C14: the image label can show the cover of a game that is no longer
    selected.  A download that runs when another game is selected keeps
    running; once it ends and the main loop delivers the queued signals,
    [on_art_loaded], which does not look at the sender, shows that
    download's image while the selection is the new game. *)
Theorem app_superseded_cover_shown e s p id url :
  sstatus s = Running -> find_thread id (swin s) = Some url -> p <> "" ->
  let s1 := app_step e s (ClickSelect p) in
  let s2 := run_events e s1 (ThreadRun id :: repeat Deliver (S (length (pending s1)))) in
  sstatus s2 = Running /\ selected_game_path (swin s2) = Some p /\
  exists pix, result (download_image url e (swin s1) (sio s1)) = inr pix /\ label_image (swin s2) = art_of pix.
Proof.
  intros Hs Hf Hp s1 s2.
  destruct (app_select_keeps_running_core e s p Hs) as [H1 Hk].
  destruct (download_delivered e s1 id url H1 (Hk id url Hf)) as (H2 & _ & _ & Hsel & Hpix).
  split; [exact H2|]. split; [|exact Hpix]. unfold s2. rewrite Hsel.
  unfold s1, app_step, run_slot. rewrite Hs. pose proof (select_file_selects p e (swin s) (sio s) Hp) as E.
  unfold final_state in E. destruct (select_file p e (swin s) (sio s)) as [[r w] o]. exact E.
Qed.

End WithDB.

(** ** Runs of the concrete world

    The witnesses run the program with [ascii_db]: every path of these
    runs is ASCII. *)

#[local] Existing Instance ascii_db.

Lemma app_burn_button_consistent_witness :
  let e := app_env good_config in
  let s := app_step e app_s0 (ClickSelect alpha_iso) in
  reachable e s /\ btn_burn_enabled (swin s) = true /\ exists p, shows_selection (swin s) p.
Proof.
  intros e s. assert (Hr : reachable e s) by (apply reach_step, reachable_app_s0).
  assert (Hb : btn_burn_enabled (swin s) = true) by (vm_compute; reflexivity).
  split; [exact Hr|]. split; [exact Hb|]. exact (app_burn_button_consistent e s Hr Hb).
Defined.

Lemma app_igdb_client_fixed_witness :
  let e := app_env good_config in
  let s := run_events e app_s0 [ClickSelect alpha_iso; ThreadRun 0; Deliver; ClickSelect beta_iso] in
  reachable e s /\ startup_client e = inr (igdb (swin s)).
Proof.
  intros e s. assert (Hr : reachable e s) by apply reachable_run_events, reachable_app_s0.
  split; [exact Hr|]. exact (app_igdb_client_fixed e s Hr).
Defined.

Lemma app_style_sheet_fixed_witness :
  let e := app_env good_config in
  let s := run_events e app_s0 [ClickSelect alpha_iso; ThreadRun 0; Deliver; ClickGear None] in
  reachable e s /\ style_sheet (swin s) = "background-color: #1e1e1e; color: white;".
Proof.
  intros e s. assert (Hr : reachable e s) by apply reachable_run_events, reachable_app_s0.
  split; [exact Hr|]. exact (app_style_sheet_fixed e s Hr).
Defined.

Lemma app_burn_shown_selection_witness :
  let e := app_env good_config in
  let s0 := match app_start e settings_module [true] with inr s => s | inl _ => app_s0 end in
  let s := app_step e s0 (ClickSelect alpha_iso) in
  let a := burn_args imgburn_exe alpha_iso "D:" in
  reachable e s /\ In (EvSpawn a) (io_trace (sio (app_step e s ClickBurn))) /\
  (In (EvSpawn a) (io_trace (sio s)) \/
   exists p d, shows_selection (swin s) p /\ a = burn_args (imgburn_path (swin s)) p d).
Proof.
  intros e s0 s a.
  assert (Hr : reachable e s) by (apply reach_step, (reach_start e [true]); vm_compute; reflexivity).
  assert (Hi : In (EvSpawn a) (io_trace (sio (app_step e s ClickBurn))))
    by (vm_compute; repeat (solve [left; reflexivity] || right)).
  split; [exact Hr|]. split; [exact Hi|]. exact (app_burn_shown_selection e s a Hr Hi).
Defined.

Lemma app_gear_click_crashes_witness :
  let s := app_s0 in
  reachable (app_env good_config) s /\ sstatus s = Running /\
  app_step (app_env good_config) s (ClickGear None) =
  mkSys (sns s) (swin s) (pending s) (sio s) (Stopped (module_attr_error "settings" "FONT_SIZE")).
Proof.
  intros s. split; [exact reachable_app_s0|]. split; [vm_compute; reflexivity|].
  apply app_gear_click_crashes; [exact reachable_app_s0 | vm_compute; reflexivity].
Defined.

Lemma app_select_keeps_running_witness :
  let e := app_env good_config in
  let s := app_step e app_s0 (ClickSelect alpha_iso) in
  sstatus s = Running /\
  sstatus (app_step e s (ClickSelect beta_iso)) = Running /\
  (forall id url, find_thread id (swin s) = Some url ->
     find_thread id (swin (app_step e s (ClickSelect beta_iso))) = Some url).
Proof.
  intros e s. assert (H : sstatus s = Running) by (vm_compute; reflexivity).
  split; [exact H|]. exact (app_select_keeps_running e s beta_iso H).
Defined.

Lemma app_downloads_covers_witness :
  let e := app_env good_config in
  let s := app_step e app_s0 (ClickSelect alpha_iso) in
  let t := (0, get_cover_url (JStr "a1") "cover_big") in
  reachable e s /\ In t (threads (swin s)) /\ (snd t = "" \/ cover_shape (snd t)).
Proof.
  intros e s t. assert (Hr : reachable e s) by (apply reach_step, reachable_app_s0).
  assert (Ht : In t (threads (swin s))) by (vm_compute; auto).
  split; [exact Hr|]. split; [exact Ht|]. exact (app_downloads_covers e s Hr t Ht).
Defined.

Lemma app_superseded_cover_shown_witness :
  let e := app_env good_config in
  let s := app_step e app_s0 (ClickSelect alpha_iso) in
  let url := get_cover_url (JStr "a1") "cover_big" in
  sstatus s = Running /\ find_thread 0 (swin s) = Some url /\ beta_iso <> "" /\
  let s1 := app_step e s (ClickSelect beta_iso) in
  let s2 := run_events e s1 (ThreadRun 0 :: repeat Deliver (S (length (pending s1)))) in
  sstatus s2 = Running /\ selected_game_path (swin s2) = Some beta_iso /\
  exists pix, result (download_image url e (swin s1) (sio s1)) = inr pix /\ label_image (swin s2) = art_of pix.
Proof.
  intros e s url. assert (H1 : sstatus s = Running) by (vm_compute; reflexivity).
  assert (H2 : find_thread 0 (swin s) = Some url) by (vm_compute; reflexivity).
  split; [exact H1|]. split; [exact H2|]. split; [discriminate|].
  exact (app_superseded_cover_shown e s beta_iso 0 url H1 H2 ltac:(discriminate)).
Defined.

(** The token endpoint refuses the credentials. *)
Definition token_denied_env : env := {|
  env_config := good_config;
  env_isfile := fun _ => true;
  env_isdir := fun _ => false;
  env_cwd := "C:\burn";
  env_logical_drives := 8;
  env_drive_type := fun _ => 3;
  env_run := fun _ => inr 0;
  env_popen := fun _ => None;
  env_post := fun _ => inr {| status_code := 401; resp_text := "invalid client"; resp_json := inl "";
                              resp_image := false |};
  env_get := fun _ => inl "offline"
|}%Z.

Lemma app_start_token_error_witness :
  let c := {| client_id := JStr "id"; client_secret := JStr "secret"; token := JNull |} in
  let r := {| status_code := 401; resp_text := "invalid client"; resp_json := inl ""; resp_image := false |}%Z in
  (exists config, env_config token_denied_env = inr config /\ config_get config "TWITCH_CLIENT_ID" = inr (JStr "id") /\
                  config_get config "TWITCH_CLIENT_SECRET" = inr (JStr "secret")) /\
  env_post token_denied_env (token_request c) = inr r /\ resp_ok r = false /\
  app_start token_denied_env settings_module [] =
  inl (SystemExit 1, mkIO [] [EvHttp (token_request c);
        EvMessage Critical "IGDB Init Failed"
          ("Failed to get IGDB token: " ++ py_str_int (status_code r) ++ " " ++ resp_text r)]).
Proof.
  intros c r.
  assert (H1 : exists config, env_config token_denied_env = inr config /\
     config_get config "TWITCH_CLIENT_ID" = inr (JStr "id") /\
     config_get config "TWITCH_CLIENT_SECRET" = inr (JStr "secret"))
    by (eexists; split; [reflexivity|]; split; reflexivity).
  assert (H2 : env_post token_denied_env (token_request c) = inr r) by reflexivity.
  assert (H3 : resp_ok r = false) by reflexivity.
  split; [exact H1|]. split; [exact H2|]. split; [exact H3|].
  exact (app_start_token_error token_denied_env [] _ _ r H1 H2 H3).
Defined.

Lemma app_start_config_error_witness :
  env_config (app_env (inl "[Errno 2] No such file or directory: 'config.json'")) =
    inl "[Errno 2] No such file or directory: 'config.json'" /\
  app_start (app_env (inl "[Errno 2] No such file or directory: 'config.json'")) settings_module [] =
  inl (SystemExit 1, mkIO [] [EvMessage Critical "IGDB Init Failed"
        ("Failed to load config.json: " ++ "[Errno 2] No such file or directory: 'config.json'")]).
Proof. split; [reflexivity|]. apply app_start_config_error. reflexivity. Defined.

Lemma app_download_delivered_witness :
  let e := app_env good_config in
  let s := app_step e app_s0 (ClickSelect alpha_iso) in
  sstatus s = Running /\ find_thread 0 (swin s) = Some (get_cover_url (JStr "a1") "cover_big") /\
  let s' := run_events e s (ThreadRun 0 :: repeat Deliver (S (length (pending s)))) in
  sstatus s' = Running /\ pending s' = [] /\ find_thread 0 (swin s') = None /\
  exists pix, result (download_image (get_cover_url (JStr "a1") "cover_big") e (swin s) (sio s)) = inr pix /\
    label_image (swin s') = art_of pix.
Proof.
  intros e s. assert (H1 : sstatus s = Running) by (vm_compute; reflexivity).
  assert (H2 : find_thread 0 (swin s) = Some (get_cover_url (JStr "a1") "cover_big")) by (vm_compute; reflexivity).
  split; [exact H1|]. split; [exact H2|]. exact (app_download_delivered e s 0 _ H1 H2).
Defined.

End App.
